(** * Airbnb listings near amenity clusters, and chain / non-chain restaurants

    A shallow embedding of the three Python sources

    - [airbnb/bounding_box.py]  (module [bounding_box] below),
    - [airbnb/airbnb.py]        (module [airbnb]),
    - [restuarants/restaurants.py] (module [restaurants]),

    followed by the properties of the specification that concern them.

    Python's [float] is IEEE-754 binary64; it is modelled by Rocq's primitive
    [float], whose operations are the same correctly rounded binary64
    operations, so the definitions below evaluate to the very numbers the
    scripts compute.  Statements about all floats go through the standard
    library's specification of these operations ([SpecFloat], [FloatAxioms]).

    A pandas [DataFrame] is modelled by the list of its rows, in order; the
    index labels play no role in the functions modelled here. *)

From Stdlib Require Import ZArith List Bool Lia Floats String Ascii Permutation.
From stdpp Require Import gmap strings.
Import ListNotations.

(** ** The Python runtime *)

Module Py.

(** The exceptions the modelled code can raise. *)
Inductive exn : Type :=
| AssertionError
| ZeroDivisionError
| ValueError
| KeyError
| AttributeError.

(** A computation either returns a value or raises. *)
Inductive result (A : Type) : Type :=
| Ok (a : A)
| Raise (e : exn).
Arguments Ok {A} a.
Arguments Raise {A} e.

Definition bind {A B : Type} (r : result A) (k : A -> result B) : result B :=
  match r with
  | Ok a => k a
  | Raise e => Raise e
  end.

Definition assert (b : bool) : result unit :=
  if b then Ok tt else Raise AssertionError.

(** A list comprehension whose body may raise: elements are evaluated from
    left to right and the first exception escapes. *)
Fixpoint comprehension {A B : Type} (f : A -> result B) (l : list A) : result (list B) :=
  match l with
  | [] => Ok []
  | x :: l' =>
      bind (f x) (fun y => bind (comprehension f l') (fun ys => Ok (y :: ys)))
  end.

(** [math.pi], and the two constants of CPython's [mathmodule.c] behind
    [math.radians] and [math.degrees]. *)
Definition pi : float := 0x1.921fb54442d18p+1%float.
Definition degToRad : float := (pi / 180)%float.
Definition radToDeg : float := (180 / pi)%float.

Definition radians (x : float) : float := (x * degToRad)%float.
Definition degrees (x : float) : float := (x * radToDeg)%float.

(** [x / y] on floats: a zero divisor (of either sign) raises. *)
Definition truediv (x y : float) : result float :=
  if (y =? 0)%float then Raise ZeroDivisionError else Ok (x / y)%float.

(** [float(n)] for an [int]: the nearest binary64 number. *)
Definition float_of_int (n : Z) : float :=
  SF2Prim (binary_normalize prec emax n 0 false).

(** Truthiness of a string: [if s:] holds for a non-empty string. *)
Definition truthy (s : string) : bool :=
  match s with
  | EmptyString => false
  | String _ _ => true
  end.

(** [s.replace(c, '')] for a one-character pattern. *)
Fixpoint remove_char (c : ascii) (s : string) : string :=
  match s with
  | EmptyString => EmptyString
  | String a s' =>
      if Ascii.eqb a c then remove_char c s' else String a (remove_char c s')
  end.

End Py.

Notation "'let*' x ':=' r 'in' k" := (Py.bind r (fun x => k))
  (at level 10, x pattern, r at level 100, k at level 200).

(** ** [bounding_box.py] *)

Module bounding_box.

(** The object returned by [get_bounding_box], with its four attributes
    assigned. *)
Record BoundingBox : Type := {
  lat_min : float;
  lon_min : float;
  lat_max : float;
  lon_max : float
}.

Section WithLibm.

(** [math.cos] is the C library's cosine: it is not part of the
    repository and is taken as a parameter. *)
Variable cos : float -> float.

Definition radius : float := 6371%float.

Definition parallel_radius (latitude_in_degrees : float) : float :=
  (radius * cos (Py.radians latitude_in_degrees))%float.

Definition get_bounding_box
    (latitude_in_degrees longitude_in_degrees half_side_in_km : float)
  : Py.result BoundingBox :=
  let* _ := Py.assert (0 <? half_side_in_km)%float in
  let* _ := Py.assert ((-90 <=? latitude_in_degrees)%float
                       && (latitude_in_degrees <=? 90)%float) in
  let* _ := Py.assert ((-180 <=? longitude_in_degrees)%float
                       && (longitude_in_degrees <=? 180)%float) in
  let lat := Py.radians latitude_in_degrees in
  let lon := Py.radians longitude_in_degrees in
  let parallel_radius := (radius * cos lat)%float in
  let dlat := (half_side_in_km / radius)%float in
  let lat_min := (lat - dlat)%float in
  let lat_max := (lat + dlat)%float in
  let* dlon_min := Py.truediv half_side_in_km parallel_radius in
  let lon_min := (lon - dlon_min)%float in
  let* dlon_max := Py.truediv half_side_in_km parallel_radius in
  let lon_max := (lon + dlon_max)%float in
  Py.Ok {| lat_min := Py.degrees lat_min;
           lon_min := Py.degrees lon_min;
           lat_max := Py.degrees lat_max;
           lon_max := Py.degrees lon_max |}.

(** The three assertions, together. *)
Definition preconditions
    (latitude_in_degrees longitude_in_degrees half_side_in_km : float) : bool :=
  (0 <? half_side_in_km)%float
  && ((-90 <=? latitude_in_degrees)%float && (latitude_in_degrees <=? 90)%float)
  && ((-180 <=? longitude_in_degrees)%float && (longitude_in_degrees <=? 180)%float).

(** The box [get_bounding_box] returns when nothing is raised. *)
Definition box_of
    (latitude_in_degrees longitude_in_degrees half_side_in_km : float) : BoundingBox :=
  let lat := Py.radians latitude_in_degrees in
  let lon := Py.radians longitude_in_degrees in
  let dlat := (half_side_in_km / radius)%float in
  let dlon := (half_side_in_km / parallel_radius latitude_in_degrees)%float in
  {| lat_min := Py.degrees (lat - dlat);
     lon_min := Py.degrees (lon - dlon);
     lat_max := Py.degrees (lat + dlat);
     lon_max := Py.degrees (lon + dlon) |}.

(** What is assumed of the C library: at the latitude of the centre, the
    cosine it returns lies in (0, 1].  (For every latitude the
    assertions admit, the true cosine of the rounded argument is at
    least [6.1e-17].) *)
Definition cos_in_range (latitude_in_degrees : float) : Prop :=
  (0 <? cos (Py.radians latitude_in_degrees))%float = true
  /\ (cos (Py.radians latitude_in_degrees) <=? 1)%float = true.

End WithLibm.

(** The two bounds of one coordinate, in degrees, as [get_bounding_box]
    computes them from the coordinate in radians [x], the radius [p] of the
    circle the offset is measured on and the half side [r]; and their
    distance. *)
Definition lower_bound (x p r : float) : float := Py.degrees (x - r / p)%float.
Definition upper_bound (x p r : float) : float := Py.degrees (x + r / p)%float.
Definition span (x p r : float) : float := (upper_bound x p r - lower_bound x p r)%float.

(** The spans of a box, as a caller computes them. *)
Definition lat_span (box : BoundingBox) : float := (lat_max box - lat_min box)%float.
Definition lon_span (box : BoundingBox) : float := (lon_max box - lon_min box)%float.

(** A polynomial cosine, used where a closed example needs some concrete
    [cos].  It returns exactly [1] at [0], as every C library does. *)
Definition cos_poly (x : float) : float :=
  let y := (x * x)%float in
  (1 - y / 2 * (1 - y / 12 * (1 - y / 30 * (1 - y / 56 * (1 - y / 90 *
     (1 - y / 132 * (1 - y / 182 * (1 - y / 240))))))))%float.

End bounding_box.

(** ** [airbnb.py] *)

Module airbnb.
Import bounding_box.

Definition MIN_AIRBNB_PRICE : Z := 0.
Definition MAX_AIRBNB_PRICE : Z := 100000.
(** [[49.246292, -123.116226]], as the nearest binary64 numbers. *)
Definition VANCOUVER_COORDINATES : float * float :=
  (0x1.89f867f0aa21ap+5%float, (-0x1.ec7703f2d3c79p+6)%float).
Definition MAX_DISTANCE_FROM_AMENITIES : float := 5%float.

(** A row of the listings table, with the columns [get_listings] reads and
    renames.  [N] is the type of the two columns that arrive as text
    ([price] as ["$85.00"], [host_acceptance_rate] as ["95%"]) and leave
    [get_listings] as numbers.  A missing text cell is [None]; a missing
    number is NaN. *)
Record Row (N : Type) : Type := {
  id : Z;
  name : option string;
  host_id : Z;
  host_name : option string;
  host_acceptance_rate : N;
  host_identity_verified : option string;
  lat : float;
  neighbourhood : option string;
  city : option string;
  country : option string;
  zipcode : option string;
  lon : float;
  price : N;
  accommodates : Z;
  min_nights : Z;
  num_reviews : Z;
  review_score : float
}.
Arguments id {N} _.
Arguments name {N} _.
Arguments host_id {N} _.
Arguments host_name {N} _.
Arguments host_acceptance_rate {N} _.
Arguments host_identity_verified {N} _.
Arguments lat {N} _.
Arguments neighbourhood {N} _.
Arguments city {N} _.
Arguments country {N} _.
Arguments zipcode {N} _.
Arguments lon {N} _.
Arguments price {N} _.
Arguments accommodates {N} _.
Arguments min_nights {N} _.
Arguments num_reviews {N} _.
Arguments review_score {N} _.

(** A number as [pd.to_numeric] returns it: an integer, kept exactly, or a
    binary64 float. *)
Inductive number : Type :=
| Int (n : Z)
| Float (x : float).

Definition is_int (v : number) : bool :=
  match v with
  | Int _ => true
  | Float _ => false
  end.

(** A number as a binary64 float: what an integer becomes in a [float64]
    column, and what numpy compares with a float. *)
Definition to_float (v : number) : float :=
  match v with
  | Int n => Py.float_of_int n
  | Float x => x
  end.

(** Rows of the file, with the fields of the two columns as they are
    written (an empty field, or one of [read_csv]'s markers of a missing
    value, is [None]); rows as [get_listings] returns them; and rows of a
    table whose two columns are [float64]. *)
Abbreviation RawListing := (Row (option string)).
Abbreviation ParsedListing := (Row number).
Abbreviation Listing := (Row float).

(** What [input()] returned is kept as text in the dictionary; the defaults
    of [dict.get] are the integer constants above. *)
Inductive value : Type :=
| VStr (s : string)
| VInt (n : Z).

(** [get_user_input], given the two answers typed by the user.  The minimum
    is stored under the key ["mix_price"], as in the source. *)
Definition get_user_input (min_price max_price : string) : gmap string string :=
  let input_val : gmap string string := ∅ in
  let input_val :=
    if Py.truthy min_price then <["mix_price"%string := min_price]> input_val
    else input_val in
  let input_val :=
    if Py.truthy max_price then <["max_price"%string := max_price]> input_val
    else input_val in
  input_val.

(** [user_filter.get(key, default)]. *)
Definition dict_get (d : gmap string string) (key : string) (dflt : Z) : value :=
  match d !! key with
  | Some s => VStr s
  | None => VInt dflt
  end.

Section WithParsers.

(** Code from outside the repository: whether [read_csv] reads a field
    as a number, or as a boolean; [pd.to_numeric] on one string ([None]
    when the string is not a number); Python's [float] on a string ([None]
    when it raises [ValueError]). *)
Variable csv_number : string -> bool.
Variable csv_boolean : string -> bool.
Variable to_numeric : string -> option number.
Variable float_of_string : string -> option float.

(** The fields of a column that are not missing. *)
Definition present (column : list (option string)) : list string :=
  omap (fun cell => cell) column.

(** Whether [read_csv] delivers a column as text (dtype [object], each
    field that is present a string).  It converts a column as a whole: to
    numbers when every field present is a number (so also when every field
    is missing), to booleans when every field present is a boolean.  A
    file without rows gives empty text columns. *)
Definition holds_text (column : list (option string)) : bool :=
  match column with
  | [] => true
  | _ :: _ =>
      negb (forallb csv_number (present column))
      && negb (forallb csv_boolean (present column))
  end.

(** [column.str]: only a text column has the accessor. *)
Definition str (column : list (option string)) : Py.result (list (option string)) :=
  if holds_text column then Py.Ok column else Py.Raise Py.AttributeError.

(** [.str.replace(c, '')]: a missing cell stays missing. *)
Definition str_replace (c : ascii) (column : list (option string))
  : list (option string) :=
  map (option_map (Py.remove_char c)) column.

(** [pd.to_numeric(cell, errors='coerce')]: what does not parse becomes
    NaN; a missing cell stays missing. *)
Definition to_numeric_coerce (cell : option string) : number :=
  match cell with
  | Some s =>
      match to_numeric s with
      | Some v => v
      | None => Float nan
      end
  | None => Float nan
  end.

(** [.apply(pd.to_numeric, errors='coerce')]: the results make an [int64]
    column when each of them is an integer, and a [float64] column
    otherwise. *)
Definition apply_to_numeric (column : list (option string)) : list number :=
  let values := map to_numeric_coerce column in
  if forallb is_int values then values
  else map (fun v => Float (to_float v)) values.

(** [listings[column].str.replace(c, '').apply(pd.to_numeric, errors='coerce')]. *)
Definition parse_column (c : ascii) (column : list (option string))
  : Py.result (list number) :=
  let* texts := str column in
  Py.Ok (apply_to_numeric (str_replace c texts)).

(** A row with its two parsed columns assigned. *)
Definition set_numbers (r : RawListing) (price' rate : number) : ParsedListing :=
  {| id := id r;
     name := name r;
     host_id := host_id r;
     host_name := host_name r;
     host_acceptance_rate := rate;
     host_identity_verified := host_identity_verified r;
     lat := lat r;
     neighbourhood := neighbourhood r;
     city := city r;
     country := country r;
     zipcode := zipcode r;
     lon := lon r;
     price := price';
     accommodates := accommodates r;
     min_nights := min_nights r;
     num_reviews := num_reviews r;
     review_score := review_score r |}.

(** The two assignments [listings['price'] = ...] and
    [listings['host_acceptance_rate'] = ...]: the parsed columns take the
    place of the text columns, row by row. *)
Fixpoint assign (rows : list RawListing) (prices rates : list number)
  : list ParsedListing :=
  match rows, prices, rates with
  | r :: rows', p :: prices', a :: rates' =>
      set_numbers r p a :: assign rows' prices' rates'
  | _, _, _ => []
  end.

(** [get_listings], from the rows of the file. *)
Definition get_listings (rows : list RawListing) : Py.result (list ParsedListing) :=
  let* prices := parse_column "$"%char (map price rows) in
  let* rates := parse_column "%"%char (map host_acceptance_rate rows) in
  Py.Ok (assign rows prices rates).

(** [float(v)]. *)
Definition py_float (v : value) : Py.result float :=
  match v with
  | VInt n => Py.Ok (Py.float_of_int n)
  | VStr s =>
      match float_of_string s with
      | Some x => Py.Ok x
      | None => Py.Raise Py.ValueError
      end
  end.

Definition well_reviewed (l : Listing) : bool :=
  (10 <? num_reviews l)%Z && (75 <? review_score l)%float.

Definition host_verified (l : Listing) : bool :=
  match host_identity_verified l with
  | Some s => String.eqb s "t"
  | None => false
  end.

(** The three selections [filter_listings] always makes. *)
Definition passes_quality (l : Listing) : bool :=
  negb (is_nan (review_score l)) && well_reviewed l && host_verified l.

Definition in_price_range (min_price max_price : float) (l : Listing) : bool :=
  (min_price <=? price l)%float && (price l <=? max_price)%float.

(** [filter_listings].  [user_filter=None] behaves as the empty
    dictionary: both are falsy. *)
Definition filter_listings (listings : list Listing) (user_filter : gmap string string)
  : Py.result (list Listing) :=
  let listings := List.filter (fun l => negb (is_nan (review_score l))) listings in
  let listings := List.filter well_reviewed listings in
  let listings := List.filter host_verified listings in
  if bool_decide (user_filter = ∅) then Py.Ok listings
  else
    let min_price := dict_get user_filter "min_price" MIN_AIRBNB_PRICE in
    let max_price := dict_get user_filter "max_price" MAX_AIRBNB_PRICE in
    let* lo := py_float min_price in
    let* hi := py_float max_price in
    Py.Ok (List.filter (in_price_range lo hi) listings).

End WithParsers.

(** A parsed row as [filter_listings] reads it.  The comparisons with the
    float bounds read an [int64] price as the nearest binary64 number. *)
Definition as_listing (l : ParsedListing) : Listing :=
  {| id := id l;
     name := name l;
     host_id := host_id l;
     host_name := host_name l;
     host_acceptance_rate := to_float (host_acceptance_rate l);
     host_identity_verified := host_identity_verified l;
     lat := lat l;
     neighbourhood := neighbourhood l;
     city := city l;
     country := country l;
     zipcode := zipcode l;
     lon := lon l;
     price := to_float (price l);
     accommodates := accommodates l;
     min_nights := min_nights l;
     num_reviews := num_reviews l;
     review_score := review_score l |}.

(** A row with another acceptance rate, [rate l]. *)
Definition with_rate (rate : Listing -> float) (l : Listing) : Listing :=
  {| id := id l;
     name := name l;
     host_id := host_id l;
     host_name := host_name l;
     host_acceptance_rate := rate l;
     host_identity_verified := host_identity_verified l;
     lat := lat l;
     neighbourhood := neighbourhood l;
     city := city l;
     country := country l;
     zipcode := zipcode l;
     lon := lon l;
     price := price l;
     accommodates := accommodates l;
     min_nights := min_nights l;
     num_reviews := num_reviews l;
     review_score := review_score l |}.

(** A row of the file with every ['$'] of its price and every ['%'] of
    its acceptance rate left out. *)
Definition without_symbols (r : RawListing) : RawListing :=
  {| id := id r;
     name := name r;
     host_id := host_id r;
     host_name := host_name r;
     host_acceptance_rate := option_map (Py.remove_char "%"%char) (host_acceptance_rate r);
     host_identity_verified := host_identity_verified r;
     lat := lat r;
     neighbourhood := neighbourhood r;
     city := city r;
     country := country r;
     zipcode := zipcode r;
     lon := lon r;
     price := option_map (Py.remove_char "$"%char) (price r);
     accommodates := accommodates r;
     min_nights := min_nights r;
     num_reviews := num_reviews r;
     review_score := review_score r |}.

(** Equality of two cells as [drop_duplicates] sees it: missing values are
    equal to each other, and floats are compared by value. *)
Definition same_float (x y : float) : bool :=
  (x =? y)%float || (is_nan x && is_nan y).

Definition same_text (x y : option string) : bool :=
  match x, y with
  | Some a, Some b => String.eqb a b
  | None, None => true
  | _, _ => false
  end.

Definition same_row (a b : Listing) : bool :=
  (id a =? id b)%Z && same_text (name a) (name b)
  && (host_id a =? host_id b)%Z && same_text (host_name a) (host_name b)
  && same_float (host_acceptance_rate a) (host_acceptance_rate b)
  && same_text (host_identity_verified a) (host_identity_verified b)
  && same_float (lat a) (lat b)
  && same_text (neighbourhood a) (neighbourhood b)
  && same_text (city a) (city b) && same_text (country a) (country b)
  && same_text (zipcode a) (zipcode b)
  && same_float (lon a) (lon b) && same_float (price a) (price b)
  && (accommodates a =? accommodates b)%Z && (min_nights a =? min_nights b)%Z
  && (num_reviews a =? num_reviews b)%Z
  && same_float (review_score a) (review_score b).

(** How many rows of [df] equal [r]. *)
Definition occurrences (r : Listing) (df : list Listing) : nat :=
  length (List.filter (same_row r) df).

(** [df.drop_duplicates(keep=False)]: every row that has an equal row
    elsewhere in the frame is dropped, all of its copies included. *)
Definition drop_duplicates_keep_false (df : list Listing) : list Listing :=
  List.filter (fun r => (occurrences r df =? 1)%nat) df.

(** [pd.concat(frames)]: an empty list of frames raises [ValueError]. *)
Definition concat (frames : list (list Listing)) : Py.result (list Listing) :=
  match frames with
  | [] => Py.Raise Py.ValueError
  | _ :: _ => Py.Ok (List.concat frames)
  end.

(** The two selections made for one box, in the order of the source. *)
Definition above_min (location : BoundingBox) (l : Listing) : bool :=
  (lat_min location <? lat l)%float && (lon_min location <? lon l)%float.

Definition below_max (location : BoundingBox) (l : Listing) : bool :=
  (lat l <? lat_max location)%float && (lon l <? lon_max location)%float.

Definition select_in_box (airbnb_locations : list Listing) (location : BoundingBox)
  : list Listing :=
  let listings := List.filter (above_min location) airbnb_locations in
  List.filter (below_max location) listings.

(** The listing lies inside the box, bounds excluded. *)
Definition strictly_inside (location : BoundingBox) (l : Listing) : bool :=
  (lat_min location <? lat l)%float && (lat l <? lat_max location)%float
  && (lon_min location <? lon l)%float && (lon l <? lon_max location)%float.

(** In how many of the boxes the listing lies. *)
Definition boxes_containing (boxes : list BoundingBox) (l : Listing) : nat :=
  length (List.filter (fun location => strictly_inside location l) boxes).

(** No row of the frame has an equal row elsewhere in it. *)
Definition distinct_rows (df : list Listing) : bool :=
  forallb (fun r => (occurrences r df =? 1)%nat) df.

Section WithLibm.
Variable cos : float -> float.

(** The boxes of the cluster centres, when all of them can be computed. *)
Definition ideal_locations (clusters_center : list (float * float)) (distance : float)
  : Py.result (list BoundingBox) :=
  Py.comprehension
    (fun center => get_bounding_box cos (fst center) (snd center) distance)
    clusters_center.

Definition get_ideal_listings
    (airbnb_locations : list Listing) (clusters_center : list (float * float))
    (distance : float) : Py.result (list Listing) :=
  let* ideal_locations := ideal_locations clusters_center distance in
  let ideal_listings := map (select_in_box airbnb_locations) ideal_locations in
  let* all := concat ideal_listings in
  Py.Ok (drop_duplicates_keep_false all).

End WithLibm.

End airbnb.

(** ** [restaurants.py] *)

Module restaurants.

Definition RESTAURANTS : list string := ["restaurant"; "cafe"; "fast_food"]%string.

(** A row of the amenities table; a missing value (NaN) is [None]. *)
Record Restaurant : Type := {
  lat : float;
  lon : float;
  amenity : option string;
  name : option string
}.

(** [Series.isin] and [Series.notna], on one value. *)
Definition isin (x : option string) (values : list string) : bool :=
  match x with
  | Some s => existsb (String.eqb s) values
  | None => false
  end.

Definition notna {A : Type} (x : option A) : bool :=
  match x with
  | Some _ => true
  | None => false
  end.

(** Rows carry their index label. *)
Definition get_restaurants (locations : list (Z * Restaurant)) : list (Z * Restaurant) :=
  let restaurants := List.filter (fun ir => isin (amenity (snd ir)) RESTAURANTS) locations in
  List.filter (fun ir => notna (name (snd ir))) restaurants.

(** A row together with its index label, and the same after
    [split_restaurants] has added [total_branches] and [reset_index] has
    turned the label into a column. *)
Record Branch : Type := {
  index : Z;
  row : Restaurant;
  total_branches : Z
}.

(** [restaurants.groupby('name').count()['total_branches']]: for each name,
    how many rows carry it; rows without a name belong to no group. *)
Definition groupby_name_count (restaurants : list (Z * Restaurant)) : gmap string Z :=
  foldr (fun ir count =>
           match name (snd ir) with
           | Some nm => <[nm := (1 + default 0 (count !! nm))%Z]> count
           | None => count
           end)
        ∅ restaurants.

(** [get_restaurant_count]: [.loc] raises [KeyError] on a label that is
    not in the index, a missing name included. *)
Definition get_restaurant_count (nm : option string) (df : gmap string Z) : Py.result Z :=
  match nm with
  | Some s =>
      match df !! s with
      | Some n => Py.Ok n
      | None => Py.Raise Py.KeyError
      end
  | None => Py.Raise Py.KeyError
  end.

(** Equality of two names; a missing name equals none. *)
Definition same_name (a b : option string) : bool :=
  match a, b with
  | Some x, Some y => String.eqb x y
  | _, _ => false
  end.

(** How many rows carry the name [nm]. *)
Definition branches (nm : option string) (restaurants : list (Z * Restaurant)) : nat :=
  length (List.filter (fun ir => same_name (name (snd ir)) nm) restaurants).

(** Every row has a name. *)
Definition all_named (restaurants : list (Z * Restaurant)) : bool :=
  forallb (fun ir => notna (name (snd ir))) restaurants.

(** The frame after the column [total_branches] has been filled in. *)
Definition with_total_branches (restaurants : list (Z * Restaurant)) : list Branch :=
  map (fun ir => {| index := fst ir;
                    row := snd ir;
                    total_branches := Z.of_nat (branches (name (snd ir)) restaurants) |})
      restaurants.

Definition split_restaurants (restaurants : list (Z * Restaurant))
  : Py.result (list Branch * list Branch) :=
  let count := groupby_name_count restaurants in
  let* restaurants :=
    Py.comprehension
      (fun ir =>
         let* n := get_restaurant_count (name (snd ir)) count in
         Py.Ok {| index := fst ir; row := snd ir; total_branches := n |})
      restaurants in
  let chain_restaurants := List.filter (fun b => (1 <? total_branches b)%Z) restaurants in
  let non_chain_restaurants := List.filter (fun b => (total_branches b <? 2)%Z) restaurants in
  Py.Ok (chain_restaurants, non_chain_restaurants).

End restaurants.

(** ** Sample data for the worked examples *)

Module samples.
Import airbnb.

(** A well-reviewed listing of a verified host, at the given place and
    price. *)
Definition listing (i : Z) (la lo pr : float) : Listing :=
  {| id := i;
     name := Some "Cosy room"%string;
     host_id := 7;
     host_name := Some "Ada"%string;
     host_acceptance_rate := 95%float;
     host_identity_verified := Some "t"%string;
     lat := la;
     neighbourhood := Some "Downtown"%string;
     city := Some "Vancouver"%string;
     country := Some "Canada"%string;
     zipcode := Some "V6B"%string;
     lon := lo;
     price := pr;
     accommodates := 2;
     min_nights := 1;
     num_reviews := 25;
     review_score := 96%float |}.

(** The same row as [read_csv] delivers it, with price and acceptance
    rate still text. *)
Definition raw_listing (i : Z) (pr rate : option string) : RawListing :=
  {| id := i;
     name := Some "Cosy room"%string;
     host_id := 7;
     host_name := Some "Ada"%string;
     host_acceptance_rate := rate;
     host_identity_verified := Some "t"%string;
     lat := 0%float;
     neighbourhood := Some "Downtown"%string;
     city := Some "Vancouver"%string;
     country := Some "Canada"%string;
     zipcode := Some "V6B"%string;
     lon := 100%float;
     price := pr;
     accommodates := 2;
     min_nights := 1;
     num_reviews := 25;
     review_score := 96%float |}.

(** A parser for the examples: it reads a non-empty string of decimal
    digits and rejects every other string.  On the strings of the examples
    (digit strings, and text that is no number) Python's [float] does the
    same. *)
Definition digit (c : ascii) : option Z :=
  let n := Z.of_N (N_of_ascii c) in
  if ((48 <=? n) && (n <=? 57))%Z then Some (n - 48)%Z else None.

Fixpoint digits_value (s : string) (acc : Z) : option Z :=
  match s with
  | EmptyString => Some acc
  | String c s' =>
      match digit c with
      | Some d => digits_value s' (10 * acc + d)%Z
      | None => None
      end
  end.

Definition parse_digits (s : string) : option float :=
  match s with
  | EmptyString => None
  | String _ _ => option_map Py.float_of_int (digits_value s 0%Z)
  end.

(** The same strings as [pd.to_numeric] reads them: a digit string is an
    integer. *)
Definition parse_number (s : string) : option number :=
  match s with
  | EmptyString => None
  | String _ _ => option_map Int (digits_value s 0%Z)
  end.

(** [read_csv] on the fields of the examples: a digit string is a number,
    and none of the fields is a boolean. *)
Definition is_number (s : string) : bool :=
  match parse_number s with
  | Some _ => true
  | None => false
  end.

Definition is_boolean (s : string) : bool := false.

(** Three restaurants, two of them of one chain. *)
Definition restaurant (nm : string) (la lo : float) : restaurants.Restaurant :=
  {| restaurants.lat := la;
     restaurants.lon := lo;
     restaurants.amenity := Some "restaurant"%string;
     restaurants.name := Some nm |}.

Definition three_restaurants : list (Z * restaurants.Restaurant) :=
  [(0%Z, restaurant "Starbucks" 0x1.89f867f0aa21ap+5 (-0x1.ec7703f2d3c79p+6));
   (1%Z, restaurant "Chez Ada" 49 (-123));
   (2%Z, restaurant "Starbucks" 0x1.8a66666666666p+5 (-0x1.ec66666666666p+6))].

(** A restaurant whose name is missing. *)
Definition nameless : restaurants.Restaurant :=
  {| restaurants.lat := 49;
     restaurants.lon := -123;
     restaurants.amenity := Some "cafe"%string;
     restaurants.name := None |}.

End samples.

(** ** Auxiliary definitions for the binary64 rounding proofs

    [SpecFloat] defines the binary64 operations through [binary_round_aux],
    which shifts a mantissa right while tracking a round and a sticky bit.
    The definitions below describe that computation arithmetically, over a
    quotient [a / b] of integers: [b = 1] for sums and products, [b] the
    divisor's mantissa for quotients. *)

Module Rounding.
Local Open Scope Z_scope.

(** Round to nearest, ties to even, of the rational [a / d] ([0 < d]). *)
Definition rne_q (a d : Z) : Z :=
  let q := a / d in
  let r := a mod d in
  if 2 * r <? d then q
  else if d <? 2 * r then q + 1
  else if Z.even q then q else q + 1.

(** Where the remainder [rem] of a division by [den] lies in its interval:
    the round bit and the sticky bit. *)
Definition loc_bits (rem den : Z) : bool * bool :=
  (den <=? 2 * rem, negb (rem =? 0) && negb (2 * rem =? den)).

(** The shift record [mrs] holds [a / b] after [k] more binary places
    have been dropped. *)
Definition Rep (a b k : Z) (mrs : shr_record) : Prop :=
  shr_m mrs = a / (b * 2 ^ k)
  /\ (shr_r mrs, shr_s mrs) = loc_bits (a mod (b * 2 ^ k)) (b * 2 ^ k).

(** The record [shr] starts from, for the quotient [a / b] and the
    location of its remainder. *)
Definition start_loc (a b : Z) : location :=
  let r := a mod b in
  if r =? 0 then loc_Exact
  else loc_Inexact (2 * r ?= b).


(** The second half of [binary_round_aux]: renormalise the rounded
    mantissa and detect overflow. *)
Definition finish (sx : bool) (q E : Z) : spec_float :=
  let '(mrs, e) := shr_fexp prec emax q E loc_Exact in
  match shr_m mrs with
  | Z0 => S754_zero sx
  | Zpos m => if e <=? emax - prec then S754_finite sx m e else S754_infinity sx
  | Zneg _ => S754_nan
  end.

(** The exponent [binary_round_aux] rounds at, for a quotient [q] carried at
    exponent [e]. *)
Definition target (q e : Z) : Z := fexp prec emax (Zdigits2 q + e).

(** [binary_round_aux] applied to the quotient [a / b] and the location of
    its remainder. *)
Definition round_quot (sx : bool) (a b e : Z) : spec_float :=
  binary_round_aux prec emax sx (a / b) e (start_loc a b).

(** A float that is not NaN and carries the sign bit [s]. *)
Definition signed_as (s : bool) (f : spec_float) : Prop :=
  match f with
  | S754_zero s' | S754_infinity s' | S754_finite s' _ _ => s' = s
  | S754_nan => False
  end.

(** [m1 * 2 ^ e1 <= m2 * 2 ^ e2], stated over the integers. *)
Definition dle (m1 e1 m2 e2 : Z) : Prop :=
  m1 * 2 ^ (e1 - Z.min e1 e2) <= m2 * 2 ^ (e2 - Z.min e1 e2).

(** The signed mantissa of a finite float. *)
Definition sval (s : bool) (m : positive) : Z := cond_Zopp s (Zpos m).

(** Zero or a finite non-zero number. *)
Definition is_real (f : spec_float) : Prop :=
  match f with
  | S754_zero _ | S754_finite _ _ _ => True
  | S754_infinity _ | S754_nan => False
  end.

(** What [finish] returns on a mantissa of at most [prec + 1] bits
    ([2 ^ 52 = 4503599627370496], [2 ^ 53 = 9007199254740992]). *)
Definition finished (sx : bool) (q E : Z) : spec_float :=
  match q with
  | Zpos m =>
      if q <? 9007199254740992
      then if E <=? 971 then S754_finite sx m E else S754_infinity sx
      else if E + 1 <=? 971 then S754_finite sx 4503599627370496 (E + 1)
           else S754_infinity sx
  | _ => S754_zero sx
  end.

(** The exponent and the scaled dividend [SFdiv_core_binary] works with. *)
Definition div_exp (mx : positive) (ex : Z) (my : positive) (ey : Z) : Z :=
  Z.min (fexp prec emax (Zpos (digits2_pos mx) + ex - (Zpos (digits2_pos my) + ey)))
        (ex - ey).

Definition div_num (mx : positive) (ex : Z) (my : positive) (ey : Z) : Z :=
  Zpos mx * 2 ^ (ex - ey - div_exp mx ex my ey).

(** A positive finite number, or plus infinity. *)
Definition is_positive (f : spec_float) : Prop :=
  match f with
  | S754_finite false _ _ | S754_infinity false => True
  | _ => False
  end.


(** Mantissa and exponent of a finite float, zero included. *)
Definition dy (f : spec_float) : Z * Z :=
  match f with
  | S754_finite s m e => (sval s m, e)
  | _ => (0, 0)
  end.

(** The value of a finite float in units of [2 ^ -1074], the spacing of the
    smallest binary64 numbers: an integer. *)
Definition ulps (f : spec_float) : Z :=
  match f with
  | S754_finite s m e => sval s m * 2 ^ (e + 1074)
  | _ => 0
  end.

Definition units (x : float) : Z := ulps (Prim2SF x).

End Rounding.

(** * Sweeping the admissible coordinates

    That a centre lies strictly inside its box is shown, for radii of 10
    metres and more, by walking over the admissible coordinates in steps
    shorter than the box's half-side and comparing, at each step, the
    bounds computed at its two ends.  The walk is written in
    continuation-passing style, so that it runs in constant space. *)

Module Sweep.
Local Open Scope float_scope.

(** The upper and lower bound of a box side, for the angular offset [d]
    around the coordinate [x]. *)
Definition upper (d x : float) : float := Py.degrees (Py.radians x + d).
Definition lower (d x : float) : float := Py.degrees (Py.radians x - d).

(** One step of a sweep over the coordinates from [lo] to [hi]: from [a]
    to [b = a + step], provided the bounds computed at the two ends
    already enclose the whole step. *)
Definition advance (d step lo hi : float) (k : float -> bool) (a : float) : bool :=
  let b := a + step in
  if (lo <=? a) && (a <=? b) && (b <=? hi) && (b <? upper d a) && (lower d b <? a)
  then k b else false.

(** [n] steps, then [k]. *)
Fixpoint sweep (d step lo hi : float) (n : positive) (k : float -> bool) (a : float) : bool :=
  match n with
  | xH => advance d step lo hi k a
  | xO n' => sweep d step lo hi n' (sweep d step lo hi n' k) a
  | xI n' => advance d step lo hi (sweep d step lo hi n' (sweep d step lo hi n' k)) a
  end.

(** Every coordinate after [a], up to [b], lies strictly between its two
    bounds. *)
Definition covered (d lo hi a b : float) : Prop :=
  (lo <=? a) = true /\ (a <=? b) = true /\ (b <=? hi) = true
  /\ forall x, (a <? x) = true -> (x <=? b) = true ->
       (lower d x <? x) = true /\ (x <? upper d x) = true.

(** 10 metres, in km, and the angular offset it gives along a meridian. *)
Definition least_radius : float := 0x1.47ae147ae147bp-7.
Definition least_offset : float := least_radius / bounding_box.radius.

End Sweep.

(** ** Maps: the part of [folium] the scripts use *)

Module folium.

(** [folium.CircleMarker(location, radius=..., color=...)]. *)
Record CircleMarker : Type := {
  location : float * float;
  radius : float;
  color : string
}.

(** A [FeatureGroup] holds its children in the order they were added. *)
Definition FeatureGroup : Type := list CircleMarker.

(** A [Map], with the layers added to it, oldest first. *)
Record Map : Type := {
  center : float * float;
  zoom_start : Z;
  children : list FeatureGroup
}.

Definition new_map (location : float * float) (zoom : Z) : Map :=
  {| center := location; zoom_start := zoom; children := [] |}.

(** [van_map.add_child(layer)] returns the map itself. *)
Definition add_child (van_map : Map) (layer : FeatureGroup) : Map :=
  {| center := center van_map;
     zoom_start := zoom_start van_map;
     children := children van_map ++ [layer] |}.

(** A location is refused when one of its coordinates is NaN. *)
Definition valid_location (location : float * float) : bool :=
  negb (is_nan (fst location)) && negb (is_nan (snd location)).

End folium.

(** ** [airbnb.py]: amenities *)

Module amenities.
Import folium.

Definition BASIC_AMENITIES : list string :=
  ["restaurant"; "fast_food"; "fuel"; "atm"; "bank"; "pharmacy"; "clinic"; "cinema";
   "bar"]%string.

Definition CLUSTER_COLORS : list string :=
  ["red"; "blue"; "green"; "purple"; "orange"; "darkred"; "lightred"; "cadetblue";
   "darkblue"; "darkgreen"; "darkpurple"; "pink"; "lightgreen"; "beige"; "black"]%string.

(** The amenities table is the one [restaurants.py] reads: same rows. *)
Abbreviation Amenity := restaurants.Restaurant.

(** [locations['amenity'] == amenity], on one row: a missing category
    equals none. *)
Definition amenity_is (amenity : string) (ir : Z * Amenity) : bool :=
  restaurants.same_name (restaurants.amenity (snd ir)) (Some amenity).

(** [filter_amenities]: one entry per basic amenity, then ['all']. *)
Definition filter_amenities (locations : list (Z * Amenity))
  : gmap string (list (Z * Amenity)) :=
  let amenities_types :=
    fold_left
      (fun amenities_types amenity =>
         <[amenity := List.filter (amenity_is amenity) locations]> amenities_types)
      BASIC_AMENITIES ∅ in
  <["all"%string :=
      List.filter (fun ir => restaurants.isin (restaurants.amenity (snd ir)) BASIC_AMENITIES)
        locations]> amenities_types.

(** The exceptions of [plot_amenities_cluster]. *)
Inductive exn : Type :=
| ValueError
| IndexError.

Inductive result (A : Type) : Type :=
| Ok (a : A)
| Raise (e : exn).
Arguments Ok {A} a.
Arguments Raise {A} e.

Definition bind {A B : Type} (r : result A) (k : A -> result B) : result B :=
  match r with
  | Ok a => k a
  | Raise e => Raise e
  end.

(** [max(column)]: an empty column raises [ValueError]. *)
Definition py_max (column : list Z) : result Z :=
  match column with
  | [] => Raise ValueError
  | x :: column' => Ok (fold_left Z.max column' x)
  end.

(** [range(n)]. *)
Definition range (n : Z) : list Z := map Z.of_nat (seq 0 (Z.to_nat n)).

(** [l[i]] on a list: a negative index counts from the end, and an index
    outside the list raises [IndexError]. *)
Definition getitem (l : list string) (i : Z) : result string :=
  let n := Z.of_nat (length l) in
  let j := if (i <? 0)%Z then (i + n)%Z else i in
  if (j <? 0)%Z then Raise IndexError
  else
    match nth_error l (Z.to_nat j) with
    | Some x => Ok x
    | None => Raise IndexError
    end.

(** A row of the table [k_mean_cluster] returns: an amenity and the label
    of its cluster. *)
Record Clustered : Type := {
  row : Amenity;
  clusters : Z
}.

(** [drop_mark]: the marker is appended to the layer. *)
Definition drop_mark (df : Clustered) (layer : FeatureGroup) (color : string)
  : result FeatureGroup :=
  let location := (restaurants.lat (row df), restaurants.lon (row df)) in
  if valid_location location
  then Ok (layer ++ [ {| location := location; radius := 1; color := color |} ])
  else Raise ValueError.

(** [frame.apply(drop_mark, axis=1, layer=layer, color=color)]:
    [drop_mark] is called once on each row, in order; nothing is added
    for a frame without rows. *)
Fixpoint apply_drop_mark (frame : list Clustered) (layer : FeatureGroup) (color : string)
  : result FeatureGroup :=
  match frame with
  | [] => Ok layer
  | df :: frame' =>
      bind (drop_mark df layer color) (fun layer => apply_drop_mark frame' layer color)
  end.

(** The body of the [for] loop, over the values of [i] still to come. *)
Fixpoint for_clusters (indices : list Z) (amenities : list Clustered)
    (incidents : FeatureGroup) : result FeatureGroup :=
  match indices with
  | [] => Ok incidents
  | i :: indices' =>
      let selected := List.filter (fun df => (clusters df =? i)%Z) amenities in
      bind (getitem CLUSTER_COLORS i) (fun color =>
      bind (apply_drop_mark selected incidents color) (fun incidents =>
      for_clusters indices' amenities incidents))
  end.

Definition plot_amenities_cluster (amenities : list Clustered) (van_map : option Map)
  : result Map :=
  let van_map :=
    match van_map with
    | Some m => m
    | None => new_map airbnb.VANCOUVER_COORDINATES 12
    end in
  let incidents : FeatureGroup := [] in
  bind (py_max (map clusters amenities)) (fun highest =>
  bind (for_clusters (range highest) amenities incidents) (fun incidents =>
  Ok (add_child van_map incidents))).

(** The marker [drop_mark] adds for a row, and the rows it accepts. *)
Definition marker_of (color : string) (df : Clustered) : CircleMarker :=
  {| location := (restaurants.lat (row df), restaurants.lon (row df));
     radius := 1;
     color := color |}.

Definition valid_row (df : Clustered) : bool :=
  valid_location (restaurants.lat (row df), restaurants.lon (row df)).

(** The colour of the cluster labelled [i], for [0 <= i < 15]. *)
Definition color_of (i : Z) : string := nth (Z.to_nat i) CLUSTER_COLORS EmptyString.

(** One marker for each row labelled with one of [indices], label after
    label, and in the order of the table for one label. *)
Definition drawn (indices : list Z) (amenities : list Clustered) : FeatureGroup :=
  flat_map (fun i => map (marker_of (color_of i))
                       (List.filter (fun df => (clusters df =? i)%Z) amenities))
    indices.

End amenities.

(** ** [restaurants.py]: the map of chain and non-chain restaurants *)

Module restaurants_map.
Import folium restaurants.

Definition VANCOUVER_COORDINATES : float * float :=
  (0x1.89f867f0aa21ap+5%float, (-0x1.ec7703f2d3c79p+6)%float).

(** [drop_mark]: the marker is appended to the layer. *)
Definition drop_mark (df : Branch) (layer : FeatureGroup) (color : string)
  : Py.result FeatureGroup :=
  let location := (lat (row df), lon (row df)) in
  if valid_location location
  then Py.Ok (layer ++ [ {| location := location; radius := 0x1p-2; color := color |} ])
  else Py.Raise Py.ValueError.

(** [frame.apply(drop_mark, axis=1, layer=layer, color=color)], as in
    [amenities.apply_drop_mark]. *)
Fixpoint apply_drop_mark (frame : list Branch) (layer : FeatureGroup) (color : string)
  : Py.result FeatureGroup :=
  match frame with
  | [] => Py.Ok layer
  | df :: frame' =>
      let* layer := drop_mark df layer color in
      apply_drop_mark frame' layer color
  end.

(** [mark_restaurants(restaurants, color, van_map)]. *)
Definition mark_restaurants (restaurants : list Branch) (color : string)
    (van_map : option Map) : Py.result Map :=
  let van_map :=
    match van_map with
    | Some m => m
    | None => new_map VANCOUVER_COORDINATES 12
    end in
  let incidents : FeatureGroup := [] in
  let* incidents := apply_drop_mark restaurants incidents color in
  Py.Ok (add_child van_map incidents).

(** The first map [main] draws: the chain restaurants in red, then, on the
    same map, the others in blue. *)
Definition chain_non_chain_mark (restaurants : list (Z * Restaurant)) : Py.result Map :=
  let* groups := split_restaurants restaurants in
  let chain_restaurants := fst groups in
  let non_chain_restaurants := snd groups in
  let* chain_mark := mark_restaurants chain_restaurants "red" None in
  mark_restaurants non_chain_restaurants "blue" (Some chain_mark).

(** The marker [drop_mark] adds for a row, and the rows it accepts. *)
Definition marker_of (color : string) (df : Branch) : CircleMarker :=
  {| location := (lat (row df), lon (row df)); radius := 0x1p-2; color := color |}.

Definition valid_row (ir : Z * Restaurant) : bool :=
  valid_location (lat (snd ir), lon (snd ir)).

End restaurants_map.

(** ** Further sample rows *)

Module more_samples.

(** An amenity of the given category, at the given place, in the cluster
    labelled [k]. *)
Definition amenity (category : string) (la lo : float) (k : Z) : amenities.Clustered :=
  {| amenities.row := {| restaurants.lat := la;
                         restaurants.lon := lo;
                         restaurants.amenity := Some category;
                         restaurants.name := Some "Sample"%string |};
     amenities.clusters := k |}.

(** Three amenities in the clusters 0, 1 and 2. *)
Definition three_amenities : list amenities.Clustered :=
  [amenity "bank" 49 (-123) 0; amenity "atm" 0x1.8a66666666666p+5 (-123) 2;
   amenity "bar" 49 (-0x1.ec66666666666p+6) 1].

End more_samples.

(** * Binary64 arithmetic: comparisons and monotone rounding *)

Module Binary64.
Import Rounding.
Local Open Scope Z_scope.

(** ** Comparisons *)


Lemma compare_cont_Eq_antisym (p q : positive) :
  Pos.compare_cont Eq q p = CompOpp (Pos.compare_cont Eq p q).
Proof. rewrite Pos.compare_cont_antisym. reflexivity. Qed.

Lemma SFcompare_antisym (x y : spec_float) :
  SFcompare y x = option_map CompOpp (SFcompare x y).
Proof.
  destruct x as [sx|sx| |sx mx ex], y as [sy|sy| |sy my ey]; simpl;
    try reflexivity; try (destruct sx; reflexivity); try (destruct sy; reflexivity);
    try (destruct sx, sy; reflexivity).
  destruct sx, sy; simpl; try reflexivity;
    rewrite (Z.compare_antisym ex ey);
    destruct (ex ?= ey)%Z; simpl; try reflexivity;
    rewrite (compare_cont_Eq_antisym mx my);
    destruct (Pos.compare_cont Eq mx my); reflexivity.
Qed.

Lemma leb_ltb_false (x y : float) : (x <=? y)%float = true -> (y <? x)%float = false.
Proof.
  rewrite FloatAxioms.ltb_spec, FloatAxioms.leb_spec. unfold SFltb, SFleb.
  rewrite (SFcompare_antisym (Prim2SF x) (Prim2SF y)).
  destruct (SFcompare (Prim2SF x) (Prim2SF y)) as [[]|]; simpl; congruence.
Qed.

Lemma eqb_ltb_false (x y : float) :
  (x =? y)%float = true -> (x <? y)%float = false /\ (y <? x)%float = false.
Proof.
  rewrite FloatAxioms.eqb_spec, !FloatAxioms.ltb_spec. unfold SFltb, SFeqb.
  rewrite (SFcompare_antisym (Prim2SF x) (Prim2SF y)).
  destruct (SFcompare (Prim2SF x) (Prim2SF y)) as [[]|]; simpl; intuition congruence.
Qed.

Lemma SFcompare_refl (x : spec_float) : x <> S754_nan -> SFcompare x x = Some Eq.
Proof.
  destruct x as [s|s| |s m e]; simpl; try congruence; try (destruct s; reflexivity).
  intros _. destruct s; rewrite Z.compare_refl, Pos.compare_cont_refl; reflexivity.
Qed.

Lemma is_nan_spec (x : float) : is_nan x = true <-> Prim2SF x = S754_nan.
Proof.
  unfold is_nan. rewrite FloatAxioms.eqb_spec. unfold SFeqb. split.
  - intros H. destruct (Prim2SF x) eqn:E; try reflexivity;
      rewrite SFcompare_refl in H by congruence; discriminate.
  - intros ->. reflexivity.
Qed.

Lemma leb_nan_r (x y : float) : is_nan y = true -> (x <=? y)%float = false.
Proof.
  rewrite is_nan_spec, FloatAxioms.leb_spec. intros ->. unfold SFleb.
  destruct (Prim2SF x); reflexivity.
Qed.

Lemma ltb_abs_range (x b : float) :
  (b <? abs x)%float = true -> ((- b <=? x)%float && (x <=? b)%float) = false.
Proof.
  rewrite FloatAxioms.ltb_spec, !FloatAxioms.leb_spec, abs_spec, opp_spec.
  unfold SFltb, SFleb.
  destruct (Prim2SF x) as [sx|sx| |sx mx ex], (Prim2SF b) as [sb|sb| |sb mb eb]; simpl;
    try discriminate; try (destruct sx, sb; simpl; try discriminate; reflexivity).
  destruct sx, sb; simpl; try discriminate; try reflexivity;
    rewrite ?(Z.compare_antisym eb ex), ?(compare_cont_Eq_antisym mb mx);
    destruct (eb ?= ex)%Z; simpl; try discriminate; try reflexivity;
    destruct (Pos.compare_cont Eq mb mx); simpl; try discriminate; try reflexivity.
Qed.


(** ** Rounding *)


Lemma digits2_pos_bounds (m : positive) :
  2 ^ (Zpos (digits2_pos m) - 1) <= Zpos m < 2 ^ Zpos (digits2_pos m).
Proof.
  induction m as [m IH|m IH|]; simpl digits2_pos.
  - rewrite Pos2Z.inj_succ.
    replace (Z.succ (Zpos (digits2_pos m)) - 1) with (Z.succ (Zpos (digits2_pos m) - 1)) by lia.
    rewrite !Z.pow_succ_r by lia. lia.
  - rewrite Pos2Z.inj_succ.
    replace (Z.succ (Zpos (digits2_pos m)) - 1) with (Z.succ (Zpos (digits2_pos m) - 1)) by lia.
    rewrite !Z.pow_succ_r by lia. lia.
  - simpl. lia.
Qed.

Lemma Zdigits2_bounds (m : Z) :
  0 < m -> 2 ^ (Zdigits2 m - 1) <= m < 2 ^ Zdigits2 m.
Proof.
  destruct m as [|p|p]; try lia. intros _. apply digits2_pos_bounds.
Qed.

Lemma Zdigits2_pos (m : Z) : 0 < m -> 0 < Zdigits2 m.
Proof. destruct m; simpl; lia. Qed.

Lemma Zdigits2_unique (m d : Z) :
  2 ^ (d - 1) <= m < 2 ^ d -> 0 < m -> Zdigits2 m = d.
Proof.
  intros [Hl Hu] Hm.
  pose proof (Zdigits2_bounds m Hm) as [Hl' Hu'].
  pose proof (Zdigits2_pos m Hm) as Hd.
  assert (0 < d).
  { destruct (Z_lt_le_dec 0 d); [assumption|].
    exfalso. destruct (Z.eq_dec d 0) as [->|Hd0].
    - simpl in Hu. lia.
    - rewrite Z.pow_neg_r in Hu by lia. lia. }
  assert (d - 1 < Zdigits2 m).
  { apply (Z.pow_lt_mono_r_iff 2); lia. }
  assert (Zdigits2 m - 1 < d).
  { apply (Z.pow_lt_mono_r_iff 2); lia. }
  lia.
Qed.

Lemma iter_pos_nat {A : Type} (f : A -> A) (p : positive) (x : A) :
  SpecFloat.iter_pos f p x = Nat.iter (Pos.to_nat p) f x.
Proof.
  revert x. induction p as [p IH|p IH|]; intros x.
  - change (SpecFloat.iter_pos f p~1 x) with (SpecFloat.iter_pos f p (SpecFloat.iter_pos f p (f x))).
    rewrite !IH, Pos2Nat.inj_xI.
    replace (S (2 * Pos.to_nat p)) with (Pos.to_nat p + (Pos.to_nat p + 1))%nat by lia.
    rewrite !Nat.iter_add. reflexivity.
  - change (SpecFloat.iter_pos f p~0 x) with (SpecFloat.iter_pos f p (SpecFloat.iter_pos f p x)).
    rewrite !IH, Pos2Nat.inj_xO.
    replace (2 * Pos.to_nat p)%nat with (Pos.to_nat p + Pos.to_nat p)%nat by lia.
    rewrite Nat.iter_add. reflexivity.
  - reflexivity.
Qed.

Lemma shr_1_nonneg (m : Z) (r s : bool) :
  0 <= m ->
  shr_1 {| shr_m := m; shr_r := r; shr_s := s |}
  = {| shr_m := m / 2; shr_r := Z.odd m; shr_s := r || s |}.
Proof.
  intros Hm. destruct m as [|p|p]; try lia.
  - reflexivity.
  - destruct p as [p|p|]; simpl shr_1.
    + f_equal. apply (Z.div_unique _ _ _ 1); lia.
    + f_equal. apply (Z.div_unique _ _ _ 0); lia.
    + reflexivity.
Qed.

Lemma mod2_odd (q : Z) : q mod 2 = Z.b2z (Z.odd q).
Proof. rewrite <- Z.bit0_odd. symmetry. apply Z.bit0_mod. Qed.

Ltac bool_cases :=
  repeat match goal with
    | |- context [?x <=? ?y] => destruct (Z.leb_spec x y)
    | |- context [?x <? ?y] => destruct (Z.ltb_spec x y)
    | |- context [?x =? ?y] => destruct (Z.eqb_spec x y)
    end.

Lemma Rep_step (a b k : Z) (mrs : shr_record) :
  0 <= a -> 0 < b -> 0 <= k -> Rep a b k mrs -> Rep a b (k + 1) (shr_1 mrs).
Proof.
  intros Ha Hb Hk. destruct mrs as [m r s]. unfold Rep.
  intros [Hm Hl]. cbn [shr_m shr_r shr_s] in Hm, Hl. subst m.
  assert (HD : 0 < b * 2 ^ k) by (apply Z.mul_pos_pos; [lia | apply Z.pow_pos_nonneg; lia]).
  rewrite shr_1_nonneg by (apply Z.div_pos; lia). cbn [shr_m shr_r shr_s].
  replace (b * 2 ^ (k + 1)) with (b * 2 ^ k * 2) by (rewrite Z.pow_add_r by lia; simpl; lia).
  set (D := b * 2 ^ k) in *.
  rewrite Z.div_div by lia. split; [reflexivity|].
  rewrite Z.rem_mul_r by lia.
  pose proof (Z.mod_pos_bound a D HD) as Hrem.
  set (rem := a mod D) in *.
  rewrite mod2_odd.
  unfold loc_bits in *. apply pair_equal_spec in Hl. destruct Hl as [-> ->].
  destruct (Z.odd (a / D)); cbn [Z.b2z]; bool_cases; cbn [negb andb orb];
    try reflexivity; exfalso; lia.
Qed.

Lemma Rep_iter (a b : Z) (n : nat) (mrs : shr_record) :
  0 <= a -> 0 < b -> Rep a b 0 mrs -> Rep a b (Z.of_nat n) (Nat.iter n shr_1 mrs).
Proof.
  intros Ha Hb H0. induction n as [|n IH].
  - exact H0.
  - rewrite Nat2Z.inj_succ. unfold Z.succ. simpl. apply Rep_step; try lia. exact IH.
Qed.

Lemma Rep_start (a b : Z) :
  0 <= a -> 0 < b -> Rep a b 0 (shr_record_of_loc (a / b) (start_loc a b)).
Proof.
  intros Ha Hb. unfold Rep, start_loc. rewrite Z.pow_0_r, Z.mul_1_r.
  pose proof (Z.mod_pos_bound a b Hb) as Hrem.
  set (r := a mod b) in *. unfold loc_bits.
  destruct (Z.eqb_spec r 0) as [Hr|Hr].
  - cbn [shr_record_of_loc shr_m shr_r shr_s]. split; [reflexivity|].
    rewrite Hr. bool_cases; cbn [negb andb orb]; try reflexivity; exfalso; lia.
  - destruct (Z.compare_spec (2 * r) b);
      cbn [shr_record_of_loc shr_m shr_r shr_s]; (split; [reflexivity|]);
      bool_cases; cbn [negb andb orb]; try reflexivity; exfalso; lia.
Qed.

Lemma Rep_shr (a b e n : Z) (mrs : shr_record) :
  0 <= a -> 0 < b -> 0 <= n -> Rep a b 0 mrs ->
  Rep a b n (fst (shr mrs e n)) /\ snd (shr mrs e n) = e + n.
Proof.
  intros Ha Hb Hn H0. destruct n as [|p|p]; try lia; simpl.
  - split; [exact H0 | lia].
  - split; [|reflexivity]. rewrite iter_pos_nat.
    rewrite <- (positive_nat_Z p). apply Rep_iter; assumption.
Qed.

Lemma Rep_round (a b k : Z) (mrs : shr_record) :
  0 <= a -> 0 < b -> 0 <= k -> Rep a b k mrs ->
  round_nearest_even (shr_m mrs) (loc_of_shr_record mrs) = rne_q a (b * 2 ^ k).
Proof.
  intros Ha Hb Hk. destruct mrs as [m r s]. unfold Rep.
  cbn [shr_m shr_r shr_s loc_of_shr_record]. intros [-> Hl].
  assert (HD : 0 < b * 2 ^ k) by (apply Z.mul_pos_pos; [lia | apply Z.pow_pos_nonneg; lia]).
  set (D := b * 2 ^ k) in *.
  pose proof (Z.mod_pos_bound a D HD) as Hrem.
  unfold rne_q, loc_bits in *. set (rem := a mod D) in *.
  apply pair_equal_spec in Hl. destruct Hl as [-> ->].
  bool_cases; cbn [negb andb orb]; try reflexivity; exfalso; lia.
Qed.

Lemma round_quot_finish (sx : bool) (a b e : Z) :
  0 <= a -> 0 < b -> e <= target (a / b) e ->
  round_quot sx a b e
  = finish sx (rne_q a (b * 2 ^ (target (a / b) e - e))) (target (a / b) e).
Proof.
  intros Ha Hb Hn. unfold round_quot, binary_round_aux.
  unfold shr_fexp at 1. fold (target (a / b) e).
  set (n := target (a / b) e - e).
  assert (Hn' : 0 <= n) by (unfold n; lia).
  destruct (Rep_shr a b e n _ Ha Hb Hn' (Rep_start a b Ha Hb)) as [HR He].
  destruct (shr (shr_record_of_loc (a / b) (start_loc a b)) e n) as [mrs' e'].
  cbn [fst snd] in HR, He. subst e'.
  rewrite (Rep_round a b n mrs' Ha Hb Hn' HR).
  replace (e + n) with (target (a / b) e) by (unfold n; lia).
  reflexivity.
Qed.

Lemma target_eq (q e : Z) : target q e = Z.max (Zdigits2 q + e - 53) (-1074).
Proof. reflexivity. Qed.

Lemma Zdigits2_le (q d : Z) : 0 <= d -> 0 <= q < 2 ^ d -> Zdigits2 q <= d.
Proof.
  intros Hd [Hq Hlt]. destruct (Z.eq_dec q 0) as [->|Hq0]; [simpl; lia|].
  assert (Hq' : 0 < q) by lia.
  pose proof (Zdigits2_bounds q Hq') as [Hl _].
  assert (Zdigits2 q - 1 < d); [|lia].
  apply (Z.pow_lt_mono_r_iff 2); lia.
Qed.

Lemma finish_spec (sx : bool) (q E : Z) :
  0 <= q <= 2 ^ 53 -> -1074 <= E -> finish sx q E = finished sx q E.
Proof.
  intros Hq HE. unfold finish, shr_fexp. fold (target q E). rewrite target_eq.
  destruct (Z.eq_dec q (2 ^ 53)) as [->|Hne].
  - change (Zdigits2 (2 ^ 53)) with 54.
    replace (Z.max (54 + E - 53) (-1074) - E) with 1 by lia.
    cbn [shr shr_record_of_loc SpecFloat.iter_pos]. unfold finished.
    change (shr_m (shr_1 {| shr_m := 2 ^ 53; shr_r := false; shr_s := false |}))
      with (Zpos 4503599627370496).
    change (2 ^ 53 <? 9007199254740992) with false. cbv iota.
    change (emax - prec) with 971. reflexivity.
  - assert (Hd : Zdigits2 q <= 53) by (apply Zdigits2_le; lia).
    change (2 ^ 53) with 9007199254740992 in *.
    unfold shr. destruct (Z.max (Zdigits2 q + E - 53) (-1074) - E) as [|p|p] eqn:Hs;
      try lia; cbn [shr_record_of_loc shr_m]; unfold finished;
      (destruct q as [|m|m]; [reflexivity| |lia]);
      (destruct (Z.ltb_spec (Zpos m) 9007199254740992); [|lia]);
      change (emax - prec) with 971; reflexivity.
Qed.

Lemma compare_cont_spec (a b : positive) :
  CompareSpec (a = b) (Zpos a < Zpos b) (Zpos b < Zpos a) (Pos.compare_cont Eq a b).
Proof.
  change (Pos.compare_cont Eq a b) with (Pos.compare a b).
  destruct (Pos.compare_spec a b); constructor; lia.
Qed.

Lemma finished_le (q1 E1 q2 E2 : Z) :
  0 <= q1 <= 9007199254740992 -> 0 <= q2 <= 9007199254740992 ->
  (E1 = E2 /\ q1 <= q2) \/ (E1 < E2 /\ 4503599627370496 <= q2) ->
  SFleb (finished false q1 E1) (finished false q2 E2) = true
  /\ SFleb (finished true q2 E2) (finished true q1 E1) = true.
Proof.
  intros H1 H2 H. unfold finished.
  destruct q1 as [|m1|m1], q2 as [|m2|m2]; try lia;
    repeat match goal with
      | |- context [?x <=? ?y] => destruct (Z.leb_spec x y)
      | |- context [?x <? ?y] => destruct (Z.ltb_spec x y)
      end;
    unfold SFleb, SFcompare; try (split; reflexivity);
    repeat match goal with
      | |- context [(?x ?= ?y)%Z] => destruct (Z.compare_spec x y)
      | |- context [Pos.compare_cont Eq ?x ?y] => destruct (compare_cont_spec x y)
      end;
    try (split; reflexivity); exfalso; lia.
Qed.

Lemma rne_q_bounds (a d : Z) : a / d <= rne_q a d <= a / d + 1.
Proof.
  unfold rne_q. destruct (Z.even (a / d)); bool_cases; lia.
Qed.

Lemma rne_q_mono (a1 a2 d : Z) : 0 < d -> a1 <= a2 -> rne_q a1 d <= rne_q a2 d.
Proof.
  intros Hd Ha.
  pose proof (Z.div_le_mono a1 a2 d Hd Ha) as Hq.
  destruct (Z.eq_dec (a1 / d) (a2 / d)) as [Heq|Hne].
  - pose proof (Z.div_mod a1 d ltac:(lia)) as E1.
    pose proof (Z.div_mod a2 d ltac:(lia)) as E2.
    unfold rne_q. rewrite <- Heq in *.
    destruct (Z.even (a1 / d)); bool_cases; lia.
  - pose proof (rne_q_bounds a1 d). pose proof (rne_q_bounds a2 d). lia.
Qed.

Lemma rne_q_scale (a d c : Z) : 0 < d -> 0 < c -> rne_q (a * c) (d * c) = rne_q a d.
Proof.
  intros Hd Hc. unfold rne_q.
  rewrite Z.div_mul_cancel_r by lia.
  rewrite Z.mul_mod_distr_r by lia.
  pose proof (Z.mod_pos_bound a d Hd) as Hr.
  destruct (Z.even (a / d)); bool_cases; try reflexivity; exfalso; nia.
Qed.

Lemma pow2_pos (k : Z) : 0 <= k -> 0 < 2 ^ k.
Proof. intros. apply Z.pow_pos_nonneg; lia. Qed.

(** The three facts about the rounded mantissa that [finish] relies on. *)
Lemma rounded_range (a b e : Z) :
  0 <= a -> 0 < b -> e <= target (a / b) e ->
  let T := target (a / b) e in
  let Q := rne_q a (b * 2 ^ (T - e)) in
  0 <= Q <= 2 ^ 53 /\ -1074 <= T /\ (T = -1074 \/ 2 ^ 52 <= Q).
Proof.
  intros Ha Hb Hn T Q.
  assert (HT : T = Z.max (Zdigits2 (a / b) + e - 53) (-1074)) by reflexivity.
  set (n := T - e) in *. assert (Hn0 : 0 <= n) by (unfold n, T; lia).
  pose proof (pow2_pos n Hn0) as H2n.
  assert (Hq0 : 0 <= a / b) by (apply Z.div_pos; lia).
  pose proof (rne_q_bounds a (b * 2 ^ n)) as HQ. fold Q in HQ.
  rewrite <- Z.div_div in HQ by lia.
  assert (Hfl : 0 <= a / b / 2 ^ n) by (apply Z.div_pos; lia).
  assert (Hup : a / b / 2 ^ n < 2 ^ 53).
  { apply Z.div_lt_upper_bound; [lia|].
    rewrite <- Z.pow_add_r by lia.
    destruct (Z.eq_dec (a / b) 0) as [->|Hne].
    - apply pow2_pos. lia.
    - pose proof (Zdigits2_bounds (a / b) ltac:(lia)) as [_ Hu].
      eapply Z.lt_le_trans; [exact Hu|].
      apply Z.pow_le_mono_r; lia. }
  split; [lia|]. split; [lia|].
  destruct (Z.eq_dec T (-1074)) as [|HTne]; [left; assumption|right].
  assert (Hd : n = Zdigits2 (a / b) - 53) by lia.
  assert (Hpos : 0 < a / b).
  { destruct (Z.eq_dec (a / b) 0) as [E|]; [|lia]. rewrite E in Hd. simpl in Hd. lia. }
  pose proof (Zdigits2_bounds (a / b) Hpos) as [Hl _].
  assert (2 ^ 52 <= a / b / 2 ^ n); [|lia].
  apply Z.div_le_lower_bound; [lia|].
  rewrite <- Z.pow_add_r by lia.
  replace (n + 52) with (Zdigits2 (a / b) - 1) by lia. exact Hl.
Qed.

(** Comparing magnitudes through a common exponent [B]. *)
Lemma magnitude_lt (a1 a2 b k1 k2 e1 e2 B : Z) :
  0 < b -> 0 <= k1 -> 0 <= k2 -> B <= e1 -> B <= e2 ->
  b * 2 ^ k1 <= a1 -> a2 < b * 2 ^ k2 ->
  a1 * 2 ^ (e1 - B) <= a2 * 2 ^ (e2 - B) ->
  k1 + e1 < k2 + e2.
Proof.
  intros Hb Hk1 Hk2 HB1 HB2 H1 H2 Hle.
  pose proof (pow2_pos (e1 - B) ltac:(lia)) as P1.
  pose proof (pow2_pos (e2 - B) ltac:(lia)) as P2.
  assert (Hlt : b * 2 ^ (k1 + (e1 - B)) < b * 2 ^ (k2 + (e2 - B))).
  { rewrite !Z.pow_add_r by lia.
    apply Z.le_lt_trans with (a1 * 2 ^ (e1 - B)); [nia|].
    apply Z.le_lt_trans with (a2 * 2 ^ (e2 - B)); [lia|nia]. }
  assert (Hlt' : 2 ^ (k1 + (e1 - B)) < 2 ^ (k2 + (e2 - B))) by nia.
  apply Z.pow_lt_mono_r_iff in Hlt'; lia.
Qed.

Lemma target_mono (a1 a2 b e1 e2 B : Z) :
  0 <= a1 -> 0 <= a2 -> 0 < b -> B <= e1 -> B <= e2 ->
  e1 <= target (a1 / b) e1 -> e2 <= target (a2 / b) e2 ->
  a1 * 2 ^ (e1 - B) <= a2 * 2 ^ (e2 - B) ->
  target (a1 / b) e1 <= target (a2 / b) e2.
Proof.
  intros Ha1 Ha2 Hb HB1 HB2 Hp1 Hp2 Hle. rewrite !target_eq in *.
  assert (Hq1 : 0 <= a1 / b) by (apply Z.div_pos; lia).
  assert (Hq2 : 0 <= a2 / b) by (apply Z.div_pos; lia).
  destruct (Z.eq_dec (a1 / b) 0) as [E1|N1].
  { rewrite E1 in *. simpl Zdigits2 in *. lia. }
  pose proof (Zdigits2_bounds (a1 / b) ltac:(lia)) as [Hl1 _].
  pose proof (Zdigits2_pos (a1 / b) ltac:(lia)) as Hd1.
  assert (Hlow : b * 2 ^ (Zdigits2 (a1 / b) - 1) <= a1).
  { pose proof (Z.mul_div_le a1 b Hb). nia. }
  destruct (Z.eq_dec (a2 / b) 0) as [E2|N2].
  - rewrite E2 in *. simpl Zdigits2 in *.
    assert (Hup : a2 < b * 2 ^ 0).
    { rewrite Z.pow_0_r, Z.mul_1_r.
      destruct (Z_lt_le_dec a2 b) as [|Hge]; [assumption|].
      pose proof (Z.div_le_mono b a2 b Hb Hge) as Hd. rewrite Z.div_same in Hd by lia. lia. }
    pose proof (magnitude_lt a1 a2 b (Zdigits2 (a1 / b) - 1) 0 e1 e2 B
                  Hb ltac:(lia) ltac:(lia) HB1 HB2 Hlow Hup Hle).
    lia.
  - pose proof (Zdigits2_bounds (a2 / b) ltac:(lia)) as [_ Hu2].
    pose proof (Zdigits2_pos (a2 / b) ltac:(lia)) as Hd2.
    assert (Hup : a2 < b * 2 ^ Zdigits2 (a2 / b)).
    { pose proof (Z.mod_pos_bound a2 b Hb). pose proof (Z.div_mod a2 b ltac:(lia)). nia. }
    pose proof (magnitude_lt a1 a2 b (Zdigits2 (a1 / b) - 1) (Zdigits2 (a2 / b)) e1 e2 B
                  Hb ltac:(lia) ltac:(lia) HB1 HB2 Hlow Hup Hle).
    lia.
Qed.

(** Rounding is monotone: of two non-negative quotients with a common
    divisor, the smaller one rounds to the smaller float; with the sign
    bit set, the order is reversed. *)
Lemma round_quot_mono (a1 a2 b e1 e2 B : Z) :
  0 <= a1 -> 0 <= a2 -> 0 < b -> B <= e1 -> B <= e2 ->
  e1 <= target (a1 / b) e1 -> e2 <= target (a2 / b) e2 ->
  a1 * 2 ^ (e1 - B) <= a2 * 2 ^ (e2 - B) ->
  SFleb (round_quot false a1 b e1) (round_quot false a2 b e2) = true
  /\ SFleb (round_quot true a2 b e2) (round_quot true a1 b e1) = true.
Proof.
  intros Ha1 Ha2 Hb HB1 HB2 Hp1 Hp2 Hle.
  rewrite !round_quot_finish by assumption.
  pose proof (target_mono a1 a2 b e1 e2 B Ha1 Ha2 Hb HB1 HB2 Hp1 Hp2 Hle) as HT.
  destruct (rounded_range a1 b e1 Ha1 Hb Hp1) as (R1 & T1 & C1).
  destruct (rounded_range a2 b e2 Ha2 Hb Hp2) as (R2 & T2 & C2).
  set (T1' := target (a1 / b) e1) in *. set (T2' := target (a2 / b) e2) in *.
  set (Q1 := rne_q a1 (b * 2 ^ (T1' - e1))) in *.
  set (Q2 := rne_q a2 (b * 2 ^ (T2' - e2))) in *.
  change (2 ^ 53) with 9007199254740992 in *.
  change (2 ^ 52) with 4503599627370496 in *.
  rewrite !finish_spec by (change (2 ^ 53) with 9007199254740992; lia).
  apply finished_le; try lia.
  destruct (Z.eq_dec T1' T2') as [HE|HN]; [left|right; lia].
  split; [exact HE|].
  unfold Q1, Q2. rewrite <- HE.
  pose proof (pow2_pos (e1 - B) ltac:(lia)) as P1.
  pose proof (pow2_pos (e2 - B) ltac:(lia)) as P2.
  pose proof (pow2_pos (T1' - e1) ltac:(lia)) as P3.
  pose proof (pow2_pos (T1' - e2) ltac:(lia)) as P4.
  rewrite <- (rne_q_scale a1 (b * 2 ^ (T1' - e1)) (2 ^ (e1 - B))) by lia.
  rewrite <- (rne_q_scale a2 (b * 2 ^ (T1' - e2)) (2 ^ (e2 - B))) by lia.
  rewrite <- !Z.mul_assoc, <- !Z.pow_add_r by lia.
  replace (T1' - e1 + (e1 - B)) with (T1' - B) by lia.
  replace (T1' - e2 + (e2 - B)) with (T1' - B) by lia.
  apply rne_q_mono; [|exact Hle].
  pose proof (pow2_pos (T1' - B) ltac:(lia)). lia.
Qed.

Lemma dle_base (m1 e1 m2 e2 B : Z) :
  B <= e1 -> B <= e2 ->
  (dle m1 e1 m2 e2 <-> m1 * 2 ^ (e1 - B) <= m2 * 2 ^ (e2 - B)).
Proof.
  intros H1 H2. unfold dle. set (M := Z.min e1 e2).
  assert (HM : B <= M) by (unfold M; lia).
  pose proof (pow2_pos (M - B) ltac:(lia)) as P.
  replace (e1 - B) with ((e1 - M) + (M - B)) by lia.
  replace (e2 - B) with ((e2 - M) + (M - B)) by lia.
  rewrite !Z.pow_add_r by (unfold M; lia).
  rewrite !Z.mul_assoc. split; intros H.
  - apply Z.mul_le_mono_nonneg_r; lia.
  - apply Z.mul_le_mono_pos_r in H; lia.
Qed.

Lemma finished_signed (s : bool) (q E : Z) : signed_as s (finished s q E).
Proof.
  unfold finished. destruct q; try reflexivity.
  repeat match goal with |- context [if ?b then _ else _] => destruct b end; reflexivity.
Qed.

Lemma round_quot_signed (s : bool) (a b e : Z) :
  0 <= a -> 0 < b -> e <= target (a / b) e -> signed_as s (round_quot s a b e).
Proof.
  intros Ha Hb Hp. rewrite round_quot_finish by assumption.
  destruct (rounded_range a b e Ha Hb Hp) as (R & T & _).
  rewrite finish_spec by lia. apply finished_signed.
Qed.

Lemma signed_le (f g : spec_float) :
  signed_as true f -> signed_as false g -> SFleb f g = true.
Proof.
  destruct f as [[]|[]| |[] ? ?], g as [[]|[]| |[] ? ?]; simpl; intros; try reflexivity;
    try discriminate; try contradiction.
Qed.

Lemma signed_le_zero_r (f : spec_float) (s : bool) :
  signed_as true f -> SFleb f (S754_zero s) = true.
Proof. destruct f as [[]|[]| |[] ? ?]; simpl; intros; try reflexivity; try discriminate; try contradiction. Qed.

Lemma signed_le_zero_l (g : spec_float) (s : bool) :
  signed_as false g -> SFleb (S754_zero s) g = true.
Proof. destruct g as [[]|[]| |[] ? ?]; simpl; intros; try reflexivity; try discriminate; try contradiction. Qed.

Lemma start_loc_1 (a : Z) : start_loc a 1 = loc_Exact.
Proof. unfold start_loc. rewrite Z.mod_1_r. reflexivity. Qed.

Lemma pos_iter_xO (m d : positive) : Zpos (Pos.iter xO m d) = Zpos m * 2 ^ Zpos d.
Proof.
  pose proof (Zpower.shift_pos_correct d m) as H. unfold Zpower.shift_pos in H.
  rewrite H. change (Z.pow_pos 2 d) with (2 ^ Zpos d). lia.
Qed.

Lemma shl_align_spec (mx : positive) (ex ex' : Z) :
  snd (shl_align mx ex ex') = Z.min ex ex'
  /\ Zpos (fst (shl_align mx ex ex')) = Zpos mx * 2 ^ (ex - Z.min ex ex').
Proof.
  unfold shl_align. destruct (ex' - ex) as [|d|d] eqn:Hd; cbn [fst snd].
  - replace (Z.min ex ex') with ex by lia. rewrite Z.sub_diag. simpl. lia.
  - replace (Z.min ex ex') with ex by lia. rewrite Z.sub_diag. simpl. lia.
  - replace (Z.min ex ex') with ex' by lia. rewrite pos_iter_xO.
    replace (ex - ex') with (Zpos d) by lia. split; reflexivity.
Qed.

Lemma Zdigits2_shift (m k : Z) : 0 < m -> 0 <= k -> Zdigits2 (m * 2 ^ k) = Zdigits2 m + k.
Proof.
  intros Hm Hk. pose proof (Zdigits2_bounds m Hm) as [Hl Hu].
  pose proof (Zdigits2_pos m Hm) as Hd. pose proof (pow2_pos k Hk) as P.
  apply Zdigits2_unique; [|nia].
  replace (Zdigits2 m + k - 1) with ((Zdigits2 m - 1) + k) by lia.
  rewrite !Z.pow_add_r by lia. nia.
Qed.

(** [binary_round] is [round_quot] on the aligned mantissa, with
    divisor [1]. *)
Lemma binary_round_quot (s : bool) (mx : positive) (ex : Z) :
  exists mz ez,
    binary_round prec emax s mx ex = round_quot s mz 1 ez
    /\ 0 < mz /\ ez <= ex /\ mz = Zpos mx * 2 ^ (ex - ez)
    /\ ez <= target (mz / 1) ez.
Proof.
  unfold binary_round.
  pose proof (shl_align_spec mx ex (fexp prec emax (Zpos (digits2_pos mx) + ex))) as [He Hm].
  destruct (shl_align mx ex (fexp prec emax (Zpos (digits2_pos mx) + ex))) as [mz ez].
  cbn [fst snd] in He, Hm.
  exists (Zpos mz), ez. unfold round_quot. rewrite Z.div_1_r, start_loc_1.
  split; [reflexivity|]. split; [lia|]. split; [lia|].
  assert (Hk : 0 <= ex - ez) by lia.
  split; [rewrite Hm, He; reflexivity|].
  rewrite target_eq, Hm, <- He, Zdigits2_shift by lia.
  change (fexp prec emax (Zpos (digits2_pos mx) + ex))
    with (Z.max (Zpos (digits2_pos mx) + ex - 53) (-1074)) in He.
  change (Zdigits2 (Zpos mx)) with (Zpos (digits2_pos mx)). lia.
Qed.

(** Rounding an integer mantissa is monotone. *)
Lemma binary_normalize_mono (m1 e1 m2 e2 : Z) (s1 s2 : bool) :
  dle m1 e1 m2 e2 ->
  SFleb (binary_normalize prec emax m1 e1 s1) (binary_normalize prec emax m2 e2 s2) = true.
Proof.
  intros Hle. unfold dle in Hle.
  pose proof (pow2_pos (e1 - Z.min e1 e2) ltac:(lia)) as P1.
  pose proof (pow2_pos (e2 - Z.min e1 e2) ltac:(lia)) as P2.
  destruct m1 as [|p1|p1], m2 as [|p2|p2]; unfold binary_normalize; try (exfalso; nia).
  - reflexivity.
  - destruct (binary_round_quot false p2 e2) as (mz & ez & -> & ? & ? & ? & ?).
    apply signed_le_zero_l, round_quot_signed; lia.
  - destruct (binary_round_quot false p1 e1) as (mz1 & ez1 & -> & Hz1 & Hez1 & Hm1 & Hp1).
    destruct (binary_round_quot false p2 e2) as (mz2 & ez2 & -> & Hz2 & Hez2 & Hm2 & Hp2).
    set (B := Z.min ez1 ez2).
    apply (round_quot_mono mz1 mz2 1 ez1 ez2 B); try lia.
    rewrite Hm1, Hm2, <- !Z.mul_assoc, <- !Z.pow_add_r by lia.
    replace (e1 - ez1 + (ez1 - B)) with (e1 - B) by lia.
    replace (e2 - ez2 + (ez2 - B)) with (e2 - B) by lia.
    apply dle_base; [lia|lia|exact Hle].
  - destruct (binary_round_quot true p1 e1) as (mz & ez & -> & ? & ? & ? & ?).
    apply signed_le_zero_r, round_quot_signed; lia.
  - destruct (binary_round_quot true p1 e1) as (mz1 & ez1 & -> & Hz1 & Hez1 & Hm1 & Hp1).
    destruct (binary_round_quot false p2 e2) as (mz2 & ez2 & -> & Hz2 & Hez2 & Hm2 & Hp2).
    apply signed_le; apply round_quot_signed; lia.
  - destruct (binary_round_quot true p1 e1) as (mz1 & ez1 & -> & Hz1 & Hez1 & Hm1 & Hp1).
    destruct (binary_round_quot true p2 e2) as (mz2 & ez2 & -> & Hz2 & Hez2 & Hm2 & Hp2).
    set (B := Z.min ez1 ez2).
    apply (round_quot_mono mz2 mz1 1 ez2 ez1 B); try lia.
    rewrite Hm1, Hm2, <- !Z.mul_assoc, <- !Z.pow_add_r by lia.
    replace (e1 - ez1 + (ez1 - B)) with (e1 - B) by lia.
    replace (e2 - ez2 + (ez2 - B)) with (e2 - B) by lia.
    assert (Hle' : Z.neg p1 * 2 ^ (e1 - B) <= Z.neg p2 * 2 ^ (e2 - B))
      by (apply dle_base; [lia|lia|exact Hle]).
    lia.
Qed.

(** *** Valid floats *)

Lemma valid_finite (s : bool) (m : positive) (e : Z) :
  valid_binary (S754_finite s m e) = true ->
  Zpos (digits2_pos m) <= 53 /\ -1074 <= e <= 971
  /\ (e = -1074 \/ Zpos (digits2_pos m) = 53).
Proof.
  unfold SpecFloat.valid_binary, bounded, canonical_mantissa.
  change (fexp prec emax (Zpos (digits2_pos m) + e))
    with (Z.max (Zpos (digits2_pos m) + e - 53) (-1074)).
  change (emax - prec) with 971.
  intros H. apply andb_true_iff in H. destruct H as [H1 H2].
  apply Z.eqb_eq in H1. apply Z.leb_le in H2. lia.
Qed.

Lemma valid_mantissa_range (s : bool) (m : positive) (e : Z) :
  valid_binary (S754_finite s m e) = true ->
  Zpos m < 9007199254740992 /\ (e = -1074 \/ 4503599627370496 <= Zpos m).
Proof.
  intros H. destruct (valid_finite s m e H) as (Hd & He & Hc).
  pose proof (digits2_pos_bounds m) as [Hl Hu]. split.
  - eapply Z.lt_le_trans; [exact Hu|].
    change 9007199254740992 with (2 ^ 53). apply Z.pow_le_mono_r; lia.
  - destruct Hc as [Hc|Hc]; [left; exact Hc|right].
    rewrite Hc in Hl. exact Hl.
Qed.

Lemma rne_q_1 (a : Z) : rne_q a 1 = a.
Proof.
  unfold rne_q. rewrite Z.div_1_r, Z.mod_1_r. reflexivity.
Qed.

(** Rounding a representable number returns it. *)
Lemma binary_normalize_valid (s s0 : bool) (m : positive) (e : Z) :
  valid_binary (S754_finite s m e) = true ->
  binary_normalize prec emax (sval s m) e s0 = S754_finite s m e.
Proof.
  intros Hv. destruct (valid_finite s m e Hv) as (Hd & He & Hc).
  destruct (valid_mantissa_range s m e Hv) as (Hm & _).
  assert (E : binary_normalize prec emax (sval s m) e s0 = binary_round prec emax s m e)
    by (destruct s; reflexivity).
  rewrite E. clear E.
  destruct (binary_round_quot s m e) as (mz & ez & -> & Hz & Hez & Hmz & Hp).
  rewrite round_quot_finish by lia.
  assert (HT : target (mz / 1) ez = e).
  { rewrite Z.div_1_r, target_eq, Hmz, Zdigits2_shift by lia.
    change (Zdigits2 (Zpos m)) with (Zpos (digits2_pos m)). lia. }
  rewrite HT, Hmz.
  pose proof (pow2_pos (e - ez) ltac:(lia)) as P.
  rewrite (rne_q_scale (Zpos m) 1 (2 ^ (e - ez))) by lia.
  rewrite rne_q_1, finish_spec by (change (2 ^ 53) with 9007199254740992; lia).
  unfold finished.
  destruct (Z.ltb_spec (Zpos m) 9007199254740992); [|lia].
  destruct (Z.leb_spec e 971); [reflexivity|lia].
Qed.

(** On valid floats the comparison agrees with the order of the values. *)
Lemma canonical_lt (s1 s2 : bool) (m1 m2 : positive) (e1 e2 : Z) :
  valid_binary (S754_finite s1 m1 e1) = true ->
  valid_binary (S754_finite s2 m2 e2) = true ->
  e1 < e2 -> Zpos m1 < Zpos m2 * 2 ^ (e2 - e1).
Proof.
  intros V1 V2 Hlt.
  destruct (valid_mantissa_range _ _ _ V1) as (U1 & _).
  destruct (valid_mantissa_range _ _ _ V2) as (_ & [L2|L2]).
  - destruct (valid_finite _ _ _ V1) as (_ & ? & _). lia.
  - assert (2 ^ 1 <= 2 ^ (e2 - e1)) by (apply Z.pow_le_mono_r; lia).
    change (2 ^ 1) with 2 in *. nia.
Qed.

Lemma SFleb_dle (sx sy : bool) (mx my : positive) (ex ey : Z) :
  valid_binary (S754_finite sx mx ex) = true ->
  valid_binary (S754_finite sy my ey) = true ->
  SFleb (S754_finite sx mx ex) (S754_finite sy my ey) = true ->
  dle (sval sx mx) ex (sval sy my) ey.
Proof.
  intros Vx Vy. unfold SFleb, SFcompare, dle, sval, cond_Zopp.
  pose proof (pow2_pos (ex - Z.min ex ey) ltac:(lia)) as P1.
  pose proof (pow2_pos (ey - Z.min ex ey) ltac:(lia)) as P2.
  destruct sx, sy; try discriminate; try (intros _; nia);
    destruct (Z.compare_spec ex ey) as [E|E|E]; try discriminate;
    try (destruct (compare_cont_spec mx my); try discriminate; intros _; subst;
         replace (Z.min ey ey) with ey by lia; rewrite Z.sub_diag; simpl; lia).
  - intros _. pose proof (canonical_lt _ _ _ _ _ _ Vy Vx E).
    replace (Z.min ex ey) with ey by lia. rewrite Z.sub_diag. simpl (2 ^ 0). lia.
  - intros _. pose proof (canonical_lt _ _ _ _ _ _ Vx Vy E).
    replace (Z.min ex ey) with ex by lia. rewrite Z.sub_diag. simpl (2 ^ 0). lia.
Qed.

Lemma SFleb_refl (x : spec_float) : x <> S754_nan -> SFleb x x = true.
Proof.
  intros H. unfold SFleb. destruct x as [s|s| |s m e]; try congruence;
    try (destruct s; reflexivity).
  unfold SFcompare. rewrite Z.compare_refl.
  destruct s; destruct (compare_cont_spec m m); try reflexivity; lia.
Qed.

Lemma SFleb_trans (x y z : spec_float) :
  SFleb x y = true -> SFleb y z = true -> SFleb x z = true.
Proof.
  unfold SFleb, SFcompare.
  destruct x as [[]|[]| |[] mx ex], y as [[]|[]| |[] my ey], z as [[]|[]| |[] mz ez];
    try discriminate; try reflexivity;
    repeat match goal with
      | |- context [(?a ?= ?b)%Z] => destruct (Z.compare_spec a b)
      | |- context [Pos.compare_cont Eq ?a ?b] => destruct (compare_cont_spec a b)
      end; cbn [CompOpp]; try discriminate; try reflexivity; intros _ _; exfalso; lia.
Qed.

Lemma SFleb_opp (x y : spec_float) : SFleb (SFopp y) (SFopp x) = SFleb x y.
Proof.
  unfold SFleb, SFcompare, SFopp.
  destruct x as [[]|[]| |[] mx ex], y as [[]|[]| |[] my ey]; cbn [negb]; try reflexivity;
    repeat match goal with
      | |- context [(?a ?= ?b)%Z] => destruct (Z.compare_spec a b)
      | |- context [Pos.compare_cont Eq ?a ?b] => destruct (compare_cont_spec a b)
      end; cbn [CompOpp]; try reflexivity; exfalso; lia.
Qed.

(** *** The operations on finite floats *)

Lemma aligned_sval (s : bool) (m : positive) (e ez : Z) :
  ez <= e ->
  cond_Zopp s (Zpos (fst (shl_align m e ez))) = sval s m * 2 ^ (e - ez).
Proof.
  intros H. destruct (shl_align_spec m e ez) as [_ Hm].
  replace (Z.min e ez) with ez in Hm by lia. rewrite Hm.
  unfold sval, cond_Zopp. destruct s; lia.
Qed.

Lemma SFadd_finite (sx sy : bool) (mx my : positive) (ex ey : Z) :
  SF64add (S754_finite sx mx ex) (S754_finite sy my ey)
  = binary_normalize prec emax
      (sval sx mx * 2 ^ (ex - Z.min ex ey) + sval sy my * 2 ^ (ey - Z.min ex ey))
      (Z.min ex ey) false.
Proof.
  unfold SF64add, SFadd. rewrite !aligned_sval by lia. reflexivity.
Qed.

Lemma SFsub_finite (sx sy : bool) (mx my : positive) (ex ey : Z) :
  SF64sub (S754_finite sx mx ex) (S754_finite sy my ey)
  = binary_normalize prec emax
      (sval sx mx * 2 ^ (ex - Z.min ex ey) - sval sy my * 2 ^ (ey - Z.min ex ey))
      (Z.min ex ey) false.
Proof.
  unfold SF64sub, SFsub. rewrite !aligned_sval by lia. reflexivity.
Qed.

Lemma Zdigits2_mul_ge (m1 m2 : positive) :
  Zpos (digits2_pos m1) + Zpos (digits2_pos m2) - 1 <= Zdigits2 (Zpos m1 * Zpos m2).
Proof.
  pose proof (digits2_pos_bounds m1) as [L1 _].
  pose proof (digits2_pos_bounds m2) as [L2 _].
  pose proof (Zdigits2_bounds (Zpos m1 * Zpos m2) ltac:(lia)) as [_ U].
  assert (H : 2 ^ (Zpos (digits2_pos m1) - 1 + (Zpos (digits2_pos m2) - 1))
              < 2 ^ Zdigits2 (Zpos m1 * Zpos m2)).
  { rewrite Z.pow_add_r by lia.
    pose proof (pow2_pos (Zpos (digits2_pos m1) - 1) ltac:(lia)).
    pose proof (pow2_pos (Zpos (digits2_pos m2) - 1) ltac:(lia)). nia. }
  apply Z.pow_lt_mono_r_iff in H; [lia|lia|].
  pose proof (Zdigits2_pos (Zpos m1 * Zpos m2) ltac:(lia)). lia.
Qed.

Lemma SFmul_finite (sx sy : bool) (mx my : positive) (ex ey : Z) :
  valid_binary (S754_finite sx mx ex) = true ->
  valid_binary (S754_finite sy my ey) = true ->
  SF64mul (S754_finite sx mx ex) (S754_finite sy my ey)
  = round_quot (xorb sx sy) (Zpos mx * Zpos my) 1 (ex + ey)
  /\ ex + ey <= target (Zpos mx * Zpos my / 1) (ex + ey).
Proof.
  intros Vx Vy. split.
  - unfold SF64mul, SFmul, round_quot. rewrite Z.div_1_r, start_loc_1. reflexivity.
  - rewrite Z.div_1_r, target_eq.
    destruct (valid_finite _ _ _ Vx) as (Dx & Ex & Cx).
    destruct (valid_finite _ _ _ Vy) as (Dy & Ey & Cy).
    pose proof (Zdigits2_mul_ge mx my).
    pose proof (Pos2Z.is_pos (digits2_pos mx)). pose proof (Pos2Z.is_pos (digits2_pos my)).
    lia.
Qed.

Lemma new_location_start (a b : Z) :
  0 < b -> new_location b (a mod b) = start_loc a b.
Proof.
  intros Hb. pose proof (Z.mod_pos_bound a b Hb) as Hr.
  unfold new_location, new_location_even, new_location_odd, start_loc.
  set (r := a mod b) in *.
  destruct (Z.even b) eqn:Ev; [reflexivity|].
  destruct (Z.eqb_spec r 0); [reflexivity|]. f_equal.
  assert (Hodd : Z.odd b = true) by (rewrite <- Z.negb_even, Ev; reflexivity).
  apply Z.odd_spec in Hodd. destruct Hodd as [k Hk].
  destruct (Z.compare_spec (2 * r + 1) b), (Z.compare_spec (2 * r) b);
    try reflexivity; exfalso; lia.
Qed.

Lemma SFdiv_finite (sx sy : bool) (mx my : positive) (ex ey : Z) :
  valid_binary (S754_finite sx mx ex) = true ->
  SF64div (S754_finite sx mx ex) (S754_finite sy my ey)
  = round_quot (xorb sx sy) (div_num mx ex my ey) (Zpos my) (div_exp mx ex my ey)
  /\ div_exp mx ex my ey <= target (div_num mx ex my ey / Zpos my) (div_exp mx ex my ey).
Proof.
  intros Vx. unfold div_num.
  set (e' := div_exp mx ex my ey).
  assert (He' : e' = Z.min (Z.max (Zpos (digits2_pos mx) + ex
                                     - (Zpos (digits2_pos my) + ey) - 53) (-1074))
                           (ex - ey)) by reflexivity.
  set (sh := ex - ey - e'). assert (Hsh : 0 <= sh) by (unfold sh; lia).
  pose proof (pow2_pos sh Hsh) as P.
  split.
  - unfold SF64div, SFdiv, SFdiv_core_binary, round_quot.
    cbn [Zdigits2]. fold (div_exp mx ex my ey). fold e'. fold sh.
    assert (Hm : match sh with
                 | 0 => Zpos mx
                 | Zpos _ => Z.shiftl (Zpos mx) sh
                 | Zneg _ => 0
                 end = Zpos mx * 2 ^ sh).
    { destruct sh as [|p|p] eqn:E; [simpl; lia| |lia].
      rewrite Z.shiftl_mul_pow2 by lia. reflexivity. }
    rewrite Hm.
    pose proof (Z.div_eucl_eq (Zpos mx * 2 ^ sh) (Zpos my) ltac:(lia)) as _.
    unfold Z.div, Z.modulo in *.
    pose proof (new_location_start (Zpos mx * 2 ^ sh) (Zpos my) ltac:(lia)) as HL.
    unfold Z.modulo in HL.
    destruct (Z.div_eucl (Zpos mx * 2 ^ sh) (Zpos my)) as [q r].
    rewrite HL. reflexivity.
  - rewrite target_eq.
    destruct (Z_le_gt_dec e' (-1074)) as [|Hgt]; [lia|].
    destruct (valid_finite _ _ _ Vx) as (Dx & Ex & Cx).
    pose proof (Pos2Z.is_pos (digits2_pos mx)). pose proof (Pos2Z.is_pos (digits2_pos my)).
    assert (Hs : sh = Zpos (digits2_pos my) - Zpos (digits2_pos mx) + 53) by (unfold sh; lia).
    pose proof (digits2_pos_bounds mx) as [Lx _].
    pose proof (digits2_pos_bounds my) as [_ Uy].
    assert (Hq : 2 ^ 52 <= Zpos mx * 2 ^ sh / Zpos my).
    { apply Z.div_le_lower_bound; [lia|].
      apply Z.le_trans with (2 ^ 52 * 2 ^ Zpos (digits2_pos my)); [nia|].
      rewrite <- Z.pow_add_r by lia.
      replace (52 + Zpos (digits2_pos my)) with ((Zpos (digits2_pos mx) - 1) + sh) by lia.
      rewrite Z.pow_add_r by lia. nia. }
    assert (Hd : 53 <= Zdigits2 (Zpos mx * 2 ^ sh / Zpos my)).
    { assert (Hpos : 0 < Zpos mx * 2 ^ sh / Zpos my)
        by (change (2 ^ 52) with 4503599627370496 in Hq; lia).
      pose proof (Zdigits2_bounds _ Hpos) as [_ U].
      assert (2 ^ 52 < 2 ^ Zdigits2 (Zpos mx * 2 ^ sh / Zpos my)) by lia.
      apply Z.pow_lt_mono_r_iff in H1; [lia|lia|].
      pose proof (Zdigits2_pos _ Hpos). lia. }
    lia.
Qed.

(** *** Order properties of the operations *)

Lemma binary_normalize_signed (m e : Z) (s0 : bool) :
  exists s, signed_as s (binary_normalize prec emax m e s0).
Proof.
  destruct m as [|p|p]; unfold binary_normalize.
  - exists s0. reflexivity.
  - exists false. destruct (binary_round_quot false p e) as (mz & ez & -> & ? & ? & ? & ?).
    apply round_quot_signed; lia.
  - exists true. destruct (binary_round_quot true p e) as (mz & ez & -> & ? & ? & ? & ?).
    apply round_quot_signed; lia.
Qed.

Lemma signed_bounds (s : bool) (f : spec_float) :
  signed_as s f ->
  SFleb (S754_infinity true) f = true /\ SFleb f (S754_infinity false) = true.
Proof.
  destruct f as [[]|[]| |[] ? ?]; simpl; intros H; try contradiction; split; reflexivity.
Qed.

Lemma binary_normalize_bounds (m e : Z) (s0 : bool) :
  SFleb (S754_infinity true) (binary_normalize prec emax m e s0) = true
  /\ SFleb (binary_normalize prec emax m e s0) (S754_infinity false) = true.
Proof.
  destruct (binary_normalize_signed m e s0) as [s H]. exact (signed_bounds s _ H).
Qed.

(** Moving both numbers of a comparison to a lower common exponent. *)
Lemma dle_shift (m1 e1 m2 e2 B : Z) :
  B <= e1 -> B <= e2 -> dle m1 e1 m2 e2 ->
  m1 * 2 ^ (e1 - B) <= m2 * 2 ^ (e2 - B).
Proof. intros H1 H2 H. apply dle_base; assumption. Qed.

Lemma dle_intro (m1 e1 m2 e2 B : Z) :
  B <= e1 -> B <= e2 ->
  m1 * 2 ^ (e1 - B) <= m2 * 2 ^ (e2 - B) -> dle m1 e1 m2 e2.
Proof. intros H1 H2 H. apply (dle_base m1 e1 m2 e2 B); assumption. Qed.

(** The value of an aligned sum, over any lower exponent [B]. *)
Lemma aligned_sum (vx vy ex ey B : Z) :
  B <= Z.min ex ey ->
  (vx * 2 ^ (ex - Z.min ex ey) + vy * 2 ^ (ey - Z.min ex ey)) * 2 ^ (Z.min ex ey - B)
  = vx * 2 ^ (ex - B) + vy * 2 ^ (ey - B).
Proof.
  intros H. rewrite Z.mul_add_distr_r, <- !Z.mul_assoc, <- !Z.pow_add_r by lia.
  f_equal; f_equal; f_equal; lia.
Qed.

Lemma aligned_diff (vx vy ex ey B : Z) :
  B <= Z.min ex ey ->
  (vx * 2 ^ (ex - Z.min ex ey) - vy * 2 ^ (ey - Z.min ex ey)) * 2 ^ (Z.min ex ey - B)
  = vx * 2 ^ (ex - B) - vy * 2 ^ (ey - B).
Proof.
  intros H. rewrite Z.mul_sub_distr_r, <- !Z.mul_assoc, <- !Z.pow_add_r by lia.
  f_equal; f_equal; f_equal; lia.
Qed.

(** Adding a larger non-negative offset gives a larger sum, and subtracting
    it a smaller difference. *)
Lemma SFadd_SFsub_mono (x d1 d2 : spec_float) :
  valid_binary x = true -> valid_binary d1 = true -> valid_binary d2 = true ->
  is_real x -> signed_as false d1 -> signed_as false d2 ->
  SFleb d1 d2 = true ->
  SFleb (SF64add x d1) (SF64add x d2) = true
  /\ SFleb (SF64sub x d2) (SF64sub x d1) = true.
Proof.
  intros Vx V1 V2 Rx S1 S2 Hle.
  destruct x as [sx|sx| |sx mx ex]; try contradiction;
    destruct d1 as [s1|s1| |s1 m1 e1]; try contradiction;
    destruct d2 as [s2|s2| |s2 m2 e2]; try contradiction;
    cbn [signed_as] in S1, S2; subst s1 s2; try discriminate Hle.
  (* x is a zero *)
  - destruct sx; split; reflexivity.
  - destruct sx; split; reflexivity.
  - destruct sx; split; reflexivity.
  - destruct sx; split; reflexivity.
  - destruct sx; split; reflexivity.
  - split; [exact Hle|].
    change (SF64sub (S754_zero sx) (S754_finite false m2 e2))
      with (SFopp (S754_finite false m2 e2)).
    change (SF64sub (S754_zero sx) (S754_finite false m1 e1))
      with (SFopp (S754_finite false m1 e1)).
    rewrite SFleb_opp. exact Hle.
  (* x is finite *)
  - split; apply SFleb_refl; discriminate.
  - destruct sx; split; reflexivity.
  - change (SF64add (S754_finite sx mx ex) (S754_zero false)) with (S754_finite sx mx ex).
    change (SF64sub (S754_finite sx mx ex) (S754_zero false)) with (S754_finite sx mx ex).
    rewrite SFadd_finite, SFsub_finite.
    rewrite <- (binary_normalize_valid sx false mx ex Vx).
    set (M := Z.min ex e2).
    pose proof (pow2_pos (ex - M) ltac:(lia)). pose proof (pow2_pos (e2 - M) ltac:(lia)).
    split; apply binary_normalize_mono; apply (dle_intro _ _ _ _ M); try lia;
      rewrite Z.sub_diag, Z.pow_0_r, Z.mul_1_r; change (sval false m2) with (Zpos m2); nia.
  - split; reflexivity.
  - rewrite SFadd_finite, SFsub_finite. split.
    + apply binary_normalize_bounds.
    + apply binary_normalize_bounds.
  - rewrite !SFadd_finite, !SFsub_finite.
    pose proof (SFleb_dle _ _ _ _ _ _ V1 V2 Hle) as Hd.
    set (B := Z.min (Z.min ex e1) (Z.min ex e2)).
    pose proof (dle_shift (sval false m1) e1 (sval false m2) e2 B
                  ltac:(lia) ltac:(lia) Hd) as Hd'.
    split; apply binary_normalize_mono; apply (dle_intro _ _ _ _ B); try lia.
    + rewrite !aligned_sum by lia. lia.
    + rewrite !aligned_diff by lia. lia.
Qed.

Lemma SFmul_signed (s : bool) (x : spec_float) (mc : positive) (ec : Z) :
  valid_binary x = true -> valid_binary (S754_finite false mc ec) = true ->
  signed_as s x -> signed_as s (SF64mul x (S754_finite false mc ec)).
Proof.
  intros Vx Vc Hs. destruct x as [sx|sx| |sx mx ex]; try contradiction;
    cbn [signed_as] in Hs; subst sx.
  - destruct s; reflexivity.
  - destruct s; reflexivity.
  - destruct (SFmul_finite s false mx mc ex ec Vx Vc) as [-> Hp].
    rewrite xorb_false_r. apply round_quot_signed; lia.
Qed.

(** Multiplying by a positive finite constant is monotone. *)
Lemma SFmul_mono (x y : spec_float) (mc : positive) (ec : Z) :
  valid_binary x = true -> valid_binary y = true ->
  valid_binary (S754_finite false mc ec) = true ->
  SFleb x y = true ->
  SFleb (SF64mul x (S754_finite false mc ec)) (SF64mul y (S754_finite false mc ec)) = true.
Proof.
  intros Vx Vy Vc Hle.
  assert (Sx : exists sx, signed_as sx x)
    by (destruct x as [s|s| |s ? ?]; try discriminate Hle; exists s; reflexivity).
  assert (Sy : exists sy, signed_as sy y)
    by (destruct y as [s|s| |s ? ?];
        [| |destruct x as [?|?| |? ? ?]; discriminate Hle|]; exists s; reflexivity).
  destruct Sx as [sx Sx], Sy as [sy Sy].
  pose proof (SFmul_signed sx x mc ec Vx Vc Sx) as Mx.
  pose proof (SFmul_signed sy y mc ec Vy Vc Sy) as My.
  destruct sx, sy.
  - (* both negative *)
    destruct x as [s1|s1| |s1 mx ex]; try contradiction;
      destruct y as [s2|s2| |s2 my ey]; try contradiction;
      cbn [signed_as] in Sx, Sy; subst s1 s2; try discriminate Hle;
      try reflexivity;
      try (apply signed_le_zero_r; exact Mx);
      try (apply (signed_bounds true); exact My).
    destruct (SFmul_finite true false mx mc ex ec Vx Vc) as [-> Hpx].
    destruct (SFmul_finite true false my mc ey ec Vy Vc) as [-> Hpy].
    cbn [xorb].
    pose proof (SFleb_dle _ _ _ _ _ _ Vx Vy Hle) as Hd.
    set (B := Z.min (ex + ec) (ey + ec)).
    pose proof (dle_shift (sval true mx) ex (sval true my) ey (B - ec)
                  ltac:(lia) ltac:(lia) Hd) as Hd'.
    apply (round_quot_mono (Zpos my * Zpos mc) (Zpos mx * Zpos mc) 1
             (ey + ec) (ex + ec) B); try lia.
    replace (ey + ec - B) with (ey - (B - ec)) by lia.
    replace (ex + ec - B) with (ex - (B - ec)) by lia.
    unfold sval, cond_Zopp in Hd'. nia.
  - (* negative, positive *)
    apply signed_le; assumption.
  - (* positive, negative: both are zeros *)
    destruct x as [s1|s1| |s1 mx ex]; try contradiction;
      destruct y as [s2|s2| |s2 my ey]; try contradiction;
      cbn [signed_as] in Sx, Sy; subst s1 s2; try discriminate Hle.
    reflexivity.
  - (* both positive *)
    destruct x as [s1|s1| |s1 mx ex]; try contradiction;
      destruct y as [s2|s2| |s2 my ey]; try contradiction;
      cbn [signed_as] in Sx, Sy; subst s1 s2; try discriminate Hle;
      try reflexivity;
      try (apply signed_le_zero_l; exact My);
      try (apply (signed_bounds false); exact Mx).
    destruct (SFmul_finite false false mx mc ex ec Vx Vc) as [-> Hpx].
    destruct (SFmul_finite false false my mc ey ec Vy Vc) as [-> Hpy].
    cbn [xorb].
    pose proof (SFleb_dle _ _ _ _ _ _ Vx Vy Hle) as Hd.
    set (B := Z.min (ex + ec) (ey + ec)).
    pose proof (dle_shift (sval false mx) ex (sval false my) ey (B - ec)
                  ltac:(lia) ltac:(lia) Hd) as Hd'.
    apply (round_quot_mono (Zpos mx * Zpos mc) (Zpos my * Zpos mc) 1
             (ex + ec) (ey + ec) B); try lia.
    replace (ey + ec - B) with (ey - (B - ec)) by lia.
    replace (ex + ec - B) with (ex - (B - ec)) by lia.
    unfold sval, cond_Zopp in Hd'. nia.
Qed.

(** A positive number divided by a positive finite number is not negative,
    and the quotient grows with the dividend. *)
Lemma SFdiv_signed (x : spec_float) (my : positive) (ey : Z) :
  valid_binary x = true -> is_positive x ->
  signed_as false (SF64div x (S754_finite false my ey)).
Proof.
  intros Vx Px. destruct x as [sx|[]| |[] mx ex]; try contradiction.
  - reflexivity.
  - destruct (SFdiv_finite false false mx my ex ey Vx) as [-> Hp].
    apply round_quot_signed; try lia. unfold div_num.
    pose proof (pow2_pos (ex - ey - div_exp mx ex my ey)
                  ltac:(unfold div_exp; lia)). nia.
Qed.

Lemma SFdiv_mono (x1 x2 : spec_float) (my : positive) (ey : Z) :
  valid_binary x1 = true -> valid_binary x2 = true ->
  is_positive x1 -> is_positive x2 -> SFleb x1 x2 = true ->
  SFleb (SF64div x1 (S754_finite false my ey)) (SF64div x2 (S754_finite false my ey)) = true.
Proof.
  intros V1 V2 P1 P2 Hle.
  pose proof (SFdiv_signed x1 my ey V1 P1) as S1.
  destruct x1 as [s1|[]| |[] m1 e1]; try contradiction;
    destruct x2 as [s2|[]| |[] m2 e2]; try contradiction; try discriminate Hle.
  - reflexivity.
  - apply (signed_bounds false). exact S1.
  - destruct (SFdiv_finite false false m1 my e1 ey V1) as [-> Hp1].
    destruct (SFdiv_finite false false m2 my e2 ey V2) as [-> Hp2].
    cbn [xorb].
    pose proof (SFleb_dle _ _ _ _ _ _ V1 V2 Hle) as Hd.
    set (d1 := div_exp m1 e1 my ey) in *. set (d2 := div_exp m2 e2 my ey) in *.
    assert (H1 : d1 <= e1 - ey) by (unfold d1, div_exp; lia).
    assert (H2 : d2 <= e2 - ey) by (unfold d2, div_exp; lia).
    set (B := Z.min d1 d2).
    pose proof (dle_shift (sval false m1) e1 (sval false m2) e2 (B + ey)
                  ltac:(lia) ltac:(lia) Hd) as Hd'.
    unfold div_num in *. fold d1 d2 in Hp1, Hp2 |- *.
    pose proof (pow2_pos (e1 - ey - d1) ltac:(lia)).
    pose proof (pow2_pos (e2 - ey - d2) ltac:(lia)).
    apply (round_quot_mono _ _ (Zpos my) d1 d2 B); try lia.
    rewrite <- !Z.mul_assoc, <- !Z.pow_add_r by lia.
    replace (e1 - ey - d1 + (d1 - B)) with (e1 - (B + ey)) by lia.
    replace (e2 - ey - d2 + (d2 - B)) with (e2 - (B + ey)) by lia.
    exact Hd'.
Qed.

(** *** Differences *)

Lemma real_le_dy (x y : spec_float) (B : Z) :
  valid_binary x = true -> valid_binary y = true -> is_real x -> is_real y ->
  SFleb x y = true -> B <= snd (dy x) -> B <= snd (dy y) ->
  fst (dy x) * 2 ^ (snd (dy x) - B) <= fst (dy y) * 2 ^ (snd (dy y) - B).
Proof.
  intros Vx Vy Rx Ry Hle.
  destruct x as [sx|?| |sx mx ex], y as [sy|?| |sy my ey]; try contradiction;
    cbn [dy fst snd]; intros Bx By.
  - lia.
  - destruct sy; [discriminate Hle|].
    pose proof (pow2_pos (ey - B) ltac:(lia)). unfold sval, cond_Zopp. nia.
  - destruct sx; [|discriminate Hle].
    pose proof (pow2_pos (ex - B) ltac:(lia)). unfold sval, cond_Zopp. nia.
  - apply dle_shift; try lia. apply SFleb_dle; assumption.
Qed.

(** The mantissa and exponent of the exact difference of two finite
    floats. *)
Lemma SFsub_real (x y : spec_float) :
  valid_binary x = true -> valid_binary y = true -> is_real x -> is_real y ->
  let ez := Z.min (snd (dy x)) (snd (dy y)) in
  let m := fst (dy x) * 2 ^ (snd (dy x) - ez) - fst (dy y) * 2 ^ (snd (dy y) - ez) in
  SFleb (SF64sub x y) (binary_normalize prec emax m ez false) = true
  /\ SFleb (binary_normalize prec emax m ez false) (SF64sub x y) = true.
Proof.
  intros Vx Vy Rx Ry.
  destruct x as [sx|?| |sx mx ex], y as [sy|?| |sy my ey]; try contradiction;
    cbn [dy fst snd]; cbv zeta.
  - rewrite Z.min_id, Z.sub_diag. cbn [Z.pow Z.mul Z.sub Z.opp Z.add binary_normalize].
    destruct sx, sy; split; reflexivity.
  - change (SF64sub (S754_zero sx) (S754_finite sy my ey))
      with (S754_finite (negb sy) my ey).
    rewrite <- (binary_normalize_valid (negb sy) false my ey Vy).
    set (ez := Z.min 0 ey). pose proof (pow2_pos (ey - ez) ltac:(lia)).
    split; apply binary_normalize_mono; apply (dle_intro _ _ _ _ ez); try lia;
      rewrite Z.sub_diag, Z.pow_0_r, Z.mul_1_r; unfold sval, cond_Zopp;
      destruct sy; cbn [negb]; lia.
  - change (SF64sub (S754_finite sx mx ex) (S754_zero sy))
      with (S754_finite sx mx ex).
    rewrite <- (binary_normalize_valid sx false mx ex Vx).
    set (ez := Z.min ex 0). pose proof (pow2_pos (ex - ez) ltac:(lia)).
    split; apply binary_normalize_mono; apply (dle_intro _ _ _ _ ez); try lia;
      rewrite Z.sub_diag, Z.pow_0_r, Z.mul_1_r; lia.
  - rewrite SFsub_finite.
    destruct (binary_normalize_signed
                (sval sx mx * 2 ^ (ex - Z.min ex ey) - sval sy my * 2 ^ (ey - Z.min ex ey))
                (Z.min ex ey) false) as [s Hs].
    assert (Hn : binary_normalize prec emax
                   (sval sx mx * 2 ^ (ex - Z.min ex ey) - sval sy my * 2 ^ (ey - Z.min ex ey))
                   (Z.min ex ey) false <> S754_nan)
      by (intros E; rewrite E in Hs; exact Hs).
    split; apply SFleb_refl; exact Hn.
Qed.

(** Among finite numbers, a difference grows with its first term and
    shrinks with its second. *)
Lemma SFsub_mono_real (a1 a2 b1 b2 : spec_float) :
  valid_binary a1 = true -> valid_binary a2 = true ->
  valid_binary b1 = true -> valid_binary b2 = true ->
  is_real a1 -> is_real a2 -> is_real b1 -> is_real b2 ->
  SFleb a1 a2 = true -> SFleb b2 b1 = true ->
  SFleb (SF64sub a1 b1) (SF64sub a2 b2) = true.
Proof.
  intros Va1 Va2 Vb1 Vb2 Ra1 Ra2 Rb1 Rb2 Ha Hb.
  destruct (SFsub_real a1 b1 Va1 Vb1 Ra1 Rb1) as [H1 _].
  destruct (SFsub_real a2 b2 Va2 Vb2 Ra2 Rb2) as [_ H2].
  eapply SFleb_trans; [exact H1|]. eapply SFleb_trans; [|exact H2].
  apply binary_normalize_mono.
  set (e1 := Z.min (snd (dy a1)) (snd (dy b1))).
  set (e2 := Z.min (snd (dy a2)) (snd (dy b2))).
  set (B := Z.min e1 e2).
  apply (dle_intro _ _ _ _ B); try lia.
  unfold e1 at 1 2 3, e2 at 1 2 3. rewrite !aligned_diff by (unfold B, e1, e2; lia).
  pose proof (real_le_dy a1 a2 B Va1 Va2 Ra1 Ra2 Ha
                ltac:(unfold B, e1, e2; lia) ltac:(unfold B, e1, e2; lia)).
  pose proof (real_le_dy b2 b1 B Vb2 Vb1 Rb2 Rb1 Hb
                ltac:(unfold B, e1, e2; lia) ltac:(unfold B, e1, e2; lia)).
  lia.
Qed.

(** A difference grows with its first term and shrinks with its second.
    [c] separates the second terms from the first ones, so that no
    difference is [inf - inf]. *)
Lemma SFsub_mono (a1 a2 b1 b2 c : spec_float) :
  valid_binary a1 = true -> valid_binary a2 = true ->
  valid_binary b1 = true -> valid_binary b2 = true ->
  is_real c ->
  SFleb b2 b1 = true -> SFleb b1 c = true -> SFleb c a1 = true -> SFleb a1 a2 = true ->
  SFleb (SF64sub a1 b1) (SF64sub a2 b2) = true.
Proof.
  intros Va1 Va2 Vb1 Vb2 Rc Hb Hbc Hca Ha.
  assert (Ca1 : is_real a1 \/ a1 = S754_infinity false).
  { destruct c as [?|?| |[] ? ?]; try contradiction;
      destruct a1 as [?|[]| |[] ? ?]; try discriminate Hca; auto; left; exact I. }
  assert (Cb1 : is_real b1 \/ b1 = S754_infinity true).
  { destruct c as [?|?| |[] ? ?]; try contradiction;
      destruct b1 as [?|[]| |[] ? ?]; try discriminate Hbc; auto; left; exact I. }
  assert (Ca2 : is_real a2 \/ a2 = S754_infinity false).
  { destruct Ca1 as [R| ->].
    - destruct a1 as [?|?| |[] ? ?]; try contradiction;
        destruct a2 as [?|[]| |[] ? ?]; try discriminate Ha; auto; left; exact I.
    - destruct a2 as [?|[]| |[] ? ?]; try discriminate Ha; auto. }
  assert (Cb2 : is_real b2 \/ b2 = S754_infinity true).
  { destruct Cb1 as [R| ->].
    - destruct b1 as [?|?| |[] ? ?]; try contradiction;
        destruct b2 as [?|[]| |[] ? ?]; try discriminate Hb; auto; left; exact I.
    - destruct b2 as [?|[]| |[] ? ?]; try discriminate Hb; auto. }
  assert (Hleft : SFleb (SF64sub a1 b1) (S754_infinity false) = true).
  { destruct Ca1 as [Ra1| ->], Cb1 as [Rb1| ->].
    - destruct (SFsub_real a1 b1 Va1 Vb1 Ra1 Rb1) as [H _].
      eapply SFleb_trans; [exact H|]. apply binary_normalize_bounds.
    - destruct a1 as [?|?| |? ? ?]; try contradiction; reflexivity.
    - destruct b1 as [?|?| |? ? ?]; try contradiction; reflexivity.
    - reflexivity. }
  destruct Ca2 as [Ra2| ->]; [destruct Cb2 as [Rb2| ->]|].
  - (* all four are finite *)
    assert (Ra1 : is_real a1).
    { destruct Ca1 as [R| ->]; [exact R|].
      destruct a2 as [?|?| |[] ? ?]; try contradiction; discriminate Ha. }
    assert (Rb1 : is_real b1).
    { destruct Cb1 as [R| ->]; [exact R|].
      destruct b2 as [?|?| |[] ? ?]; try contradiction; discriminate Hb. }
    apply SFsub_mono_real; assumption.
  - replace (SF64sub a2 (S754_infinity true)) with (S754_infinity false);
      [exact Hleft|].
    destruct a2 as [?|?| |? ? ?]; try contradiction; reflexivity.
  - replace (SF64sub (S754_infinity false) b2) with (S754_infinity false);
      [exact Hleft|].
    destruct Cb2 as [R| ->]; [|reflexivity].
    destruct b2 as [?|?| |? ? ?]; try contradiction; reflexivity.
Qed.

Lemma SFadd_as_sub (x y : spec_float) : SF64add x y = SF64sub x (SFopp y).
Proof.
  destruct x as [sx|sx| |sx mx ex], y as [sy|sy| |sy my ey]; try reflexivity;
    destruct sx, sy; reflexivity.
Qed.

Lemma valid_opp (y : spec_float) : valid_binary (SFopp y) = valid_binary y.
Proof. destruct y; reflexivity. Qed.

Lemma is_real_opp (y : spec_float) : is_real y -> is_real (SFopp y).
Proof. destruct y; trivial. Qed.

(** Sums and differences grow with their first term. *)
Lemma SFadd_SFsub_mono_l (x1 x2 d : spec_float) :
  valid_binary x1 = true -> valid_binary x2 = true -> valid_binary d = true ->
  is_real x1 -> is_real x2 -> is_real d ->
  SFleb x1 x2 = true ->
  SFleb (SF64add x1 d) (SF64add x2 d) = true
  /\ SFleb (SF64sub x1 d) (SF64sub x2 d) = true.
Proof.
  intros V1 V2 Vd R1 R2 Rd Hle. split.
  - rewrite !SFadd_as_sub.
    apply SFsub_mono_real; rewrite ?valid_opp; auto using is_real_opp.
    apply SFleb_refl. destruct d; try contradiction; discriminate.
  - apply SFsub_mono_real; auto.
    apply SFleb_refl. destruct d; try contradiction; discriminate.
Qed.

(** ** Quotients by different divisors *)

Lemma start_loc_scale (a b c : Z) : 0 < b -> 0 < c -> start_loc (a * c) (b * c) = start_loc a b.
Proof.
  intros Hb Hc. unfold start_loc. rewrite Z.mul_mod_distr_r by lia.
  pose proof (Z.mod_pos_bound a b Hb) as Hr. set (r := a mod b) in *.
  destruct (Z.eqb_spec r 0) as [->|Hr0]; [reflexivity|].
  destruct (Z.eqb_spec (r * c) 0) as [E|_]; [nia|]. f_equal.
  destruct (Z.compare_spec (2 * r) b), (Z.compare_spec (2 * (r * c)) (b * c));
    try reflexivity; exfalso; nia.
Qed.

Lemma round_quot_scale (s : bool) (a b c e : Z) :
  0 < b -> 0 < c -> round_quot s (a * c) (b * c) e = round_quot s a b e.
Proof.
  intros Hb Hc. unfold round_quot.
  rewrite Z.div_mul_cancel_r, start_loc_scale by lia. reflexivity.
Qed.

(** A positive number divided by a larger divisor gives a smaller
    quotient. *)
Lemma SFdiv_anti (mx my1 my2 : positive) (ex ey1 ey2 : Z) :
  valid_binary (S754_finite false mx ex) = true ->
  valid_binary (S754_finite false my1 ey1) = true ->
  valid_binary (S754_finite false my2 ey2) = true ->
  SFleb (S754_finite false my1 ey1) (S754_finite false my2 ey2) = true ->
  SFleb (SF64div (S754_finite false mx ex) (S754_finite false my2 ey2))
        (SF64div (S754_finite false mx ex) (S754_finite false my1 ey1)) = true.
Proof.
  intros Vx V1 V2 Hle.
  destruct (SFdiv_finite false false mx my1 ex ey1 Vx) as [-> Hp1].
  destruct (SFdiv_finite false false mx my2 ex ey2 Vx) as [-> Hp2].
  cbn [xorb].
  pose proof (SFleb_dle _ _ _ _ _ _ V1 V2 Hle) as Hd.
  set (d1 := div_exp mx ex my1 ey1) in *. set (d2 := div_exp mx ex my2 ey2) in *.
  assert (H1 : d1 <= ex - ey1) by (unfold d1, div_exp; lia).
  assert (H2 : d2 <= ex - ey2) by (unfold d2, div_exp; lia).
  unfold div_num in *. fold d1 d2 in Hp1, Hp2 |- *.
  set (a1 := Zpos mx * 2 ^ (ex - ey1 - d1)) in *.
  set (a2 := Zpos mx * 2 ^ (ex - ey2 - d2)) in *.
  pose proof (pow2_pos (ex - ey1 - d1) ltac:(lia)) as P1.
  pose proof (pow2_pos (ex - ey2 - d2) ltac:(lia)) as P2.
  rewrite <- (round_quot_scale false a2 (Zpos my2) (Zpos my1) d2) by lia.
  rewrite <- (round_quot_scale false a1 (Zpos my1) (Zpos my2) d1) by lia.
  rewrite (Z.mul_comm (Zpos my1) (Zpos my2)).
  set (B := Z.min d1 d2).
  assert (Hp2' : d2 <= target (a2 * Zpos my1 / (Zpos my2 * Zpos my1)) d2)
    by (rewrite Z.div_mul_cancel_r by lia; exact Hp2).
  assert (Hp1' : d1 <= target (a1 * Zpos my2 / (Zpos my2 * Zpos my1)) d1)
    by (rewrite (Z.mul_comm (Zpos my2) (Zpos my1)), Z.div_mul_cancel_r by lia; exact Hp1).
  assert (A1 : 0 <= a1 * Zpos my2) by (unfold a1; nia).
  assert (A2 : 0 <= a2 * Zpos my1) by (unfold a2; nia).
  apply (round_quot_mono _ _ (Zpos my2 * Zpos my1) d2 d1 B A2 A1 ltac:(lia)
           ltac:(lia) ltac:(lia) Hp2' Hp1').
  unfold a1, a2.
  set (M := Z.min ey1 ey2).
  pose proof (dle_shift (sval false my1) ey1 (sval false my2) ey2 M
                ltac:(lia) ltac:(lia) Hd) as Hd'.
  change (sval false my1) with (Zpos my1) in Hd'.
  change (sval false my2) with (Zpos my2) in Hd'.
  set (K := ex - ey1 - ey2 + M - B).
  assert (HK : 0 <= K) by (unfold K, M, B; lia).
  pose proof (pow2_pos K HK) as PK.
  assert (E2 : 2 ^ (ex - ey2 - d2) * 2 ^ (d2 - B) = 2 ^ K * 2 ^ (ey1 - M))
    by (rewrite <- !Z.pow_add_r by (unfold K, M, B; lia); f_equal; unfold K; lia).
  assert (E1 : 2 ^ (ex - ey1 - d1) * 2 ^ (d1 - B) = 2 ^ K * 2 ^ (ey2 - M))
    by (rewrite <- !Z.pow_add_r by (unfold K, M, B; lia); f_equal; unfold K; lia).
  replace (Zpos mx * 2 ^ (ex - ey2 - d2) * Zpos my1 * 2 ^ (d2 - B))
    with (Zpos mx * 2 ^ K * (Zpos my1 * 2 ^ (ey1 - M)))
    by (transitivity (Zpos mx * Zpos my1 * (2 ^ K * 2 ^ (ey1 - M)));
        [ring|rewrite <- E2; ring]).
  replace (Zpos mx * 2 ^ (ex - ey1 - d1) * Zpos my2 * 2 ^ (d1 - B))
    with (Zpos mx * 2 ^ K * (Zpos my2 * 2 ^ (ey2 - M)))
    by (transitivity (Zpos mx * Zpos my2 * (2 ^ K * 2 ^ (ey2 - M)));
        [ring|rewrite <- E1; ring]).
  apply Z.mul_le_mono_nonneg_l; [lia|exact Hd'].
Qed.

(** Two numbers that are not NaN are ordered one way or the other. *)
Lemma SFleb_false_ltb (x y : spec_float) :
  x <> S754_nan -> y <> S754_nan -> SFleb x y = false -> SFltb y x = true.
Proof.
  unfold SFltb, SFleb, SFcompare.
  destruct x as [[]|[]| |[] mx ex], y as [[]|[]| |[] my ey];
    try discriminate; try reflexivity; try congruence; intros _ _;
    repeat match goal with
      | |- context [(?a ?= ?b)%Z] => destruct (Z.compare_spec a b)
      | |- context [Pos.compare_cont Eq ?a ?b] => destruct (compare_cont_spec a b)
      end; cbn [CompOpp]; try discriminate; try reflexivity; intros _; exfalso; lia.
Qed.

Lemma SFleb_not_nan (x y : spec_float) :
  SFleb x y = true -> x <> S754_nan /\ y <> S754_nan.
Proof.
  destruct x as [?|?| |? ? ?], y as [?|?| |? ? ?]; try discriminate;
    intros _; split; discriminate.
Qed.

(** ** The same facts on primitive floats *)

Local Open Scope float_scope.

Lemma Prim2SF_zero : Prim2SF 0 = S754_zero false.
Proof. reflexivity. Qed.

Lemma Prim2SF_infinity : Prim2SF infinity = S754_infinity false.
Proof. reflexivity. Qed.

Lemma ltb_0_positive (x : float) : (0 <? x) = true -> is_positive (Prim2SF x).
Proof.
  rewrite FloatAxioms.ltb_spec, Prim2SF_zero. unfold SFltb.
  destruct (Prim2SF x) as [s|[]| |[] m e]; simpl; try discriminate; trivial.
Qed.

Lemma positive_finite (x : float) :
  (0 <? x) = true -> (x <? infinity) = true ->
  exists m e, Prim2SF x = S754_finite false m e.
Proof.
  intros H0 Hi. apply ltb_0_positive in H0.
  rewrite FloatAxioms.ltb_spec, Prim2SF_infinity in Hi. unfold SFltb in Hi.
  destruct (Prim2SF x) as [s|[]| |[] m e]; simpl in *; try discriminate; try contradiction.
  exists m, e. reflexivity.
Qed.

Lemma ltb_0_neq (x : float) : (0 <? x) = true -> (x =? 0) = false.
Proof.
  intros H. destruct (x =? 0) eqn:E; [|reflexivity].
  apply eqb_ltb_false in E. destruct E as [_ E]. congruence.
Qed.

Lemma leb_trans (x y z : float) :
  (x <=? y) = true -> (y <=? z) = true -> (x <=? z) = true.
Proof. rewrite !FloatAxioms.leb_spec. apply SFleb_trans. Qed.

Lemma mul_mono (x y c : float) :
  (x <=? y) = true -> (0 <? c) = true -> (c <? infinity) = true ->
  (x * c <=? y * c) = true.
Proof.
  intros Hle H0 Hi. destruct (positive_finite c H0 Hi) as (m & e & Hc).
  rewrite FloatAxioms.leb_spec in *. rewrite !mul_spec, Hc.
  pose proof (Prim2SF_valid c) as Vc. rewrite Hc in Vc.
  apply SFmul_mono; auto using Prim2SF_valid.
Qed.

Lemma between_real (lo hi x : float) :
  is_real (Prim2SF lo) -> is_real (Prim2SF hi) ->
  (lo <=? x) = true -> (x <=? hi) = true -> is_real (Prim2SF x).
Proof.
  rewrite !FloatAxioms.leb_spec. unfold SFleb.
  destruct (Prim2SF lo) as [?|?| |[] ? ?], (Prim2SF hi) as [?|?| |[] ? ?],
    (Prim2SF x) as [?|[]| |[] ? ?]; simpl; trivial; try discriminate; try contradiction.
Qed.

Lemma div_nonneg (r p : float) :
  (0 <? r) = true -> (0 <? p) = true -> (p <? infinity) = true ->
  signed_as false (Prim2SF (r / p)).
Proof.
  intros Hr H0 Hi. destruct (positive_finite p H0 Hi) as (m & e & Hp).
  rewrite div_spec, Hp. apply SFdiv_signed; auto using Prim2SF_valid, ltb_0_positive.
Qed.

Lemma div_mono (r1 r2 p : float) :
  (0 <? r1) = true -> (r1 <=? r2) = true ->
  (0 <? p) = true -> (p <? infinity) = true ->
  (r1 / p <=? r2 / p) = true.
Proof.
  intros Hr Hle H0 Hi. destruct (positive_finite p H0 Hi) as (m & e & Hp).
  assert (P2 : is_positive (Prim2SF r2)).
  { apply ltb_0_positive in Hr. rewrite FloatAxioms.leb_spec in Hle. unfold SFleb in Hle.
    destruct (Prim2SF r1) as [?|[]| |[] ? ?], (Prim2SF r2) as [?|[]| |[] ? ?];
      simpl in *; trivial; try discriminate; try contradiction. }
  rewrite FloatAxioms.leb_spec in *. rewrite !div_spec, Hp.
  apply SFdiv_mono; auto using Prim2SF_valid, ltb_0_positive.
Qed.

Lemma add_sub_mono (x d1 d2 : float) :
  is_real (Prim2SF x) ->
  signed_as false (Prim2SF d1) -> signed_as false (Prim2SF d2) ->
  (d1 <=? d2) = true ->
  (x + d1 <=? x + d2) = true /\ (x - d2 <=? x - d1) = true.
Proof.
  intros Rx S1 S2 Hle. rewrite !FloatAxioms.leb_spec in *.
  rewrite !add_spec, !sub_spec.
  apply SFadd_SFsub_mono; auto using Prim2SF_valid.
Qed.

(** Subtracting a non-negative offset does not go above the number, and
    adding it does not go below. *)
Lemma sub_le_add (x d : float) :
  is_real (Prim2SF x) -> signed_as false (Prim2SF d) ->
  (x - d <=? x) = true /\ (x <=? x + d) = true.
Proof.
  intros Rx Sd.
  assert (H0 : (0 <=? d) = true).
  { rewrite FloatAxioms.leb_spec, Prim2SF_zero. apply signed_le_zero_l. exact Sd. }
  destruct (add_sub_mono x 0 d Rx) as [Ha Hs]; [reflexivity|exact Sd|exact H0|].
  assert (E : (x - 0 <=? x) = true /\ (x <=? x + 0) = true).
  { rewrite !FloatAxioms.leb_spec, add_spec, sub_spec, Prim2SF_zero.
    destruct (Prim2SF x) as [[]|?| |[] m e]; try contradiction;
      try (split; reflexivity);
      split; apply SFleb_refl; discriminate. }
  destruct E as [E1 E2]. split.
  - exact (leb_trans _ _ _ Hs E1).
  - exact (leb_trans _ _ _ E2 Ha).
Qed.

Lemma ltb_leb (x y : float) : (x <? y) = true -> (x <=? y) = true.
Proof.
  rewrite FloatAxioms.ltb_spec, FloatAxioms.leb_spec. unfold SFltb, SFleb.
  destruct (SFcompare (Prim2SF x) (Prim2SF y)) as [[]|]; congruence.
Qed.

Lemma SFltb_leb_trans (x y z : spec_float) :
  SFltb x y = true -> SFleb y z = true -> SFltb x z = true.
Proof.
  unfold SFltb, SFleb, SFcompare.
  destruct x as [[]|[]| |[] mx ex], y as [[]|[]| |[] my ey], z as [[]|[]| |[] mz ez];
    try discriminate; try reflexivity;
    repeat match goal with
      | |- context [(?a ?= ?b)%Z] => destruct (Z.compare_spec a b)
      | |- context [Pos.compare_cont Eq ?a ?b] => destruct (compare_cont_spec a b)
      end; cbn [CompOpp]; try discriminate; try reflexivity; intros _ _; exfalso; lia.
Qed.

Lemma SFleb_ltb_trans (x y z : spec_float) :
  SFleb x y = true -> SFltb y z = true -> SFltb x z = true.
Proof.
  unfold SFltb, SFleb, SFcompare.
  destruct x as [[]|[]| |[] mx ex], y as [[]|[]| |[] my ey], z as [[]|[]| |[] mz ez];
    try discriminate; try reflexivity;
    repeat match goal with
      | |- context [(?a ?= ?b)%Z] => destruct (Z.compare_spec a b)
      | |- context [Pos.compare_cont Eq ?a ?b] => destruct (compare_cont_spec a b)
      end; cbn [CompOpp]; try discriminate; try reflexivity; intros _ _; exfalso; lia.
Qed.

Lemma ltb_leb_trans (x y z : float) :
  (x <? y) = true -> (y <=? z) = true -> (x <? z) = true.
Proof. rewrite !FloatAxioms.ltb_spec, FloatAxioms.leb_spec. apply SFltb_leb_trans. Qed.

Lemma leb_ltb_trans (x y z : float) :
  (x <=? y) = true -> (y <? z) = true -> (x <? z) = true.
Proof. rewrite !FloatAxioms.ltb_spec, FloatAxioms.leb_spec. apply SFleb_ltb_trans. Qed.

Lemma SFmul_comm (x y : spec_float) : SF64mul x y = SF64mul y x.
Proof.
  unfold SF64mul, SFmul.
  destruct x as [sx|sx| |sx mx ex], y as [sy|sy| |sy my ey]; try reflexivity;
    rewrite (xorb_comm sx sy); try reflexivity.
  rewrite (Pos.mul_comm mx my), (Z.add_comm ex ey). reflexivity.
Qed.

Lemma mul_comm (x y : float) : x * y = y * x.
Proof. apply Prim2SF_inj. rewrite !mul_spec. apply SFmul_comm. Qed.

Lemma sub_mono (a1 a2 b1 b2 c : float) :
  is_real (Prim2SF c) ->
  (b2 <=? b1) = true -> (b1 <=? c) = true -> (c <=? a1) = true -> (a1 <=? a2) = true ->
  (a1 - b1 <=? a2 - b2) = true.
Proof.
  rewrite !FloatAxioms.leb_spec, !sub_spec. intros Rc Hb Hbc Hca Ha.
  apply (SFsub_mono _ _ _ _ (Prim2SF c)); auto using Prim2SF_valid.
Qed.

(** The smallest positive binary64 number, [2 ^ -1074]. *)
Lemma least_positive (x : float) : (0 <? x) = true -> (0x1p-1074 <=? x) = true.
Proof.
  intros H. apply ltb_0_positive in H. rewrite FloatAxioms.leb_spec.
  pose proof (Prim2SF_valid x) as V.
  change (Prim2SF 0x1p-1074) with (S754_finite false 1 (-1074)).
  destruct (Prim2SF x) as [?|[]| |[] m e]; try contradiction; try reflexivity.
  destruct (valid_finite _ _ _ V) as (_ & He & _).
  unfold SFleb, SFcompare.
  destruct (Z.compare_spec (-1074) e); try reflexivity; try lia.
  destruct (compare_cont_spec 1 m); try reflexivity; lia.
Qed.

Lemma add_sub_mono_l (x1 x2 d : float) :
  is_real (Prim2SF x1) -> is_real (Prim2SF x2) -> is_real (Prim2SF d) ->
  (x1 <=? x2) = true ->
  (x1 + d <=? x2 + d) = true /\ (x1 - d <=? x2 - d) = true.
Proof.
  intros R1 R2 Rd Hle. rewrite !FloatAxioms.leb_spec in *.
  rewrite !add_spec, !sub_spec.
  apply SFadd_SFsub_mono_l; auto using Prim2SF_valid.
Qed.

Lemma div_anti (r p1 p2 : float) :
  (0 <? r) = true -> (r <? infinity) = true ->
  (0 <? p1) = true -> (p1 <=? p2) = true -> (p2 <? infinity) = true ->
  (r / p2 <=? r / p1) = true.
Proof.
  intros Hr Hri H1 Hle H2.
  assert (H1i : (p1 <? infinity) = true) by (eapply leb_ltb_trans; eassumption).
  assert (H20 : (0 <? p2) = true) by (eapply ltb_leb_trans; eassumption).
  destruct (positive_finite r Hr Hri) as (mr & er & Er).
  destruct (positive_finite p1 H1 H1i) as (m1 & e1 & E1).
  destruct (positive_finite p2 H20 H2) as (m2 & e2 & E2).
  pose proof (Prim2SF_valid r) as Vr. pose proof (Prim2SF_valid p1) as V1.
  pose proof (Prim2SF_valid p2) as V2.
  rewrite FloatAxioms.leb_spec in *. rewrite !div_spec. rewrite Er, E1, E2 in *.
  apply SFdiv_anti; assumption.
Qed.

Lemma leb_false_ltb (lo x y : float) :
  (lo <=? x) = true -> (lo <=? y) = true -> (x <=? y) = false -> (y <? x) = true.
Proof.
  rewrite !FloatAxioms.leb_spec, FloatAxioms.ltb_spec. intros Hx Hy.
  apply SFleb_false_ltb.
  - exact (proj2 (SFleb_not_nan _ _ Hx)).
  - exact (proj2 (SFleb_not_nan _ _ Hy)).
Qed.

End Binary64.

(** * The distance between a rounded result and the exact one *)

Module rounding_error.
Import Rounding Binary64.
Local Open Scope Z_scope.

(** ** How far a rounded result lies from the exact one *)

Lemma pow2_split (a b : Z) : 0 <= a -> 0 <= b -> 2 ^ (a + b) = 2 ^ a * 2 ^ b.
Proof. intros. apply Z.pow_add_r; lia. Qed.

Lemma abs_cancel (x y c : Z) : 0 < c -> Z.abs (x * c) <= y * c -> Z.abs x <= y.
Proof. intros Hc H. rewrite Z.abs_mul, (Z.abs_eq c) in H by lia. nia. Qed.

Lemma finished_ulps (s : bool) (q E : Z) :
  0 <= q <= 2 ^ 53 -> -1074 <= E <= 970 ->
  is_real (finished s q E)
  /\ ulps (finished s q E) = cond_Zopp s q * 2 ^ (E + 1074).
Proof.
  intros Hq HE. unfold finished.
  destruct q as [|m|m]; [split; [exact I|destruct s; reflexivity]| |lia].
  change (2 ^ 53) with 9007199254740992 in Hq.
  destruct (Z.ltb_spec (Zpos m) 9007199254740992) as [Hlt|Hge].
  - destruct (Z.leb_spec E 971); [|lia]. split; [exact I|reflexivity].
  - destruct (Z.leb_spec (E + 1) 971); [|lia]. split; [exact I|].
    assert (Hm : Zpos m = 9007199254740992) by lia.
    cbn [ulps]. unfold sval. rewrite Hm.
    replace (E + 1 + 1074) with (1 + (E + 1074)) by lia.
    rewrite pow2_split by lia. destruct s; cbn [cond_Zopp]; lia.
Qed.

Lemma round_quot_parts (s : bool) (a b e : Z) :
  0 <= a -> 0 < b -> e <= target (a / b) e ->
  exists q,
    round_quot s a b e = finished s q (target (a / b) e)
    /\ 0 <= q <= 2 ^ 53 /\ -1074 <= target (a / b) e
    /\ Z.abs (q * (b * 2 ^ (target (a / b) e - e)) - a)
       <= b * 2 ^ (target (a / b) e - e).
Proof.
  intros Ha Hb He.
  pose proof (rounded_range a b e Ha Hb He) as (HQ & HT & _). cbv zeta in HQ.
  exists (rne_q a (b * 2 ^ (target (a / b) e - e))).
  rewrite round_quot_finish, finish_spec by assumption.
  split; [reflexivity|]. split; [assumption|]. split; [assumption|].
  set (d := b * 2 ^ (target (a / b) e - e)).
  assert (Hd : 0 < d).
  { unfold d. apply Z.mul_pos_pos; [assumption|apply pow2_pos; lia]. }
  pose proof (rne_q_bounds a d) as Hq.
  pose proof (Z.div_mod a d ltac:(lia)) as Hdm.
  pose proof (Z.mod_pos_bound a d Hd) as Hmod.
  nia.
Qed.

Lemma target_le (a b e S K : Z) :
  0 <= a -> 0 < b -> 0 <= e + S -> 0 <= K - 1074 + S ->
  a * 2 ^ (e + S) < b * 2 ^ (K - 1074 + S) ->
  e <= target (a / b) e ->
  target (a / b) e + 1074 <= Z.max (K - 53) 0.
Proof.
  intros Ha Hb HeS HKS Hlt He. rewrite target_eq in *.
  destruct (Z.eq_dec (a / b) 0) as [Hz|Hnz].
  - rewrite Hz in *. change (Zdigits2 0) with 0 in *. lia.
  - assert (Hq : 0 < a / b) by (pose proof (Z.div_pos a b Ha Hb); lia).
    pose proof (Zdigits2_bounds (a / b) Hq) as [Hlo _].
    pose proof (Zdigits2_pos (a / b) Hq) as Hg.
    set (g := Zdigits2 (a / b)) in *.
    assert (Hba : b * (a / b) <= a) by (apply Z.mul_div_le; assumption).
    assert (H1 : b * 2 ^ (g - 1 + (e + S)) < b * 2 ^ (K - 1074 + S)).
    { rewrite pow2_split by lia.
      assert (HP : 0 < 2 ^ (e + S)) by (apply pow2_pos; lia).
      assert (H3 : b * 2 ^ (g - 1) <= a) by nia.
      apply Z.le_lt_trans with (a * 2 ^ (e + S)); [|assumption].
      rewrite Z.mul_assoc. apply Z.mul_le_mono_nonneg_r; lia. }
    assert (H2 : 2 ^ (g - 1 + (e + S)) < 2 ^ (K - 1074 + S)) by nia.
    destruct (Z.le_gt_cases (K - 1074 + S) (g - 1 + (e + S))) as [Hge|]; [|lia].
    pose proof (Z.pow_le_mono_r 2 _ _ ltac:(lia) Hge). lia.
Qed.

(** The result of [round_quot], in units of [2 ^ -1074], against the exact
    quotient [a * 2 ^ e / b] below [2 ^ (K - 1074)]: the two differ by at
    most one unit of the last place, [2 ^ (K - 53)] units (one unit when
    the result is subnormal).  [S] only clears the denominators. *)
Lemma round_quot_err (s : bool) (a b e S K : Z) :
  0 <= a -> 0 < b -> 0 <= e + S -> 1074 <= S -> 0 <= K - 1074 + S ->
  a * 2 ^ (e + S) < b * 2 ^ (K - 1074 + S) ->
  e <= target (a / b) e -> K <= 2097 ->
  exists v,
    is_real (round_quot s a b e)
    /\ ulps (round_quot s a b e) = cond_Zopp s v /\ 0 <= v
    /\ Z.abs (b * v * 2 ^ (S - 1074) - a * 2 ^ (e + S))
       <= b * 2 ^ (Z.max (K - 53) 0 + (S - 1074)).
Proof.
  intros Ha Hb HeS HS HKS Hlt He HK.
  pose proof (target_le a b e S K Ha Hb HeS HKS Hlt He) as HT.
  destruct (round_quot_parts s a b e Ha Hb He) as (q & -> & Hq & HT0 & Herr).
  set (T := target (a / b) e) in *.
  destruct (finished_ulps s q T Hq ltac:(lia)) as [Hreal Hu].
  exists (q * 2 ^ (T + 1074)).
  split; [assumption|]. split; [rewrite Hu; destruct s; cbn [cond_Zopp]; lia|].
  assert (HpT : 0 < 2 ^ (T + 1074)) by (apply pow2_pos; lia).
  split; [nia|].
  assert (HpD : 0 < 2 ^ (T - e)) by (apply pow2_pos; lia).
  assert (HpE : 0 < 2 ^ (e + S)) by (apply pow2_pos; lia).
  assert (E1 : 2 ^ (T + 1074) * 2 ^ (S - 1074) = 2 ^ (T - e) * 2 ^ (e + S)).
  { rewrite <- !pow2_split by lia. f_equal. lia. }
  assert (E2 : b * (q * 2 ^ (T + 1074)) * 2 ^ (S - 1074) - a * 2 ^ (e + S)
               = (q * (b * 2 ^ (T - e)) - a) * 2 ^ (e + S)).
  { transitivity (b * q * (2 ^ (T + 1074) * 2 ^ (S - 1074)) - a * 2 ^ (e + S)); [ring|].
    rewrite E1. ring. }
  rewrite E2, Z.abs_mul, (Z.abs_eq (2 ^ (e + S))) by lia.
  assert (Hm : 2 ^ (T - e) * 2 ^ (e + S) <= 2 ^ (Z.max (K - 53) 0 + (S - 1074))).
  { rewrite <- pow2_split by lia. apply Z.pow_le_mono_r; lia. }
  nia.
Qed.

(** [binary_normalize]: the exact value is the integer [n * 2 ^ e]. *)
Lemma normalize_err (n e K : Z) :
  -1074 <= e -> Z.abs n * 2 ^ (e + 1074) < 2 ^ K -> K <= 2097 ->
  is_real (binary_normalize prec emax n e false)
  /\ Z.abs (ulps (binary_normalize prec emax n e false) - n * 2 ^ (e + 1074))
     <= 2 ^ Z.max (K - 53) 0.
Proof.
  intros He Hlt HK.
  assert (HK0 : 0 <= K).
  { destruct (Z.ltb_spec K 0) as [Hn|]; [|assumption].
    rewrite (Z.pow_neg_r 2 K Hn) in Hlt.
    assert (0 < 2 ^ (e + 1074)) by (apply pow2_pos; lia). nia. }
  assert (Hp0 : 0 < 2 ^ Z.max (K - 53) 0) by (apply pow2_pos; lia).
  destruct n as [|m|m].
  - cbn. split; [exact I|lia].
  - cbn [binary_normalize].
    destruct (binary_round_quot false m e) as (mz & ez & -> & Hmz & Hez & Emz & Ht).
    set (S := Z.max 1074 (- ez)).
    assert (HS : 1074 <= S /\ 0 <= ez + S) by (unfold S; lia). clearbody S.
    assert (Hscale : Zpos m * 2 ^ (e + 1074) * 2 ^ (S - 1074) = mz * 2 ^ (ez + S)).
    { rewrite Emz, <- !Z.mul_assoc, <- !pow2_split by lia. do 2 f_equal. lia. }
    destruct (round_quot_err false mz 1 ez S K) as (v & Hreal & Hu & Hv & Herr);
      try lia.
    { rewrite <- Hscale, Z.mul_1_l.
      replace (K - 1074 + S) with (K + (S - 1074)) by lia.
      rewrite (pow2_split K (S - 1074)) by lia.
      apply Z.mul_lt_mono_pos_r; [apply pow2_pos; lia|].
      rewrite Z.abs_eq in Hlt by lia. exact Hlt. }
    split; [assumption|]. rewrite Hu. cbn [cond_Zopp].
    apply (abs_cancel _ _ (2 ^ (S - 1074))); [apply pow2_pos; lia|].
    rewrite <- pow2_split by lia.
    rewrite Z.mul_sub_distr_r, Hscale.
    rewrite !Z.mul_1_l in Herr. exact Herr.
  - cbn [binary_normalize].
    destruct (binary_round_quot true m e) as (mz & ez & -> & Hmz & Hez & Emz & Ht).
    set (S := Z.max 1074 (- ez)).
    assert (HS : 1074 <= S /\ 0 <= ez + S) by (unfold S; lia). clearbody S.
    assert (Hscale : Zpos m * 2 ^ (e + 1074) * 2 ^ (S - 1074) = mz * 2 ^ (ez + S)).
    { rewrite Emz, <- !Z.mul_assoc, <- !pow2_split by lia. do 2 f_equal. lia. }
    destruct (round_quot_err true mz 1 ez S K) as (v & Hreal & Hu & Hv & Herr);
      try lia.
    { rewrite <- Hscale, Z.mul_1_l.
      replace (K - 1074 + S) with (K + (S - 1074)) by lia.
      rewrite (pow2_split K (S - 1074)) by lia.
      apply Z.mul_lt_mono_pos_r; [apply pow2_pos; lia|].
      change (Z.abs (Zneg m)) with (Zpos m) in Hlt. exact Hlt. }
    split; [assumption|]. rewrite Hu. cbn [cond_Zopp].
    apply (abs_cancel _ _ (2 ^ (S - 1074))); [apply pow2_pos; lia|].
    rewrite <- pow2_split by lia.
    rewrite !Z.mul_1_l in Herr.
    replace ((- v - Zneg m * 2 ^ (e + 1074)) * 2 ^ (S - 1074))
      with (- (v * 2 ^ (S - 1074) - Zpos m * 2 ^ (e + 1074) * 2 ^ (S - 1074)))
      by (change (Zneg m) with (- Zpos m); ring).
    rewrite Z.abs_opp, Hscale. exact Herr.
Qed.

Lemma ulps_opp (y : spec_float) : ulps (SFopp y) = - ulps y.
Proof. destruct y as [| | |[] m e]; cbn; unfold sval; cbn; lia. Qed.

Lemma ulps_aligned (s : bool) (m : positive) (e B : Z) :
  -1074 <= B -> B <= e ->
  sval s m * 2 ^ (e - B) * 2 ^ (B + 1074) = ulps (S754_finite s m e).
Proof.
  intros. cbn [ulps]. rewrite <- Z.mul_assoc, <- pow2_split by lia.
  do 2 f_equal. lia.
Qed.

Lemma SFsub_err (x y : spec_float) (K : Z) :
  valid_binary x = true -> valid_binary y = true -> is_real x -> is_real y ->
  Z.abs (ulps x - ulps y) < 2 ^ K -> K <= 2097 ->
  is_real (SF64sub x y)
  /\ Z.abs (ulps (SF64sub x y) - (ulps x - ulps y)) <= 2 ^ Z.max (K - 53) 0.
Proof.
  intros Vx Vy Rx Ry Hlt HK.
  assert (HK0 : 0 <= K).
  { destruct (Z.ltb_spec K 0) as [Hn|]; [|assumption].
    rewrite (Z.pow_neg_r 2 K Hn) in Hlt. lia. }
  assert (Hp0 : 0 < 2 ^ Z.max (K - 53) 0) by (apply pow2_pos; lia).
  destruct x as [sx| | |sx mx ex]; try contradiction;
    destruct y as [sy| | |sy my ey]; try contradiction.
  - split; [destruct sx, sy; exact I|]. destruct sx, sy; cbn; lia.
  - split; [exact I|].
    change (SF64sub (S754_zero sx) (S754_finite sy my ey))
      with (SFopp (S754_finite sy my ey)).
    rewrite ulps_opp. cbn [ulps]. lia.
  - split; [exact I|].
    change (SF64sub (S754_finite sx mx ex) (S754_zero sy))
      with (S754_finite sx mx ex). cbn [ulps]. lia.
  - rewrite SFsub_finite.
    destruct (valid_finite _ _ _ Vx) as (_ & Hex & _).
    destruct (valid_finite _ _ _ Vy) as (_ & Hey & _).
    set (B := Z.min ex ey).
    assert (E : (sval sx mx * 2 ^ (ex - B) - sval sy my * 2 ^ (ey - B)) * 2 ^ (B + 1074)
                = ulps (S754_finite sx mx ex) - ulps (S754_finite sy my ey)).
    { rewrite Z.mul_sub_distr_r, !ulps_aligned by (unfold B; lia). reflexivity. }
    rewrite <- E in *.
    apply normalize_err; [unfold B; lia| |assumption].
    rewrite Z.abs_mul in Hlt.
    rewrite (Z.abs_eq (2 ^ (B + 1074))) in Hlt
      by (apply Z.lt_le_incl, pow2_pos; unfold B; lia).
    exact Hlt.
Qed.

Lemma SFadd_err (x y : spec_float) (K : Z) :
  valid_binary x = true -> valid_binary y = true -> is_real x -> is_real y ->
  Z.abs (ulps x + ulps y) < 2 ^ K -> K <= 2097 ->
  is_real (SF64add x y)
  /\ Z.abs (ulps (SF64add x y) - (ulps x + ulps y)) <= 2 ^ Z.max (K - 53) 0.
Proof.
  intros Vx Vy Rx Ry Hlt HK. rewrite SFadd_as_sub.
  replace (ulps x + ulps y) with (ulps x - ulps (SFopp y)) in *
    by (rewrite ulps_opp; lia).
  apply SFsub_err; try assumption.
  - rewrite valid_opp. assumption.
  - apply is_real_opp. assumption.
Qed.

(** Multiplication by a positive finite constant. *)
Lemma SFmul_err (x : spec_float) (mc : positive) (ec K : Z) :
  valid_binary x = true -> valid_binary (S754_finite false mc ec) = true ->
  is_real x ->
  Z.abs (ulps x) * ulps (S754_finite false mc ec) < 2 ^ (K + 1074) -> K <= 2097 ->
  is_real (SF64mul x (S754_finite false mc ec))
  /\ Z.abs (ulps (SF64mul x (S754_finite false mc ec)) * 2 ^ 1074
            - ulps x * ulps (S754_finite false mc ec))
     <= 2 ^ (Z.max (K - 53) 0 + 1074).
Proof.
  intros Vx Vc Rx Hlt HK.
  assert (Hp0 : 0 < 2 ^ (Z.max (K - 53) 0 + 1074)) by (apply pow2_pos; lia).
  destruct x as [sx| | |sx mx ex]; try contradiction.
  - split; [exact I|]. cbn. lia.
  - destruct (valid_finite _ _ _ Vx) as (_ & Hex & _).
    destruct (valid_finite _ _ _ Vc) as (_ & Hec & _).
    destruct (SFmul_finite sx false mx mc ex ec Vx Vc) as [-> Ht].
    assert (Eprod : Z.abs (ulps (S754_finite sx mx ex)) * ulps (S754_finite false mc ec)
                    = Zpos mx * Zpos mc * 2 ^ (ex + ec + 2148)).
    { cbn [ulps]. unfold sval. cbn [cond_Zopp].
      replace (ex + ec + 2148) with ((ex + 1074) + (ec + 1074)) by lia.
      rewrite (pow2_split (ex + 1074) (ec + 1074)) by lia.
      assert (0 < 2 ^ (ex + 1074)) by (apply pow2_pos; lia).
      rewrite Z.abs_mul, (Z.abs_eq (2 ^ (ex + 1074))) by lia.
      destruct sx; cbn [cond_Zopp]; rewrite ?Z.abs_opp, Z.abs_eq by lia; ring. }
    rewrite Eprod in Hlt.
    assert (HK0 : 0 <= K + 1074).
    { destruct (Z.ltb_spec (K + 1074) 0) as [Hn|]; [|assumption].
      rewrite (Z.pow_neg_r 2 _ Hn) in Hlt.
      assert (0 < 2 ^ (ex + ec + 2148)) by (apply pow2_pos; lia). nia. }
    destruct (round_quot_err (xorb sx false) (Zpos mx * Zpos mc) 1 (ex + ec) 2148 K)
      as (v & Hreal & Hu & Hv & Herr); try lia.
    { rewrite Z.mul_1_l. replace (K - 1074 + 2148) with (K + 1074) by lia.
      exact Hlt. }
    split; [assumption|]. rewrite Hu.
    rewrite !Z.mul_1_l in Herr. change (2148 - 1074) with 1074 in Herr.
    assert (Es : ulps (S754_finite sx mx ex) * ulps (S754_finite false mc ec)
                 = cond_Zopp (xorb sx false) (Zpos mx * Zpos mc * 2 ^ (ex + ec + 2148))).
    { cbn [ulps]. unfold sval.
      replace (ex + ec + 2148) with ((ex + 1074) + (ec + 1074)) by lia.
      rewrite (pow2_split (ex + 1074) (ec + 1074)) by lia.
      destruct sx; cbn [cond_Zopp xorb]; ring. }
    rewrite Es. destruct (xorb sx false); cbn [cond_Zopp].
    + replace (- v * 2 ^ 1074 - - (Zpos mx * Zpos mc * 2 ^ (ex + ec + 2148)))
        with (- (v * 2 ^ 1074 - Zpos mx * Zpos mc * 2 ^ (ex + ec + 2148))) by ring.
      rewrite Z.abs_opp. exact Herr.
    + exact Herr.
Qed.

Lemma div_exp_ge (mx my : positive) (ex ey : Z) :
  -1074 <= ex -> -1074 <= ey -> 0 <= div_exp mx ex my ey + (ey + 2148).
Proof.
  intros. unfold div_exp.
  change (fexp prec emax ?x) with (Z.max (x - 53) (-1074)). lia.
Qed.

(** Division of a finite number by a positive finite one. *)
Lemma SFdiv_err (sx : bool) (mx my : positive) (ex ey K : Z) :
  valid_binary (S754_finite sx mx ex) = true ->
  valid_binary (S754_finite false my ey) = true ->
  Zpos mx * 2 ^ (ex + 1074) * 2 ^ 1074 < ulps (S754_finite false my ey) * 2 ^ K ->
  0 <= K <= 2097 ->
  is_real (SF64div (S754_finite sx mx ex) (S754_finite false my ey))
  /\ Z.abs (ulps (SF64div (S754_finite sx mx ex) (S754_finite false my ey))
              * ulps (S754_finite false my ey)
            - ulps (S754_finite sx mx ex) * 2 ^ 1074)
     <= ulps (S754_finite false my ey) * 2 ^ Z.max (K - 53) 0.
Proof.
  intros Vx Vy Hlt HK.
  destruct (valid_finite _ _ _ Vx) as (_ & Hex & _).
  destruct (valid_finite _ _ _ Vy) as (_ & Hey & _).
  destruct (SFdiv_finite sx false mx my ex ey Vx) as [-> Ht].
  pose proof (div_exp_ge mx my ex ey ltac:(lia) ltac:(lia)) as Hde.
  set (e' := div_exp mx ex my ey) in *.
  assert (He' : e' <= ex - ey) by (unfold e', div_exp; lia).
  set (S := ey + 2148).
  assert (HS : 1074 <= S /\ 0 <= e' + S) by (unfold S; lia).
  assert (Ea : div_num mx ex my ey * 2 ^ (e' + S) = Zpos mx * 2 ^ (ex + 1074) * 2 ^ 1074).
  { unfold div_num. fold e'. rewrite <- !Z.mul_assoc, <- !pow2_split by lia.
    do 2 f_equal. lia. }
  assert (Ey : ulps (S754_finite false my ey) * 2 ^ 1074 = Zpos my * 2 ^ (S - 1074) * 2 ^ 1074).
  { cbn [ulps]. unfold sval. cbn [cond_Zopp]. do 3 f_equal. lia. }
  assert (Ey' : ulps (S754_finite false my ey) = Zpos my * 2 ^ (S - 1074)).
  { cbn [ulps]. unfold sval. cbn [cond_Zopp]. do 2 f_equal. lia. }
  destruct (round_quot_err (xorb sx false) (div_num mx ex my ey) (Zpos my) e' S K)
    as (v & Hreal & Hu & Hv & Herr); try lia.
  { rewrite Ea. rewrite Ey' in Hlt.
    replace (K - 1074 + S) with ((S - 1074) + K) by (unfold S; lia).
    rewrite (pow2_split (S - 1074) K) by (unfold S; lia). lia. }
  split; [assumption|]. rewrite Hu, Ey'. rewrite Ea in Herr.
  rewrite (pow2_split (Z.max (K - 53) 0) (S - 1074)) in Herr by lia.
  assert (Es : ulps (S754_finite sx mx ex) * 2 ^ 1074
               = cond_Zopp (xorb sx false) (Zpos mx * 2 ^ (ex + 1074) * 2 ^ 1074)).
  { cbn [ulps]. unfold sval. destruct sx; cbn [cond_Zopp xorb]; ring. }
  rewrite Es. destruct (xorb sx false); cbn [cond_Zopp].
  - replace (- v * (Zpos my * 2 ^ (S - 1074)) - - (Zpos mx * 2 ^ (ex + 1074) * 2 ^ 1074))
      with (- (Zpos my * v * 2 ^ (S - 1074) - Zpos mx * 2 ^ (ex + 1074) * 2 ^ 1074)) by ring.
    rewrite Z.abs_opp.
    replace (Zpos my * 2 ^ (S - 1074) * 2 ^ Z.max (K - 53) 0)
      with (Zpos my * (2 ^ Z.max (K - 53) 0 * 2 ^ (S - 1074))) by ring.
    exact Herr.
  - replace (v * (Zpos my * 2 ^ (S - 1074)))
      with (Zpos my * v * 2 ^ (S - 1074)) by ring.
    replace (Zpos my * 2 ^ (S - 1074) * 2 ^ Z.max (K - 53) 0)
      with (Zpos my * (2 ^ Z.max (K - 53) 0 * 2 ^ (S - 1074))) by ring.
    exact Herr.
Qed.

End rounding_error.


Module units_facts.
Import Rounding Binary64 rounding_error.
Local Open Scope Z_scope.

Lemma ulps_dy (f : spec_float) :
  ulps f = fst (dy f) * 2 ^ (snd (dy f) - -1074).
Proof.
  destruct f as [| | |s m e]; reflexivity.
Qed.

Lemma dy_exp (f : spec_float) : valid_binary f = true -> -1074 <= snd (dy f).
Proof.
  destruct f as [| | |s m e]; cbn [dy snd]; try lia.
  intros V. destruct (valid_finite _ _ _ V) as (_ & He & _). lia.
Qed.

Lemma leb_units (x y : float) :
  is_real (Prim2SF x) -> is_real (Prim2SF y) ->
  (x <=? y)%float = true -> units x <= units y.
Proof.
  intros Rx Ry. rewrite FloatAxioms.leb_spec. intros Hle. unfold units.
  rewrite !ulps_dy.
  apply real_le_dy; auto using Prim2SF_valid, dy_exp.
Qed.

Lemma units_ltb (x y : float) :
  is_real (Prim2SF x) -> is_real (Prim2SF y) ->
  units x < units y -> (x <? y)%float = true.
Proof.
  intros Rx Ry Hlt. rewrite FloatAxioms.ltb_spec.
  apply SFleb_false_ltb.
  - intros E. rewrite E in Ry. exact Ry.
  - intros E. rewrite E in Rx. exact Rx.
  - destruct (SFleb (Prim2SF y) (Prim2SF x)) eqn:Hle; [|reflexivity].
    rewrite <- FloatAxioms.leb_spec in Hle.
    pose proof (leb_units y x Ry Rx Hle). lia.
Qed.

Lemma sub_units (x y : float) (K : Z) :
  is_real (Prim2SF x) -> is_real (Prim2SF y) ->
  Z.abs (units x - units y) < 2 ^ K -> K <= 2097 ->
  is_real (Prim2SF (x - y))
  /\ Z.abs (units (x - y) - (units x - units y)) <= 2 ^ Z.max (K - 53) 0.
Proof.
  intros Rx Ry Hlt HK. unfold units in *. rewrite sub_spec.
  apply SFsub_err; auto using Prim2SF_valid.
Qed.

Lemma add_units (x y : float) (K : Z) :
  is_real (Prim2SF x) -> is_real (Prim2SF y) ->
  Z.abs (units x + units y) < 2 ^ K -> K <= 2097 ->
  is_real (Prim2SF (x + y))
  /\ Z.abs (units (x + y) - (units x + units y)) <= 2 ^ Z.max (K - 53) 0.
Proof.
  intros Rx Ry Hlt HK. unfold units in *. rewrite add_spec.
  apply SFadd_err; auto using Prim2SF_valid.
Qed.

Lemma mul_units (x c : float) (K : Z) :
  is_real (Prim2SF x) ->
  (0 <? c)%float = true -> (c <? infinity)%float = true ->
  Z.abs (units x) * units c < 2 ^ (K + 1074) -> K <= 2097 ->
  is_real (Prim2SF (x * c))
  /\ Z.abs (units (x * c) * 2 ^ 1074 - units x * units c)
     <= 2 ^ (Z.max (K - 53) 0 + 1074).
Proof.
  intros Rx H0 Hi Hlt HK. destruct (positive_finite c H0 Hi) as (m & e & Hc).
  pose proof (Prim2SF_valid c) as Vc.
  unfold units in *. rewrite mul_spec. rewrite Hc in *.
  apply SFmul_err; auto using Prim2SF_valid.
Qed.

Lemma div_units (r p : float) (K : Z) :
  (0 <? r)%float = true -> (r <? infinity)%float = true ->
  (0 <? p)%float = true -> (p <? infinity)%float = true ->
  units r * 2 ^ 1074 < units p * 2 ^ K -> 0 <= K <= 2097 ->
  is_real (Prim2SF (r / p))
  /\ Z.abs (units (r / p) * units p - units r * 2 ^ 1074)
     <= units p * 2 ^ Z.max (K - 53) 0.
Proof.
  intros Hr Hri Hp Hpi Hlt HK.
  destruct (positive_finite r Hr Hri) as (mr & er & Er).
  destruct (positive_finite p Hp Hpi) as (mp & ep & Ep).
  pose proof (Prim2SF_valid r) as Vr. pose proof (Prim2SF_valid p) as Vp.
  unfold units in *. rewrite div_spec. rewrite Er, Ep in *.
  apply SFdiv_err; auto.
Qed.

Lemma units_pos (x : float) :
  (0 <? x)%float = true -> (x <? infinity)%float = true -> 0 < units x.
Proof.
  intros H0 Hi. destruct (positive_finite x H0 Hi) as (m & e & E).
  pose proof (Prim2SF_valid x) as V. rewrite E in V.
  destruct (valid_finite _ _ _ V) as (_ & He & _).
  unfold units. rewrite E. cbn [ulps]. unfold sval. cbn [cond_Zopp].
  apply Z.mul_pos_pos; [lia|apply pow2_pos; lia].
Qed.

End units_facts.


Module span_facts.
Import Rounding Binary64 rounding_error units_facts bounding_box.
Local Open Scope Z_scope.

Lemma radToDeg_positive :
  (0 <? Py.radToDeg)%float = true /\ (Py.radToDeg <? infinity)%float = true.
Proof. split; vm_compute; reflexivity. Qed.

Lemma radToDeg_units : 32 * 2 ^ 1074 <= units Py.radToDeg < 64 * 2 ^ 1074.
Proof. split; [apply Z.leb_le|apply Z.ltb_lt]; vm_compute; reflexivity. Qed.

Lemma mul_cancel_lt (a b c : Z) : 0 < c -> c * a < c * b -> a < b.
Proof. intros. nia. Qed.

Lemma mul_cancel_le (a b c : Z) : 0 < c -> c * a <= c * b -> a <= b.
Proof. intros. nia. Qed.

Section Chain.

Variables (X p : float) (L : Z).
Hypothesis RX : is_real (Prim2SF X).
Hypothesis BX : Z.abs (units X) <= 4 * 2 ^ 1074.
Hypothesis Hp0 : (0 <? p)%float = true.
Hypothesis Hpi : (p <? infinity)%float = true.
Hypothesis HL : 2 ^ L <= units p < 2 ^ (L + 1).
Hypothesis HLr : 77 <= L <= 1088.

Lemma chain (r : float) :
  (0 <? r)%float = true -> (r <? infinity)%float = true ->
  units r <= 32768 * 2 ^ 1074 ->
  is_real (Prim2SF (span X p r))
  /\ Z.abs (units (r / p) * units p - units r * 2 ^ 1074)
     <= units p * 2 ^ (2111 - L)
  /\ Z.abs (units (X + r / p) - (units X + units (r / p))) <= 2 * 2 ^ (2111 - L)
  /\ Z.abs (units (X - r / p) - (units X - units (r / p))) <= 2 * 2 ^ (2111 - L)
  /\ Z.abs (units (upper_bound X p r) * 2 ^ 1074 - units (X + r / p) * units Py.radToDeg)
     <= 256 * 2 ^ (2111 - L) * 2 ^ 1074
  /\ Z.abs (units (lower_bound X p r) * 2 ^ 1074 - units (X - r / p) * units Py.radToDeg)
     <= 256 * 2 ^ (2111 - L) * 2 ^ 1074
  /\ Z.abs (units (span X p r) - (units (upper_bound X p r) - units (lower_bound X p r)))
     <= 512 * 2 ^ (2111 - L).
Proof.
  intros Hr0 Hri Hr.
  destruct radToDeg_positive as [Hc0 Hci]. pose proof radToDeg_units as Hc.
  pose proof (units_pos r Hr0 Hri) as Hrpos.
  pose proof (units_pos p Hp0 Hpi) as Hppos.
  assert (Ea : 32768 * 2 ^ 1074 * 2 ^ 1074 = 2 ^ L * (4503599627370496 * 2 ^ (2111 - L))).
  { change 32768 with (2 ^ 15). change 4503599627370496 with (2 ^ 52).
    rewrite <- !Z.pow_add_r by lia. f_equal. lia. }
  assert (Ew1 : 2 ^ (2164 - L) = 9007199254740992 * 2 ^ (2111 - L)).
  { change 9007199254740992 with (2 ^ 53). rewrite <- Z.pow_add_r by lia. f_equal. lia. }
  assert (Ew2 : 2 ^ (2165 - L) = 18014398509481984 * 2 ^ (2111 - L)).
  { change 18014398509481984 with (2 ^ 54). rewrite <- Z.pow_add_r by lia. f_equal. lia. }
  assert (Ew3 : 2 ^ (2112 - L) = 2 * 2 ^ (2111 - L)).
  { change 2 with (2 ^ 1) at 2. rewrite <- Z.pow_add_r by lia. f_equal. lia. }
  assert (Ew4 : 2 ^ (2172 - L + 1074) = 2305843009213693952 * 2 ^ (2111 - L) * 2 ^ 1074).
  { change 2305843009213693952 with (2 ^ 61). rewrite <- !Z.pow_add_r by lia. f_equal. lia. }
  assert (Ew5 : 2 ^ (2119 - L + 1074) = 256 * 2 ^ (2111 - L) * 2 ^ 1074).
  { change 256 with (2 ^ 8). rewrite <- !Z.pow_add_r by lia. f_equal. lia. }
  assert (Ew6 : 2 ^ (2173 - L) = 4611686018427387904 * 2 ^ (2111 - L)).
  { change 4611686018427387904 with (2 ^ 62). rewrite <- Z.pow_add_r by lia. f_equal. lia. }
  assert (Ew7 : 2 ^ (2120 - L) = 512 * 2 ^ (2111 - L)).
  { change 512 with (2 ^ 9). rewrite <- Z.pow_add_r by lia. f_equal. lia. }
  assert (Hx : 4 * 2 ^ 1074 <= 9007199254740992 * 2 ^ (2111 - L)).
  { rewrite <- Ew1. change 4 with (2 ^ 2). rewrite <- Z.pow_add_r by lia.
    apply Z.pow_le_mono_r; lia. }
  assert (Hw : 0 < 2 ^ (2111 - L)) by (apply pow2_pos; lia).
  assert (HT : 0 < 2 ^ 1074) by (apply pow2_pos; lia).
  set (w := 2 ^ (2111 - L)) in *. set (T := 2 ^ 1074) in *.
  set (P := units p) in *. set (C := units Py.radToDeg) in *.
  (* the offset *)
  destruct (div_units r p (2164 - L) Hr0 Hri Hp0 Hpi) as [Rd Hd]; [|lia|].
  { fold T P. apply Z.le_lt_trans with (32768 * T * T).
    - apply Z.mul_le_mono_nonneg_r; lia.
    - rewrite Ea. replace (2164 - L) with (1 + (2163 - L)) by lia.
      rewrite Z.pow_add_r by lia.
      assert (E' : 4503599627370496 * w = 2 ^ (2163 - L)).
      { unfold w. change 4503599627370496 with (2 ^ 52).
        rewrite <- Z.pow_add_r by lia. f_equal. lia. }
      rewrite E'. assert (0 < 2 ^ (2163 - L)) by (apply pow2_pos; lia).
      change (2 ^ 1) with 2. nia. }
  replace (Z.max (2164 - L - 53) 0) with (2111 - L) in Hd by lia.
  fold w T P in Hd. set (d := units (r / p)) in *.
  assert (Hdb : - w <= d <= 4503599627370497 * w).
  { assert (H1 : P * (- w) <= P * d) by nia.
    assert (H2 : P * d <= P * (4503599627370497 * w)).
    { assert (units r * T <= 32768 * T * T) by (apply Z.mul_le_mono_nonneg_r; lia).
      assert (2 ^ L * (4503599627370496 * w) <= P * (4503599627370496 * w))
        by (apply Z.mul_le_mono_nonneg_r; lia).
      nia. }
    split; [exact (mul_cancel_le _ _ P Hppos H1)|exact (mul_cancel_le _ _ P Hppos H2)]. }
  (* the two bounds, in radians *)
  destruct (add_units X (r / p) (2165 - L) RX Rd) as [Rs Hs]; [|lia|].
  { rewrite Ew2. fold d w. lia. }
  destruct (sub_units X (r / p) (2165 - L) RX Rd) as [Rt Ht]; [|lia|].
  { rewrite Ew2. fold d w. lia. }
  replace (Z.max (2165 - L - 53) 0) with (2112 - L) in Hs, Ht by lia.
  rewrite Ew3 in Hs, Ht. fold d in Hs, Ht.
  set (s := units (X + r / p)) in *. set (t := units (X - r / p)) in *.
  (* in degrees *)
  assert (Hmag : forall v, Z.abs v <= 18014398509481986 * w ->
                 Z.abs v * C < 2305843009213693952 * w * T).
  { intros v Hv. apply Z.le_lt_trans with (18014398509481986 * w * C).
    - apply Z.mul_le_mono_nonneg_r; lia.
    - assert (18014398509481986 * w * C < 18014398509481986 * w * (64 * T)).
      { apply Z.mul_lt_mono_pos_l; lia. }
      nia. }
  destruct (mul_units (X + r / p) Py.radToDeg (2172 - L) Rs Hc0 Hci) as [RU HU]; [|lia|].
  { rewrite Ew4. fold s C. apply Hmag. lia. }
  destruct (mul_units (X - r / p) Py.radToDeg (2172 - L) Rt Hc0 Hci) as [RLo HLo]; [|lia|].
  { rewrite Ew4. fold t C. apply Hmag. lia. }
  replace (Z.max (2172 - L - 53) 0) with (2119 - L) in HU, HLo by lia.
  rewrite Ew5 in HU, HLo. fold s t C T in HU, HLo.
  fold (upper_bound X p r) in RU, HU. fold (lower_bound X p r) in RLo, HLo.
  set (U := units (upper_bound X p r)) in *. set (Lo := units (lower_bound X p r)) in *.
  assert (Hbound : forall x v, Z.abs v <= 18014398509481986 * w ->
                   Z.abs (x * T - v * C) <= 256 * w * T ->
                   Z.abs x < 2305843009213693952 * w).
  { intros x v Hv Hxv.
    assert (HwT : 0 < w * T) by (apply Z.mul_pos_pos; assumption).
    assert (Hvc : Z.abs (v * C) <= 1152921504606847104 * (w * T)).
    { rewrite Z.abs_mul, (Z.abs_eq C) by lia.
      apply Z.le_trans with (18014398509481986 * w * C).
      - apply Z.mul_le_mono_nonneg_r; lia.
      - assert (18014398509481986 * w * C <= 18014398509481986 * w * (64 * T)).
        { apply Z.mul_le_mono_nonneg_l; lia. }
        lia. }
    assert (HxT : Z.abs (x * T) < 2305843009213693952 * (w * T)) by lia.
    rewrite Z.abs_mul, (Z.abs_eq T) in HxT by lia.
    apply (mul_cancel_lt _ _ T); lia. }
  assert (HUb : Z.abs U < 2305843009213693952 * w) by (apply (Hbound U s); [lia|exact HU]).
  assert (HLb : Z.abs Lo < 2305843009213693952 * w) by (apply (Hbound Lo t); [lia|exact HLo]).
  destruct (sub_units (upper_bound X p r) (lower_bound X p r) (2173 - L) RU RLo) as [Rsp Hsp]; [|lia|].
  { rewrite Ew6. fold U Lo w. lia. }
  replace (Z.max (2173 - L - 53) 0) with (2120 - L) in Hsp by lia.
  rewrite Ew7 in Hsp. fold U Lo w in Hsp.
  split; [exact Rsp|]. split; [exact Hd|]. split; [exact Hs|]. split; [exact Ht|].
  split; [exact HU|]. split; [exact HLo|exact Hsp].
Qed.

(** The arithmetic of [span_strict]: offsets [d1], [d2] of two radii
    [q1], [q2] that are far apart, the bounds in radians ([s], [t]) and in
    degrees ([U], [Lo]) and the spans, each within its rounding error. *)
Lemma span_arith (T w P C q1 q2 d1 d2 x s1 s2 t1 t2 U1 U2 Lo1 Lo2 sp1 sp2 : Z) :
  0 < T -> 0 < w -> 0 < P -> 32 * T <= C ->
  P * (64 * w) < (q2 - q1) * T ->
  Z.abs (d1 * P - q1 * T) <= P * w -> Z.abs (d2 * P - q2 * T) <= P * w ->
  Z.abs (s1 - (x + d1)) <= 2 * w -> Z.abs (s2 - (x + d2)) <= 2 * w ->
  Z.abs (t1 - (x - d1)) <= 2 * w -> Z.abs (t2 - (x - d2)) <= 2 * w ->
  Z.abs (U1 * T - s1 * C) <= 256 * w * T -> Z.abs (U2 * T - s2 * C) <= 256 * w * T ->
  Z.abs (Lo1 * T - t1 * C) <= 256 * w * T -> Z.abs (Lo2 * T - t2 * C) <= 256 * w * T ->
  Z.abs (sp1 - (U1 - Lo1)) <= 512 * w -> Z.abs (sp2 - (U2 - Lo2)) <= 512 * w ->
  sp1 < sp2.
Proof.
  intros HT Hw HP HC Hq Hd1 Hd2 Hs1 Hs2 Ht1 Ht2 HU1 HU2 HL1 HL2 Hp1 Hp2.
  apply Z.abs_le in Hd1, Hd2, Hs1, Hs2, Ht1, Ht2, HU1, HU2, HL1, HL2, Hp1, Hp2.
  assert (HwT : 0 < w * T) by (apply Z.mul_pos_pos; assumption).
  assert (Hd : 62 * w < d2 - d1).
  { apply (mul_cancel_lt _ _ P HP). clear - Hq Hd1 Hd2. lia. }
  assert (Hst : 116 * w < (s2 - s1) + (t1 - t2)).
  { clear - Hd Hs1 Hs2 Ht1 Ht2. lia. }
  assert (Hprod : 116 * w * (32 * T) < ((s2 - s1) + (t1 - t2)) * C).
  { apply Z.lt_le_trans with (((s2 - s1) + (t1 - t2)) * (32 * T)).
    - apply Z.mul_lt_mono_pos_r; [clear - HT; lia|exact Hst].
    - apply Z.mul_le_mono_nonneg_l; [clear - Hst Hw; lia|exact HC]. }
  assert (Hdeg : (116 * 32 - 1024) * (w * T) < ((U2 - U1) + (Lo1 - Lo2)) * T).
  { clear - Hprod HU1 HU2 HL1 HL2. lia. }
  assert (Hsp : (U2 - U1) + (Lo1 - Lo2) - 1024 * w <= sp2 - sp1).
  { clear - Hp1 Hp2. lia. }
  apply (Z.mul_le_mono_nonneg_r _ _ T (Z.lt_le_incl _ _ HT)) in Hsp.
  apply (mul_cancel_lt _ _ T HT). clear - Hdeg Hsp HwT. lia.
Qed.

Lemma span_strict (r1 r2 : float) :
  (0 <? r1)%float = true -> (r1 <? infinity)%float = true ->
  (0 <? r2)%float = true -> (r2 <? infinity)%float = true ->
  units r1 + 2 ^ 1044 <= units r2 -> units r2 <= 32768 * 2 ^ 1074 ->
  (span X p r1 <? span X p r2)%float = true.
Proof.
  intros H1 H1i H2 H2i Hgap Hmax.
  assert (G0 : 0 < 2 ^ 1044) by (apply pow2_pos; lia).
  assert (Hmax1 : units r1 <= 32768 * 2 ^ 1074).
  { clear - Hgap Hmax G0. generalize dependent (2 ^ 1044). intros. lia. }
  destruct (chain r1 H1 H1i Hmax1) as (Rsp1 & Hd1 & Hs1 & Ht1 & HU1 & HLo1 & Hsp1).
  destruct (chain r2 H2 H2i Hmax) as (Rsp2 & Hd2 & Hs2 & Ht2 & HU2 & HLo2 & Hsp2).
  apply units_ltb; [assumption|assumption|].
  pose proof radToDeg_units as [Hc _].
  pose proof (units_pos p Hp0 Hpi) as Hppos.
  assert (Hw : 0 < 2 ^ (2111 - L)) by (apply pow2_pos; lia).
  assert (HT : 0 < 2 ^ 1074) by (apply pow2_pos; lia).
  assert (Eg : 2 ^ 1044 * 2 ^ 1074 = 2 ^ (L + 1) * (64 * 2 ^ (2111 - L))).
  { change 64 with (2 ^ 6). rewrite <- !Z.pow_add_r by lia. f_equal. lia. }
  assert (Hq : units p * (64 * 2 ^ (2111 - L)) < (units r2 - units r1) * 2 ^ 1074).
  { apply Z.lt_le_trans with (2 ^ 1044 * 2 ^ 1074).
    - rewrite Eg. apply Z.mul_lt_mono_pos_r; [|apply HL].
      apply Z.mul_pos_pos; [reflexivity|exact Hw].
    - apply Z.mul_le_mono_nonneg_r; [apply Z.lt_le_incl, HT|].
      clear - Hgap. generalize dependent (2 ^ 1044). intros. lia. }
  exact (span_arith _ _ _ _ _ _ _ _ _ _ _ _ _ _ _ _ _ _ _
           HT Hw Hppos Hc Hq Hd1 Hd2 Hs1 Hs2 Ht1 Ht2 HU1 HU2 HLo1 HLo2 Hsp1 Hsp2).
Qed.

End Chain.
End span_facts.


(** * [get_bounding_box] *)

Module bounding_box_facts.
Import Rounding Binary64 bounding_box Sweep.
Local Open Scope float_scope.

(** ** The sweep *)

Section SweepFacts.
Variables d step lo hi : float.
Hypothesis Rd : is_real (Prim2SF d).
Hypothesis Rlo : is_real (Prim2SF (Py.radians lo)).
Hypothesis Rhi : is_real (Prim2SF (Py.radians hi)).

Lemma radians_between (x : float) :
  (lo <=? x) = true -> (x <=? hi) = true -> is_real (Prim2SF (Py.radians x)).
Proof.
  intros Hl Hh. apply (between_real (Py.radians lo) (Py.radians hi)); try assumption;
    apply mul_mono; try assumption; reflexivity.
Qed.

(** Both bounds grow with the coordinate. *)
Lemma bounds_mono (x y : float) :
  (lo <=? x) = true -> (x <=? y) = true -> (y <=? hi) = true ->
  (upper d x <=? upper d y) = true /\ (lower d x <=? lower d y) = true.
Proof.
  intros Hl Hxy Hh.
  assert (Rx : is_real (Prim2SF (Py.radians x)))
    by (apply radians_between; [exact Hl|eapply leb_trans; eassumption]).
  assert (Ry : is_real (Prim2SF (Py.radians y)))
    by (apply radians_between; [eapply leb_trans; eassumption|exact Hh]).
  assert (Hr : (Py.radians x <=? Py.radians y) = true)
    by (apply mul_mono; [exact Hxy|reflexivity|reflexivity]).
  destruct (add_sub_mono_l _ _ d Rx Ry Rd Hr) as [Ha Hs].
  unfold upper, lower, Py.degrees. split; apply mul_mono; try assumption; reflexivity.
Qed.

Lemma covered_trans (a b c : float) : covered d lo hi a b -> covered d lo hi b c -> covered d lo hi a c.
Proof.
  intros (La & Hab & Hb & H1) (_ & Hbc & Hc & H2).
  split; [exact La|]. split; [eapply leb_trans; eassumption|]. split; [exact Hc|].
  intros x Hax Hxc. destruct (x <=? b) eqn:Hxb; [apply H1; assumption|].
  apply H2; [|exact Hxc].
  apply (leb_false_ltb lo); [|eapply leb_trans; eassumption|exact Hxb].
  eapply leb_trans; [exact La|]. apply ltb_leb. exact Hax.
Qed.

Lemma advance_sound (k : float -> bool) (a : float) :
  advance d step lo hi k a = true -> exists b, covered d lo hi a b /\ k b = true.
Proof.
  unfold advance. set (b := a + step).
  destruct ((lo <=? a) && (a <=? b) && (b <=? hi) && (b <? upper d a) && (lower d b <? a))
    eqn:Hc; [|discriminate].
  intros Hk. exists b. split; [|exact Hk].
  repeat (apply andb_true_iff in Hc; destruct Hc as [Hc ?]).
  rename Hc into La, H2 into Hab, H1 into Hb, H0 into Hup, H into Hlow.
  split; [exact La|]. split; [exact Hab|]. split; [exact Hb|].
  intros x Hax Hxb. pose proof (ltb_leb _ _ Hax) as Hax'.
  destruct (bounds_mono a x La Hax' (leb_trans _ _ _ Hxb Hb)) as [U _].
  destruct (bounds_mono x b (leb_trans _ _ _ La Hax') Hxb Hb) as [_ L].
  split.
  - eapply ltb_leb_trans; [|exact Hax']. eapply leb_ltb_trans; eassumption.
  - eapply ltb_leb_trans; [|exact U]. eapply leb_ltb_trans; eassumption.
Qed.

Lemma sweep_sound (n : positive) :
  forall (k : float -> bool) (a : float),
    sweep d step lo hi n k a = true -> exists b, covered d lo hi a b /\ k b = true.
Proof.
  induction n as [n IH|n IH|]; intros k a H; cbn [sweep] in H.
  - apply advance_sound in H. destruct H as (b1 & C1 & H).
    apply IH in H. destruct H as (b2 & C2 & H).
    apply IH in H. destruct H as (b3 & C3 & H).
    exists b3. split; [|exact H]. eauto using covered_trans.
  - apply IH in H. destruct H as (b1 & C1 & H).
    apply IH in H. destruct H as (b2 & C2 & H).
    exists b2. split; [|exact H]. eauto using covered_trans.
  - apply advance_sound. exact H.
Qed.

(** A sweep that starts below [bottom] and ends at or above [top] shows
    that every coordinate from [bottom] to [top] lies strictly between its
    two bounds. *)
Lemma sweep_covers (n : positive) (bottom top x : float) :
  sweep d step lo hi n (fun b => top <=? b) lo = true ->
  (lo <? bottom) = true -> (bottom <=? x) = true -> (x <=? top) = true ->
  (lower d x <? x) = true /\ (x <? upper d x) = true.
Proof.
  intros H Hb Hx Ht. apply sweep_sound in H. destruct H as (b & (_ & _ & _ & C) & Hk).
  apply C; [eapply ltb_leb_trans; eassumption|eapply leb_trans; eassumption].
Qed.

End SweepFacts.

(** The sweep from -181 to beyond 180 degrees, in steps of [0x1.7p-14]
    degrees, for the offset of 10 metres. *)
Lemma swept :
  sweep least_offset 0x1.7p-14 (-181) 181 4120000 (fun b => 180 <=? b) (-181) = true.
Proof. vm_compute. reflexivity. Qed.

(** Every admissible coordinate lies strictly between the bounds that 10
    metres give. *)
Lemma centre_strictly_between (x : float) :
  (-180 <=? x) = true -> (x <=? 180) = true ->
  (lower least_offset x <? x) = true /\ (x <? upper least_offset x) = true.
Proof.
  intros Hl Hh.
  apply (sweep_covers least_offset 0x1.7p-14 (-181) 181 I I I 4120000 (-180) 180 x swept);
    [reflexivity|exact Hl|exact Hh].
Qed.

(** ** The box *)

Section WithLibm.
Variable cos : float -> float.

Lemma assert_true (b : bool) : b = true -> Py.assert b = Py.Ok tt.
Proof. intros ->. reflexivity. Qed.

Lemma parallel_radius_range (lat : float) :
  cos_in_range cos lat ->
  (0 <? parallel_radius cos lat) = true
  /\ (parallel_radius cos lat <? infinity) = true.
Proof.
  intros [H0 H1]. unfold parallel_radius, radius.
  set (c := cos (Py.radians lat)) in *.
  rewrite (mul_comm 6371 c). split.
  - apply (ltb_leb_trans 0 (0x1p-1074 * 6371)); [reflexivity|].
    apply mul_mono; [apply least_positive; exact H0|reflexivity|reflexivity].
  - apply (leb_ltb_trans _ (1 * 6371)); [|reflexivity].
    apply mul_mono; [exact H1|reflexivity|reflexivity].
Qed.

(** With the assertions satisfied and a cosine in range, the function
    returns the box of the four formulas. *)
Lemma get_bounding_box_ok (lat lon r : float) :
  preconditions lat lon r = true -> cos_in_range cos lat ->
  get_bounding_box cos lat lon r = Py.Ok (box_of cos lat lon r).
Proof.
  intros Hpre Hcos. unfold preconditions in Hpre.
  apply andb_true_iff in Hpre. destruct Hpre as [Hpre Hlon].
  apply andb_true_iff in Hpre. destruct Hpre as [Hr Hlat].
  destruct (parallel_radius_range lat Hcos) as [Hp _].
  unfold get_bounding_box, Py.truediv.
  rewrite (assert_true _ Hr), (assert_true _ Hlat), (assert_true _ Hlon).
  cbn [Py.bind]. fold (parallel_radius cos lat).
  rewrite (ltb_0_neq _ Hp). reflexivity.
Qed.

(** Latitudes and longitudes the assertions admit stay finite through
    the conversion to radians and back. *)
Lemma convert_real (lo hi x : float) :
  is_real (Prim2SF (Py.radians lo)) -> is_real (Prim2SF (Py.radians hi)) ->
  is_real (Prim2SF (Py.degrees (Py.radians lo))) ->
  is_real (Prim2SF (Py.degrees (Py.radians hi))) ->
  (lo <=? x) = true -> (x <=? hi) = true ->
  is_real (Prim2SF (Py.radians x)) /\ is_real (Prim2SF (Py.degrees (Py.radians x))).
Proof.
  intros Rl Rh Dl Dh Hl Hh.
  assert (Hlo : (Py.radians lo <=? Py.radians x) = true)
    by (apply mul_mono; [exact Hl|reflexivity|reflexivity]).
  assert (Hhi : (Py.radians x <=? Py.radians hi) = true)
    by (apply mul_mono; [exact Hh|reflexivity|reflexivity]).
  split; [exact (between_real _ _ _ Rl Rh Hlo Hhi)|].
  apply (between_real (Py.degrees (Py.radians lo)) (Py.degrees (Py.radians hi)));
    try assumption; apply mul_mono; try assumption; reflexivity.
Qed.

Lemma latitude_real (x : float) :
  ((-90 <=? x) && (x <=? 90)) = true ->
  is_real (Prim2SF (Py.radians x)) /\ is_real (Prim2SF (Py.degrees (Py.radians x))).
Proof.
  intros H. apply andb_true_iff in H. destruct H as [Hl Hh].
  apply (convert_real (-90) 90); try assumption; exact I.
Qed.

Lemma longitude_real (x : float) :
  ((-180 <=? x) && (x <=? 180)) = true ->
  is_real (Prim2SF (Py.radians x)) /\ is_real (Prim2SF (Py.degrees (Py.radians x))).
Proof.
  intros H. apply andb_true_iff in H. destruct H as [Hl Hh].
  apply (convert_real (-180) 180); try assumption; exact I.
Qed.

Lemma preconditions_inv (lat lon r : float) :
  preconditions lat lon r = true ->
  (0 <? r) = true /\ ((-90 <=? lat) && (lat <=? 90)) = true
  /\ ((-180 <=? lon) && (lon <=? 180)) = true.
Proof.
  unfold preconditions. intros H.
  apply andb_true_iff in H. destruct H as [H Hlon].
  apply andb_true_iff in H. destruct H as [Hr Hlat]. auto.
Qed.

(** The two angular offsets are not negative (and not NaN). *)
Lemma offsets_nonneg (lat r : float) :
  (0 <? r) = true -> cos_in_range cos lat ->
  signed_as false (Prim2SF (r / radius))
  /\ signed_as false (Prim2SF (r / parallel_radius cos lat)).
Proof.
  intros Hr Hcos. destruct (parallel_radius_range lat Hcos) as [Hp Hi]. split.
  - apply div_nonneg; [exact Hr|reflexivity|reflexivity].
  - apply div_nonneg; assumption.
Qed.

(** Each bound lies on its side of the centre converted to radians and
    back. *)
Lemma box_brackets (lat lon r : float) :
  preconditions lat lon r = true -> cos_in_range cos lat ->
  let box := box_of cos lat lon r in
  (lat_min box <=? Py.degrees (Py.radians lat)) = true
  /\ (Py.degrees (Py.radians lat) <=? lat_max box) = true
  /\ (lon_min box <=? Py.degrees (Py.radians lon)) = true
  /\ (Py.degrees (Py.radians lon) <=? lon_max box) = true.
Proof.
  intros Hpre Hcos. destruct (preconditions_inv _ _ _ Hpre) as (Hr & Hlat & Hlon).
  destruct (latitude_real lat Hlat) as [Rlat _].
  destruct (longitude_real lon Hlon) as [Rlon _].
  destruct (offsets_nonneg lat r Hr Hcos) as [S1 S2].
  destruct (sub_le_add (Py.radians lat) _ Rlat S1) as [A1 A2].
  destruct (sub_le_add (Py.radians lon) _ Rlon S2) as [B1 B2].
  cbn [box_of lat_min lat_max lon_min lon_max]. unfold Py.degrees.
  repeat split; apply mul_mono; try assumption; reflexivity.
Qed.

Lemma box_min_le_max (lat lon r : float) :
  preconditions lat lon r = true -> cos_in_range cos lat ->
  let box := box_of cos lat lon r in
  (lat_min box <=? lat_max box) = true /\ (lon_min box <=? lon_max box) = true.
Proof.
  intros Hpre Hcos. destruct (box_brackets lat lon r Hpre Hcos) as (A & B & C & D).
  split; eapply leb_trans; eassumption.
Qed.

(** A larger radius moves every bound outwards, or leaves it. *)
Lemma box_nested (lat lon r1 r2 : float) :
  preconditions lat lon r1 = true -> (r1 <=? r2) = true -> cos_in_range cos lat ->
  let box1 := box_of cos lat lon r1 in
  let box2 := box_of cos lat lon r2 in
  (lat_min box2 <=? lat_min box1) = true /\ (lat_max box1 <=? lat_max box2) = true
  /\ (lon_min box2 <=? lon_min box1) = true /\ (lon_max box1 <=? lon_max box2) = true.
Proof.
  intros Hpre Hle Hcos. destruct (preconditions_inv _ _ _ Hpre) as (Hr & Hlat & Hlon).
  assert (Hr2 : (0 <? r2) = true) by (eapply ltb_leb_trans; eassumption).
  destruct (latitude_real lat Hlat) as [Rlat _].
  destruct (longitude_real lon Hlon) as [Rlon _].
  destruct (parallel_radius_range lat Hcos) as [Hp Hi].
  destruct (offsets_nonneg lat r1 Hr Hcos) as [S1 S2].
  destruct (offsets_nonneg lat r2 Hr2 Hcos) as [T1 T2].
  assert (D1 : (r1 / radius <=? r2 / radius) = true)
    by (apply div_mono; try assumption; reflexivity).
  assert (D2 : (r1 / parallel_radius cos lat <=? r2 / parallel_radius cos lat) = true)
    by (apply div_mono; assumption).
  destruct (add_sub_mono (Py.radians lat) _ _ Rlat S1 T1 D1) as [A1 A2].
  destruct (add_sub_mono (Py.radians lon) _ _ Rlon S2 T2 D2) as [B1 B2].
  cbn [box_of lat_min lat_max lon_min lon_max]. unfold Py.degrees.
  repeat split; apply mul_mono; try assumption; reflexivity.
Qed.

Lemma preconditions_mono (lat lon r1 r2 : float) :
  preconditions lat lon r1 = true -> (r1 <=? r2) = true ->
  preconditions lat lon r2 = true.
Proof.
  intros Hpre Hle. destruct (preconditions_inv _ _ _ Hpre) as (Hr & Hlat & Hlon).
  unfold preconditions. rewrite Hlat, Hlon, (ltb_leb_trans _ _ _ Hr Hle). reflexivity.
Qed.

Lemma spans_mono (lat lon r1 r2 : float) :
  preconditions lat lon r1 = true -> (r1 <=? r2) = true -> cos_in_range cos lat ->
  (lat_span (box_of cos lat lon r1) <=? lat_span (box_of cos lat lon r2)) = true
  /\ (lon_span (box_of cos lat lon r1) <=? lon_span (box_of cos lat lon r2)) = true.
Proof.
  intros Hpre Hle Hcos. destruct (preconditions_inv _ _ _ Hpre) as (Hr & Hlat & Hlon).
  destruct (latitude_real lat Hlat) as [_ Rlat].
  destruct (longitude_real lon Hlon) as [_ Rlon].
  destruct (box_nested lat lon r1 r2 Hpre Hle Hcos) as (N1 & N2 & N3 & N4).
  destruct (box_brackets lat lon r1 Hpre Hcos) as (K1 & K2 & K3 & K4).
  unfold lat_span, lon_span. split.
  - apply (sub_mono _ _ _ _ (Py.degrees (Py.radians lat))); assumption.
  - apply (sub_mono _ _ _ _ (Py.degrees (Py.radians lon))); assumption.
Qed.

Lemma parallel_radius_le (lat : float) :
  cos_in_range cos lat -> (parallel_radius cos lat <=? radius) = true.
Proof.
  intros [_ H1]. unfold parallel_radius. rewrite (mul_comm radius).
  change radius with (1 * 6371) at 2.
  apply mul_mono; [exact H1|reflexivity|reflexivity].
Qed.

(** From 10 metres on, the centre is strictly inside the box. *)
Lemma box_strict (lat lon r : float) :
  preconditions lat lon r = true -> (least_radius <=? r) = true ->
  cos_in_range cos lat ->
  let box := box_of cos lat lon r in
  (lat_min box <? lat) = true /\ (lat <? lat_max box) = true
  /\ (lon_min box <? lon) = true /\ (lon <? lon_max box) = true.
Proof.
  intros Hpre Hle Hcos. destruct (preconditions_inv _ _ _ Hpre) as (Hr & Hlat & Hlon).
  destruct (latitude_real lat Hlat) as [Rlat _].
  destruct (longitude_real lon Hlon) as [Rlon _].
  destruct (parallel_radius_range lat Hcos) as [Hp Hi].
  destruct (offsets_nonneg lat r Hr Hcos) as [S1 S2].
  assert (S0 : signed_as false (Prim2SF least_offset))
    by (apply div_nonneg; reflexivity).
  assert (D1 : (least_offset <=? r / radius) = true)
    by (apply div_mono; try assumption; reflexivity).
  assert (D2 : (least_offset <=? r / parallel_radius cos lat) = true).
  { apply (leb_trans _ (least_radius / parallel_radius cos lat)).
    - apply div_anti; try assumption; try reflexivity.
      apply parallel_radius_le. exact Hcos.
    - apply div_mono; try assumption; reflexivity. }
  destruct (add_sub_mono (Py.radians lat) _ _ Rlat S0 S1 D1) as [A1 A2].
  destruct (add_sub_mono (Py.radians lon) _ _ Rlon S0 S2 D2) as [B1 B2].
  apply andb_true_iff in Hlat. destruct Hlat as [Hlat1 Hlat2].
  apply andb_true_iff in Hlon. destruct Hlon as [Hlon1 Hlon2].
  destruct (centre_strictly_between lat) as [L1 L2];
    [eapply leb_trans; [|exact Hlat1]; reflexivity
    |eapply leb_trans; [exact Hlat2|]; reflexivity|].
  destruct (centre_strictly_between lon Hlon1 Hlon2) as [M1 M2].
  cbn [box_of lat_min lat_max lon_min lon_max]. unfold Py.degrees.
  unfold lower, upper, Py.degrees in *.
  repeat split.
  - eapply leb_ltb_trans; [|exact L1]. apply mul_mono; try assumption; reflexivity.
  - eapply ltb_leb_trans; [exact L2|]. apply mul_mono; try assumption; reflexivity.
  - eapply leb_ltb_trans; [|exact M1]. apply mul_mono; try assumption; reflexivity.
  - eapply ltb_leb_trans; [exact M2|]. apply mul_mono; try assumption; reflexivity.
Qed.

End WithLibm.

End bounding_box_facts.

(** * Radii that are apart give spans that are apart *)

Module bounding_box_strict.
Import Rounding Binary64 rounding_error units_facts span_facts.
Import bounding_box bounding_box_facts.
Local Open Scope float_scope.

Lemma degToRad_positive : (0 <? Py.degToRad) = true /\ (Py.degToRad <? infinity) = true.
Proof. split; vm_compute; reflexivity. Qed.

Lemma radians_units (lo hi x : float) :
  is_real (Prim2SF (Py.radians lo)) -> is_real (Prim2SF (Py.radians hi)) ->
  (- (4 * 2 ^ 1074) <= units (Py.radians lo))%Z ->
  (units (Py.radians hi) <= 4 * 2 ^ 1074)%Z ->
  (lo <=? x) = true -> (x <=? hi) = true ->
  is_real (Prim2SF (Py.radians x)) /\ (Z.abs (units (Py.radians x)) <= 4 * 2 ^ 1074)%Z.
Proof.
  intros Rlo Rhi Hlo Hhi H1 H2. destruct degToRad_positive as [Hc0 Hci].
  pose proof (mul_mono lo x Py.degToRad H1 Hc0 Hci) as M1.
  pose proof (mul_mono x hi Py.degToRad H2 Hc0 Hci) as M2.
  fold (Py.radians lo) (Py.radians x) in M1. fold (Py.radians hi) (Py.radians x) in M2.
  assert (Rx : is_real (Prim2SF (Py.radians x))).
  { apply (between_real (Py.radians lo) (Py.radians hi)); assumption. }
  split; [assumption|].
  pose proof (leb_units _ _ Rlo Rx M1). pose proof (leb_units _ _ Rx Rhi M2). lia.
Qed.

Lemma latitude_units (x : float) :
  ((-90 <=? x) && (x <=? 90)) = true ->
  is_real (Prim2SF (Py.radians x)) /\ (Z.abs (units (Py.radians x)) <= 4 * 2 ^ 1074)%Z.
Proof.
  intros H. apply andb_true_iff in H as [H1 H2].
  apply (radians_units (-90) 90); try assumption; try exact I;
    apply Z.leb_le; vm_compute; reflexivity.
Qed.

Lemma longitude_units (x : float) :
  ((-180 <=? x) && (x <=? 180)) = true ->
  is_real (Prim2SF (Py.radians x)) /\ (Z.abs (units (Py.radians x)) <= 4 * 2 ^ 1074)%Z.
Proof.
  intros H. apply andb_true_iff in H as [H1 H2].
  apply (radians_units (-180) 180); try assumption; try exact I;
    apply Z.leb_le; vm_compute; reflexivity.
Qed.

(** Radii at least a micrometre ([1e-9] km) apart, the larger at most
    20000 km. *)
Lemma separated_units (r1 r2 : float) :
  (0 <? r1) = true -> (r1 <? r2) = true ->
  (0x1.12e0be826d695p-30 <=? r2 - r1) = true -> (r2 <=? 20000) = true ->
  (r1 <? infinity) = true /\ (0 <? r2) = true /\ (r2 <? infinity) = true
  /\ (units r1 + 2 ^ 1044 <= units r2)%Z /\ (units r2 <= 32768 * 2 ^ 1074)%Z.
Proof.
  intros H0 Hlt Hgap Hmax.
  assert (H2i : (r2 <? infinity) = true).
  { apply (leb_ltb_trans _ 20000); [assumption|reflexivity]. }
  assert (H1i : (r1 <? infinity) = true).
  { apply (ltb_leb_trans _ 20000); [|reflexivity].
    apply (ltb_leb_trans _ r2); assumption. }
  assert (H20 : (0 <? r2) = true).
  { apply (leb_ltb_trans _ r1); [apply ltb_leb; assumption|assumption]. }
  split; [assumption|]. split; [assumption|]. split; [assumption|].
  pose proof (units_pos r1 H0 H1i) as P1. pose proof (units_pos r2 H20 H2i) as P2.
  destruct (positive_finite r1 H0 H1i) as (m1 & e1 & E1).
  destruct (positive_finite r2 H20 H2i) as (m2 & e2 & E2).
  assert (R1 : is_real (Prim2SF r1)) by (rewrite E1; exact I).
  assert (R2 : is_real (Prim2SF r2)) by (rewrite E2; exact I).
  assert (Hm : (units r2 <= 32768 * 2 ^ 1074)%Z).
  { pose proof (leb_units r2 20000 R2 I Hmax) as H.
    assert ((units 20000 <= 32768 * 2 ^ 1074)%Z) by (apply Z.leb_le; vm_compute; reflexivity).
    lia. }
  split; [|assumption].
  destruct (sub_units r2 r1 1090 R2 R1) as [Rd Hd]; [|lia|].
  { change (2 ^ 1090)%Z with (2 * (32768 * 2 ^ 1074))%Z.
    pose proof (leb_units r1 r2 R1 R2 (ltb_leb _ _ Hlt)). lia. }
  pose proof (leb_units 0x1.12e0be826d695p-30 (r2 - r1) I Rd Hgap) as Hg.
  assert ((2 ^ 1044 + 2 ^ Z.max (1090 - 53) 0 <= units 0x1.12e0be826d695p-30)%Z)
    by (apply Z.leb_le; vm_compute; reflexivity).
  lia.
Qed.

Section WithLibm.

Variable cos : float -> float.

Lemma lat_span_eq (lat lon r : float) :
  lat_span (box_of cos lat lon r) = span (Py.radians lat) radius r.
Proof. reflexivity. Qed.

Lemma lon_span_eq (lat lon r : float) :
  lon_span (box_of cos lat lon r) = span (Py.radians lon) (parallel_radius cos lat) r.
Proof. reflexivity. Qed.

Lemma spans_strict (lat lon r1 r2 : float) :
  preconditions lat lon r1 = true -> (r1 <? r2) = true -> cos_in_range cos lat ->
  (0x1.12e0be826d695p-30 <=? r2 - r1) = true -> (r2 <=? 20000) = true ->
  (lat_span (box_of cos lat lon r1) <? lat_span (box_of cos lat lon r2)) = true
  /\ ((0x1p-1000 <=? cos (Py.radians lat)) = true ->
      (lon_span (box_of cos lat lon r1) <? lon_span (box_of cos lat lon r2)) = true).
Proof.
  intros Hpre Hlt Hcos Hsep Hbig.
  destruct (preconditions_inv lat lon r1 Hpre) as (H0 & Hlat & Hlon).
  destruct (separated_units r1 r2 H0 Hlt Hsep Hbig) as (H1i & H20 & H2i & Hgap & Hmax).
  destruct (latitude_units lat Hlat) as [Rlat Blat].
  destruct (longitude_units lon Hlon) as [Rlon Blon].
  split.
  - rewrite !lat_span_eq.
    apply (span_strict (Py.radians lat) radius 1086); try assumption; try reflexivity.
    + split; [apply Z.leb_le|apply Z.ltb_lt]; vm_compute; reflexivity.
    + lia.
  - intros Hc. rewrite !lon_span_eq.
    destruct (parallel_radius_range cos lat Hcos) as [Hp0 Hpi].
    pose proof (units_pos _ Hp0 Hpi) as Hpos.
    destruct (positive_finite _ Hp0 Hpi) as (mp & ep & Ep).
    assert (Rp : is_real (Prim2SF (parallel_radius cos lat))) by (rewrite Ep; exact I).
    pose proof (leb_units (parallel_radius cos lat) radius Rp I
                  (parallel_radius_le cos lat Hcos)) as Hup.
    assert (Hlow : (0x1p-1000 * radius <=? parallel_radius cos lat) = true).
    { unfold parallel_radius. rewrite (mul_comm radius).
      apply mul_mono; [assumption|reflexivity|reflexivity]. }
    pose proof (leb_units (0x1p-1000 * radius) (parallel_radius cos lat) I Rp Hlow) as Hlo.
    assert (B1 : (2 ^ 86 <= units (0x1p-1000 * radius))%Z)
      by (apply Z.leb_le; vm_compute; reflexivity).
    assert (B2 : (units radius < 2 ^ 1087)%Z)
      by (apply Z.ltb_lt; vm_compute; reflexivity).
    apply (span_strict (Py.radians lon) (parallel_radius cos lat)
             (Z.log2 (units (parallel_radius cos lat)))); try assumption.
    + pose proof (Z.log2_spec _ Hpos) as Hs.
      replace (Z.log2 (units (parallel_radius cos lat)) + 1)%Z
        with (Z.succ (Z.log2 (units (parallel_radius cos lat)))) by lia.
      exact Hs.
    + split.
      * apply Z.le_trans with 86%Z; [lia|].
        apply Z.log2_le_pow2; [assumption|lia].
      * assert (Z.log2 (units (parallel_radius cos lat)) < 1087)%Z; [|lia].
        apply Z.log2_lt_pow2; [assumption|lia].
Qed.

End WithLibm.
End bounding_box_strict.


(** * [get_ideal_listings] *)

Module airbnb_facts.
Import Binary64 bounding_box airbnb.

Lemma filter_filter_andb {A : Type} (p q : A -> bool) (l : list A) :
  List.filter q (List.filter p l) = List.filter (fun x => p x && q x) l.
Proof.
  induction l as [|x l IH]; [reflexivity|]. cbn [List.filter].
  destruct (p x) eqn:Hp; cbn [andb List.filter]; rewrite IH; reflexivity.
Qed.

Lemma select_in_box_filter (listings : list Listing) (location : BoundingBox) :
  select_in_box listings location = List.filter (strictly_inside location) listings.
Proof.
  unfold select_in_box. rewrite filter_filter_andb. apply List.filter_ext. intros l.
  unfold above_min, below_max, strictly_inside.
  destruct (lat_min location <? lat l)%float, (lon_min location <? lon l)%float,
    (lat l <? lat_max location)%float, (lon l <? lon_max location)%float; reflexivity.
Qed.

Lemma same_float_refl (x : float) : same_float x x = true.
Proof. unfold same_float, is_nan. destruct (x =? x)%float; reflexivity. Qed.

Lemma same_text_refl (x : option string) : same_text x x = true.
Proof. destruct x; [apply String.eqb_refl|reflexivity]. Qed.

Lemma same_row_refl (r : Listing) : same_row r r = true.
Proof.
  unfold same_row. rewrite !Z.eqb_refl, !same_text_refl, !same_float_refl. reflexivity.
Qed.

Lemma occurrences_app (r : Listing) (df1 df2 : list Listing) :
  occurrences r (df1 ++ df2) = (occurrences r df1 + occurrences r df2)%nat.
Proof. unfold occurrences. rewrite List.filter_app, List.length_app. reflexivity. Qed.

Lemma filter_filter_comm {A : Type} (p q : A -> bool) (l : list A) :
  List.filter p (List.filter q l) = List.filter q (List.filter p l).
Proof.
  induction l as [|x l IH]; [reflexivity|]. cbn [List.filter].
  destruct (p x) eqn:Hp, (q x) eqn:Hq; cbn [List.filter]; rewrite ?Hp, ?Hq, IH; reflexivity.
Qed.

(** In a frame without equal rows, the rows equal to one of its rows are
    that row alone. *)
Lemma filter_same_row (df : list Listing) (r : Listing) :
  distinct_rows df = true -> In r df -> List.filter (same_row r) df = [r].
Proof.
  intros Hd Hin. unfold distinct_rows in Hd. rewrite List.forallb_forall in Hd.
  specialize (Hd r Hin). apply Nat.eqb_eq in Hd. unfold occurrences in Hd.
  assert (Hr : In r (List.filter (same_row r) df))
    by (apply List.filter_In; split; [exact Hin|apply same_row_refl]).
  destruct (List.filter (same_row r) df) as [|x [|y l]]; cbn in Hd; try discriminate.
  destruct Hr as [->|[]]. reflexivity.
Qed.

Lemma occurrences_select (df : list Listing) (location : BoundingBox) (r : Listing) :
  distinct_rows df = true -> In r df ->
  occurrences r (select_in_box df location)
  = if strictly_inside location r then 1%nat else 0%nat.
Proof.
  intros Hd Hin. unfold occurrences.
  rewrite select_in_box_filter, filter_filter_comm, (filter_same_row df r Hd Hin).
  cbn [List.filter]. destruct (strictly_inside location r); reflexivity.
Qed.

Lemma occurrences_all (df : list Listing) (boxes : list BoundingBox) (r : Listing) :
  distinct_rows df = true -> In r df ->
  occurrences r (List.concat (map (select_in_box df) boxes)) = boxes_containing boxes r.
Proof.
  intros Hd Hin. unfold boxes_containing.
  induction boxes as [|b bs IH]; [reflexivity|].
  cbn [map List.concat List.filter].
  rewrite occurrences_app, IH, (occurrences_select df b r Hd Hin).
  destruct (strictly_inside b r); reflexivity.
Qed.

Lemma in_all_selections (df : list Listing) (boxes : list BoundingBox) (r : Listing) :
  In r (List.concat (map (select_in_box df) boxes))
  <-> In r df /\ exists location, In location boxes /\ strictly_inside location r = true.
Proof.
  rewrite List.in_concat. split.
  - intros (frame & Hf & Hr). apply List.in_map_iff in Hf. destruct Hf as (b & <- & Hb).
    rewrite select_in_box_filter in Hr. apply List.filter_In in Hr. destruct Hr as [Hr Hs].
    split; [exact Hr|]. exists b. split; assumption.
  - intros (Hr & b & Hb & Hs). exists (select_in_box df b). split.
    + apply List.in_map. exact Hb.
    + rewrite select_in_box_filter. apply List.filter_In. split; assumption.
Qed.

Lemma boxes_containing_pos (boxes : list BoundingBox) (r : Listing) :
  (0 < boxes_containing boxes r)%nat ->
  exists location, In location boxes /\ strictly_inside location r = true.
Proof.
  unfold boxes_containing. intros H.
  destruct (List.filter (fun location => strictly_inside location r) boxes) as [|b l] eqn:E;
    [cbn in H; lia|].
  assert (Hb : In b (List.filter (fun location => strictly_inside location r) boxes))
    by (rewrite E; left; reflexivity).
  apply List.filter_In in Hb. exists b. exact Hb.
Qed.

Section WithLibm.
Variable cos : float -> float.

(** [get_bounding_box] raises nothing but its assertion and the division. *)
Lemma get_bounding_box_exn (lat lon r : float) (e : Py.exn) :
  get_bounding_box cos lat lon r = Py.Raise e ->
  e = Py.AssertionError \/ e = Py.ZeroDivisionError.
Proof.
  unfold get_bounding_box, Py.assert, Py.truediv.
  destruct (0 <? r)%float; cbn [Py.bind]; [|intros [= <-]; left; reflexivity].
  destruct ((-90 <=? lat)%float && (lat <=? 90)%float); cbn [Py.bind];
    [|intros [= <-]; left; reflexivity].
  destruct ((-180 <=? lon)%float && (lon <=? 180)%float); cbn [Py.bind];
    [|intros [= <-]; left; reflexivity].
  destruct (radius * cos (Py.radians lat) =? 0)%float; cbn [Py.bind];
    [intros [= <-]; right; reflexivity|discriminate].
Qed.

Lemma ideal_locations_exn (centers : list (float * float)) (distance : float) (e : Py.exn) :
  ideal_locations cos centers distance = Py.Raise e ->
  e = Py.AssertionError \/ e = Py.ZeroDivisionError.
Proof.
  unfold ideal_locations. induction centers as [|c cs IH]; [discriminate|].
  cbn [Py.comprehension].
  destruct (get_bounding_box cos (fst c) (snd c) distance) as [b|e'] eqn:Hb; cbn [Py.bind].
  - destruct (Py.comprehension _ cs) as [bs|e'']; cbn [Py.bind]; [discriminate|].
    intros [= <-]. apply IH. reflexivity.
  - intros [= <-]. exact (get_bounding_box_exn _ _ _ _ Hb).
Qed.

Lemma ideal_locations_length (centers : list (float * float)) (distance : float)
    (boxes : list BoundingBox) :
  ideal_locations cos centers distance = Py.Ok boxes -> length boxes = length centers.
Proof.
  unfold ideal_locations. revert boxes. induction centers as [|c cs IH]; intros boxes.
  - intros [= <-]. reflexivity.
  - cbn [Py.comprehension].
    destruct (get_bounding_box cos (fst c) (snd c) distance) as [b|e']; cbn [Py.bind];
      [|discriminate].
    destruct (Py.comprehension _ cs) as [bs|e'']; cbn [Py.bind]; [|discriminate].
    intros [= <-]. cbn [length]. f_equal. apply IH. reflexivity.
Qed.

Lemma get_ideal_listings_inv (df : list Listing) (centers : list (float * float))
    (distance : float) (result : list Listing) :
  get_ideal_listings cos df centers distance = Py.Ok result ->
  exists boxes,
    ideal_locations cos centers distance = Py.Ok boxes
    /\ result = drop_duplicates_keep_false (List.concat (map (select_in_box df) boxes)).
Proof.
  unfold get_ideal_listings. destruct (ideal_locations cos centers distance) as [boxes|e];
    cbn [Py.bind]; [|discriminate].
  intros H. exists boxes. split; [reflexivity|].
  unfold concat in H. destruct (map (select_in_box df) boxes) as [|f fs];
    cbn [Py.bind] in H; [discriminate|]. injection H as <-. reflexivity.
Qed.

(** With at least one centre, all of them admitted by the assertions,
    the call returns. *)
Lemma ideal_locations_ok (centers : list (float * float)) (distance : float) :
  Forall (fun center => preconditions (fst center) (snd center) distance = true
                        /\ cos_in_range cos (fst center)) centers ->
  ideal_locations cos centers distance
  = Py.Ok (map (fun center => box_of cos (fst center) (snd center) distance) centers).
Proof.
  unfold ideal_locations. induction 1 as [|c cs [Hpre Hcos] _ IH]; [reflexivity|].
  cbn [Py.comprehension map].
  rewrite (bounding_box_facts.get_bounding_box_ok cos _ _ _ Hpre Hcos), IH. reflexivity.
Qed.

Lemma get_ideal_listings_ok (df : list Listing) (centers : list (float * float))
    (distance : float) :
  centers <> [] ->
  Forall (fun center => preconditions (fst center) (snd center) distance = true
                        /\ cos_in_range cos (fst center)) centers ->
  exists result, get_ideal_listings cos df centers distance = Py.Ok result.
Proof.
  intros Hne Hall. unfold get_ideal_listings. rewrite (ideal_locations_ok _ _ Hall).
  cbn [Py.bind]. destruct centers as [|c cs]; [contradiction|].
  cbn [map concat Py.bind]. eexists. reflexivity.
Qed.

End WithLibm.

(** ** [get_user_input], [get_listings] and [filter_listings] *)

Lemma get_user_input_min_only (min_price : string) :
  Py.truthy min_price = true ->
  get_user_input min_price EmptyString = <["mix_price"%string := min_price]> ∅.
Proof. unfold get_user_input. intros ->. reflexivity. Qed.

Lemma min_only_lookup (min_price : string) :
  dict_get (<["mix_price"%string := min_price]> ∅) "min_price" MIN_AIRBNB_PRICE
  = VInt MIN_AIRBNB_PRICE
  /\ dict_get (<["mix_price"%string := min_price]> ∅) "max_price" MAX_AIRBNB_PRICE
     = VInt MAX_AIRBNB_PRICE.
Proof.
  unfold dict_get. rewrite !lookup_insert_ne by discriminate.
  rewrite !lookup_empty. split; reflexivity.
Qed.

Section WithParsers.
Variable float_of_string : string -> option float.

Lemma quality_filters (listings : list Listing) :
  List.filter host_verified
    (List.filter well_reviewed
       (List.filter (fun l => negb (is_nan (review_score l))) listings))
  = List.filter passes_quality listings.
Proof.
  rewrite !filter_filter_andb. apply List.filter_ext. intros l. unfold passes_quality.
  destruct (negb (is_nan (review_score l))), (well_reviewed l), (host_verified l);
    reflexivity.
Qed.

(** What [filter_listings] returns, by cases on the dictionary. *)
Lemma filter_listings_empty (listings : list Listing) :
  filter_listings float_of_string listings ∅
  = Py.Ok (List.filter passes_quality listings).
Proof.
  unfold filter_listings. rewrite quality_filters.
  rewrite bool_decide_eq_true_2 by reflexivity. reflexivity.
Qed.

Lemma filter_listings_not_empty (listings : list Listing) (user_filter : gmap string string) :
  user_filter <> ∅ ->
  filter_listings float_of_string listings user_filter
  = let* lo := py_float float_of_string
                 (dict_get user_filter "min_price" MIN_AIRBNB_PRICE) in
    let* hi := py_float float_of_string
                 (dict_get user_filter "max_price" MAX_AIRBNB_PRICE) in
    Py.Ok (List.filter (in_price_range lo hi) (List.filter passes_quality listings)).
Proof.
  intros Hne. unfold filter_listings. rewrite quality_filters.
  rewrite bool_decide_eq_false_2 by exact Hne. reflexivity.
Qed.

Lemma filter_listings_min_only (listings : list Listing) (min_price : string) :
  Py.truthy min_price = true ->
  filter_listings float_of_string listings (get_user_input min_price EmptyString)
  = Py.Ok (List.filter (in_price_range 0 100000) (List.filter passes_quality listings)).
Proof.
  intros Ht. rewrite (get_user_input_min_only _ Ht).
  rewrite filter_listings_not_empty by apply insert_non_empty.
  destruct (min_only_lookup min_price) as [-> ->]. reflexivity.
Qed.

Lemma in_price_range_nan (lo hi : float) (l : Listing) :
  is_nan (price l) = true -> in_price_range lo hi l = false.
Proof.
  intros H. unfold in_price_range. rewrite (leb_nan_r lo _ H). reflexivity.
Qed.

End WithParsers.

End airbnb_facts.

(** * [get_listings] *)

Module get_listings_facts.
Import airbnb airbnb_facts Binary64.
Local Open Scope float_scope.

Lemma filter_map_swap {A B : Type} (f : B -> bool) (g : A -> B) (l : list A) :
  List.filter f (map g l) = map g (List.filter (fun a => f (g a)) l).
Proof.
  induction l as [|a l IH]; [reflexivity|]. cbn [map List.filter].
  destruct (f (g a)); cbn [map]; rewrite IH; reflexivity.
Qed.

Lemma map_lookup {A B : Type} (f : A -> B) (l : list A) (i : nat) (x : A) :
  l !! i = Some x -> map f l !! i = Some (f x).
Proof.
  intros H. change (map f l) with (f <$> l). rewrite list_lookup_fmap, H. reflexivity.
Qed.

Lemma str_replace_lookup (c : ascii) (column : list (option string)) (i : nat)
    (cell : option string) :
  column !! i = Some cell ->
  str_replace c column !! i = Some (option_map (Py.remove_char c) cell).
Proof. apply map_lookup. Qed.

Lemma assign_length (rows : list RawListing) (prices rates : list number) :
  length prices = length rows -> length rates = length rows ->
  length (assign rows prices rates) = length rows.
Proof.
  revert prices rates. induction rows as [|r rows IH]; intros [|p prices] [|a rates];
    cbn [assign length]; intros Hp Ha; try discriminate; try reflexivity.
  f_equal. apply IH; lia.
Qed.

Lemma assign_lookup (rows : list RawListing) (prices rates : list number)
    (i : nat) (l : ParsedListing) :
  assign rows prices rates !! i = Some l ->
  exists r p a,
    rows !! i = Some r /\ prices !! i = Some p /\ rates !! i = Some a
    /\ l = set_numbers r p a.
Proof.
  revert prices rates i. induction rows as [|r rows IH]; intros [|p prices] [|a rates] i;
    cbn [assign]; try (intros H; discriminate H).
  destruct i as [|i]; cbn.
  - intros [= <-]. exists r, p, a. repeat split; reflexivity.
  - apply IH.
Qed.

Lemma price_without_symbols (rows : list RawListing) :
  str_replace "$" (map price rows) = map price (map without_symbols rows).
Proof. unfold str_replace. rewrite !List.map_map. reflexivity. Qed.

Lemma rate_without_symbols (rows : list RawListing) :
  str_replace "%" (map host_acceptance_rate rows)
  = map host_acceptance_rate (map without_symbols rows).
Proof. unfold str_replace. rewrite !List.map_map. reflexivity. Qed.

Lemma assign_without_symbols (rows : list RawListing) (prices rates : list number) :
  assign rows prices rates = assign (map without_symbols rows) prices rates.
Proof.
  revert prices rates. induction rows as [|r rows IH]; intros [|p prices] [|a rates];
    cbn [assign map]; try reflexivity.
  rewrite <- IH. reflexivity.
Qed.

Section WithParsers.
Variable csv_number : string -> bool.
Variable csv_boolean : string -> bool.
Variable to_numeric : string -> option number.
Variable float_of_string : string -> option float.

Lemma parse_column_cases (c : ascii) (column : list (option string)) :
  (holds_text csv_number csv_boolean column = true
   /\ parse_column csv_number csv_boolean to_numeric c column
      = Py.Ok (apply_to_numeric to_numeric (str_replace c column)))
  \/ (holds_text csv_number csv_boolean column = false
      /\ parse_column csv_number csv_boolean to_numeric c column
         = Py.Raise Py.AttributeError).
Proof.
  unfold parse_column, str.
  destruct (holds_text csv_number csv_boolean column); [left|right]; split; reflexivity.
Qed.

Lemma apply_to_numeric_length (column : list (option string)) :
  length (apply_to_numeric to_numeric column) = length column.
Proof.
  unfold apply_to_numeric. cbv zeta.
  destruct (forallb is_int (map (to_numeric_coerce to_numeric) column));
    rewrite ?List.length_map; reflexivity.
Qed.

(** A cell that is no integer makes the column [float64]: every cell is
    then a float, and this one is kept as it is. *)
Lemma apply_to_numeric_float (column : list (option string)) (i : nat)
    (cell : option string) (x : float) :
  column !! i = Some cell -> to_numeric_coerce to_numeric cell = Float x ->
  Forall (fun v => is_int v = false) (apply_to_numeric to_numeric column)
  /\ apply_to_numeric to_numeric column !! i = Some (Float x).
Proof.
  intros Hi Hx. unfold apply_to_numeric. cbv zeta.
  pose proof (map_lookup (to_numeric_coerce to_numeric) _ _ _ Hi) as Hv.
  rewrite Hx in Hv.
  destruct (forallb is_int (map (to_numeric_coerce to_numeric) column)) eqn:Hall.
  - rewrite List.forallb_forall in Hall.
    apply list_elem_of_lookup_2, list_elem_of_In in Hv.
    specialize (Hall _ Hv). discriminate Hall.
  - split.
    + apply Forall_forall. intros v Hin. apply list_elem_of_In, List.in_map_iff in Hin.
      destruct Hin as (v' & <- & _). reflexivity.
    + apply (map_lookup (fun v => Float (to_float v)) _ _ _ Hv).
Qed.

(** Whatever the type of the column, each cell holds the number parsed,
    up to the conversion of an integer to a float. *)
Lemma apply_to_numeric_lookup (column : list (option string)) (i : nat)
    (cell : option string) :
  column !! i = Some cell ->
  exists v, apply_to_numeric to_numeric column !! i = Some v
            /\ to_float v = to_float (to_numeric_coerce to_numeric cell).
Proof.
  intros Hi. unfold apply_to_numeric. cbv zeta.
  pose proof (map_lookup (to_numeric_coerce to_numeric) _ _ _ Hi) as Hv.
  destruct (forallb is_int (map (to_numeric_coerce to_numeric) column)).
  - eexists. split; [exact Hv|reflexivity].
  - eexists. split; [apply (map_lookup (fun v => Float (to_float v)) _ _ _ Hv)|].
    reflexivity.
Qed.

Lemma get_listings_inv (rows : list RawListing) (listings : list ParsedListing) :
  get_listings csv_number csv_boolean to_numeric rows = Py.Ok listings ->
  holds_text csv_number csv_boolean (map price rows) = true
  /\ holds_text csv_number csv_boolean (map host_acceptance_rate rows) = true
  /\ listings
     = assign rows
         (apply_to_numeric to_numeric (str_replace "$" (map price rows)))
         (apply_to_numeric to_numeric (str_replace "%" (map host_acceptance_rate rows))).
Proof.
  unfold get_listings.
  destruct (parse_column_cases "$" (map price rows)) as [[H1 ->]|[_ ->]];
    cbn [Py.bind]; [|discriminate].
  destruct (parse_column_cases "%" (map host_acceptance_rate rows)) as [[H2 ->]|[_ ->]];
    cbn [Py.bind]; [|discriminate].
  intros [= <-]. repeat split; assumption.
Qed.

Lemma get_listings_ok (rows : list RawListing) :
  holds_text csv_number csv_boolean (map price rows) = true ->
  holds_text csv_number csv_boolean (map host_acceptance_rate rows) = true ->
  get_listings csv_number csv_boolean to_numeric rows
  = Py.Ok (assign rows
             (apply_to_numeric to_numeric (str_replace "$" (map price rows)))
             (apply_to_numeric to_numeric
                (str_replace "%" (map host_acceptance_rate rows)))).
Proof.
  intros H1 H2. unfold get_listings.
  destruct (parse_column_cases "$" (map price rows)) as [[_ ->]|[H _]];
    [|congruence]. cbn [Py.bind].
  destruct (parse_column_cases "%" (map host_acceptance_rate rows)) as [[_ ->]|[H _]];
    [|congruence]. reflexivity.
Qed.

Lemma get_listings_raises (rows : list RawListing) :
  holds_text csv_number csv_boolean (map price rows)
  && holds_text csv_number csv_boolean (map host_acceptance_rate rows) = false ->
  get_listings csv_number csv_boolean to_numeric rows = Py.Raise Py.AttributeError.
Proof.
  intros H. unfold get_listings.
  destruct (parse_column_cases "$" (map price rows)) as [[H1 ->]|[_ ->]];
    cbn [Py.bind]; [|reflexivity].
  destruct (parse_column_cases "%" (map host_acceptance_rate rows)) as [[H2 ->]|[_ ->]];
    cbn [Py.bind]; [|reflexivity].
  rewrite H1, H2 in H. discriminate H.
Qed.

(** The rows [get_listings] returns, one by one. *)
Lemma get_listings_lookup (rows : list RawListing) (listings : list ParsedListing)
    (i : nat) (r : RawListing) (l : ParsedListing) :
  get_listings csv_number csv_boolean to_numeric rows = Py.Ok listings ->
  rows !! i = Some r -> listings !! i = Some l ->
  exists p a,
    l = set_numbers r p a
    /\ apply_to_numeric to_numeric (str_replace "$" (map price rows)) !! i = Some p
    /\ apply_to_numeric to_numeric (str_replace "%" (map host_acceptance_rate rows)) !! i
       = Some a.
Proof.
  intros Hget Hr Hl. apply get_listings_inv in Hget. destruct Hget as (_ & _ & ->).
  apply assign_lookup in Hl. destruct Hl as (r' & p & a & Hr' & Hp & Ha & ->).
  rewrite Hr in Hr'. injection Hr' as <-. exists p, a. repeat split; assumption.
Qed.

(** [filter_listings] does not read the acceptance rate. *)
Lemma filter_listings_with_rate (rate : Listing -> float) (table : list Listing)
    (user_filter : gmap string string) :
  filter_listings float_of_string (map (with_rate rate) table) user_filter
  = let* result := filter_listings float_of_string table user_filter in
    Py.Ok (map (with_rate rate) result).
Proof.
  unfold filter_listings. rewrite !filter_map_swap.
  destruct (bool_decide (user_filter = ∅)); [reflexivity|]. cbv zeta.
  destruct (py_float float_of_string (dict_get user_filter "min_price" MIN_AIRBNB_PRICE));
    cbn [Py.bind]; [|reflexivity].
  destruct (py_float float_of_string (dict_get user_filter "max_price" MAX_AIRBNB_PRICE));
    cbn [Py.bind]; [|reflexivity].
  rewrite filter_map_swap. reflexivity.
Qed.

Lemma filter_listings_raises (table : list Listing) (user_filter : gmap string string)
    (e : Py.exn) :
  filter_listings float_of_string table user_filter = Py.Raise e <->
  filter_listings float_of_string [] user_filter = Py.Raise e.
Proof.
  destruct (decide (user_filter = ∅)) as [->|Hne].
  - rewrite !filter_listings_empty. split; discriminate.
  - rewrite !filter_listings_not_empty by exact Hne. cbv zeta.
    destruct (py_float float_of_string (dict_get user_filter "min_price" MIN_AIRBNB_PRICE));
      cbn [Py.bind]; [|reflexivity].
    destruct (py_float float_of_string (dict_get user_filter "max_price" MAX_AIRBNB_PRICE));
      cbn [Py.bind]; [split; discriminate|reflexivity].
Qed.

Lemma filter_listings_drops_nan (table : list Listing) (user_filter : gmap string string)
    (result : list Listing) (l : Listing) :
  user_filter <> ∅ -> filter_listings float_of_string table user_filter = Py.Ok result ->
  is_nan (price l) = true -> ~ In l result.
Proof.
  intros Hne Hres Hnan Hin.
  rewrite filter_listings_not_empty in Hres by exact Hne. cbv zeta in Hres.
  destruct (py_float float_of_string (dict_get user_filter "min_price" MIN_AIRBNB_PRICE))
    as [lo|]; cbn [Py.bind] in Hres; [|discriminate].
  destruct (py_float float_of_string (dict_get user_filter "max_price" MAX_AIRBNB_PRICE))
    as [hi|]; cbn [Py.bind] in Hres; [|discriminate].
  injection Hres as <-. apply List.filter_In in Hin. destruct Hin as [_ Hin].
  rewrite (in_price_range_nan lo hi l Hnan) in Hin. discriminate.
Qed.

End WithParsers.
End get_listings_facts.


(** * [split_restaurants] *)

Module restaurants_facts.
Import restaurants.

Lemma groupby_lookup (restaurants : list (Z * Restaurant)) (nm : string) :
  groupby_name_count restaurants !! nm
  = match branches (Some nm) restaurants with
    | O => None
    | S n => Some (Z.of_nat (S n))
    end.
Proof.
  unfold branches. induction restaurants as [|ir rs IH]; [apply lookup_empty|].
  cbn [groupby_name_count foldr List.filter].
  fold (groupby_name_count rs).
  destruct (name (snd ir)) as [s|]; cbn [same_name]; [|exact IH].
  destruct (String.eqb_spec s nm) as [->|Hne].
  - rewrite lookup_insert_eq, IH. cbn [length].
    destruct (length (List.filter (fun ir0 => same_name (name (snd ir0)) (Some nm)) rs));
      unfold default; cbn [from_option id]; f_equal; lia.
  - rewrite lookup_insert_ne by exact Hne. exact IH.
Qed.

Lemma branches_pos (restaurants : list (Z * Restaurant)) (ir : Z * Restaurant) :
  In ir restaurants -> notna (name (snd ir)) = true ->
  (0 < branches (name (snd ir)) restaurants)%nat.
Proof.
  intros Hin Hn. unfold branches.
  assert (H : In ir (List.filter (fun ir0 => same_name (name (snd ir0)) (name (snd ir)))
                       restaurants)).
  { apply List.filter_In. split; [exact Hin|].
    destruct (name (snd ir)); [apply String.eqb_refl|discriminate Hn]. }
  destruct (List.filter _ restaurants); [destruct H|cbn; lia].
Qed.

Lemma get_restaurant_count_in (restaurants : list (Z * Restaurant)) (ir : Z * Restaurant) :
  In ir restaurants -> notna (name (snd ir)) = true ->
  get_restaurant_count (name (snd ir)) (groupby_name_count restaurants)
  = Py.Ok (Z.of_nat (branches (name (snd ir)) restaurants)).
Proof.
  intros Hin Hn. pose proof (branches_pos restaurants ir Hin Hn) as Hpos.
  unfold get_restaurant_count. destruct (name (snd ir)) as [s|]; [|discriminate Hn].
  rewrite groupby_lookup.
  destruct (branches (Some s) restaurants); [lia|reflexivity].
Qed.

(** A comprehension whose body never raises is a [map]. *)
Lemma comprehension_map {A B : Type} (f : A -> Py.result B) (g : A -> B) (l : list A) :
  (forall x, In x l -> f x = Py.Ok (g x)) -> Py.comprehension f l = Py.Ok (map g l).
Proof.
  induction l as [|x l IH]; intros H; [reflexivity|].
  cbn [Py.comprehension map]. rewrite (H x) by (left; reflexivity). cbn [Py.bind].
  rewrite IH by (intros y Hy; apply H; right; exact Hy). reflexivity.
Qed.

(** A comprehension whose body raises on some element raises; when the
    body has one exception only, it is that one. *)
Lemma comprehension_raises {A B : Type} (f : A -> Py.result B) (e : Py.exn) (l : list A) :
  (forall x e', f x = Py.Raise e' -> e' = e) ->
  (exists x, In x l /\ f x = Py.Raise e) ->
  Py.comprehension f l = Py.Raise e.
Proof.
  intros Hone. induction l as [|x l IH]; intros (y & Hin & Hy); [destruct Hin|].
  cbn [Py.comprehension]. destruct (f x) as [b|e'] eqn:Hx; cbn [Py.bind].
  - destruct Hin as [->|Hin]; [congruence|].
    rewrite IH by (exists y; split; assumption). reflexivity.
  - rewrite (Hone x e' Hx). reflexivity.
Qed.

(** When every row has a name, nothing is raised. *)
Lemma split_restaurants_ok (restaurants : list (Z * Restaurant)) :
  all_named restaurants = true ->
  split_restaurants restaurants
  = Py.Ok (List.filter (fun b => (1 <? total_branches b)%Z) (with_total_branches restaurants),
           List.filter (fun b => (total_branches b <? 2)%Z) (with_total_branches restaurants)).
Proof.
  intros Hall. unfold all_named in Hall. rewrite List.forallb_forall in Hall.
  unfold split_restaurants.
  rewrite (comprehension_map _
             (fun ir => {| index := fst ir;
                           row := snd ir;
                           total_branches :=
                             Z.of_nat (branches (name (snd ir)) restaurants) |})).
  - reflexivity.
  - intros ir Hin. rewrite (get_restaurant_count_in _ _ Hin (Hall ir Hin)). reflexivity.
Qed.

(** A row without a name makes [.loc] raise. *)
Lemma split_restaurants_nameless (restaurants : list (Z * Restaurant)) :
  all_named restaurants = false ->
  split_restaurants restaurants = Py.Raise Py.KeyError.
Proof.
  intros Hall. unfold split_restaurants.
  rewrite (comprehension_raises _ Py.KeyError); [reflexivity| |].
  - intros ir e. unfold get_restaurant_count.
    destruct (name (snd ir)) as [s|]; cbn [Py.bind]; [|congruence].
    destruct (groupby_name_count restaurants !! s); cbn [Py.bind]; congruence.
  - unfold all_named in Hall.
    assert (H : existsb (fun ir => negb (notna (name (snd ir)))) restaurants = true).
    { clear -Hall. induction restaurants as [|ir rs IH]; [discriminate Hall|].
      cbn [forallb existsb] in *. destruct (notna (name (snd ir))); cbn [negb orb andb] in *;
        [apply IH; exact Hall|reflexivity]. }
    apply List.existsb_exists in H. destruct H as (ir & Hin & Hn).
    exists ir. split; [exact Hin|].
    destruct (name (snd ir)); [discriminate Hn|reflexivity].
Qed.

(** [get_restaurants] returns named rows only. *)
Lemma get_restaurants_named (locations : list (Z * Restaurant)) :
  all_named (get_restaurants locations) = true.
Proof.
  unfold all_named, get_restaurants. apply List.forallb_forall. intros ir Hin.
  apply List.filter_In in Hin. exact (proj2 Hin).
Qed.

Lemma filter_partition {A : Type} (p q : A -> bool) (l : list A) :
  (forall x, q x = negb (p x)) ->
  Permutation (List.filter p l ++ List.filter q l) l.
Proof.
  intros Hq. induction l as [|x l IH]; [constructor|].
  cbn [List.filter]. rewrite Hq. destruct (p x); cbn [negb app].
  - constructor. exact IH.
  - apply Permutation_sym, Permutation_cons_app, Permutation_sym. exact IH.
Qed.

End restaurants_facts.

(** * The properties of the specification *)

Section Claims.
Import Binary64 bounding_box bounding_box_facts bounding_box_strict.
Import airbnb airbnb_facts get_listings_facts.
Local Open Scope float_scope.

(** C5 (precondition errors).  [get_bounding_box] raises [AssertionError]
    whenever the radius is [<= 0], or [|latitude| > 90], or
    [|longitude| > 180].  When the three assertions hold, the only
    exception left is the division by a zero parallel radius; with the C
    library's cosine in (0, 1] at the latitude, no exception is raised and
    a box is returned. *)
Theorem C5_get_bounding_box_raises_on_invalid_input
    (cos : float -> float) (lat lon r : float) :
  (((r <=? 0) = true \/ (90 <? abs lat) = true \/ (180 <? abs lon) = true) ->
     get_bounding_box cos lat lon r = Py.Raise Py.AssertionError)
  /\ (preconditions lat lon r = true ->
      get_bounding_box cos lat lon r
      = if (parallel_radius cos lat =? 0) then Py.Raise Py.ZeroDivisionError
        else Py.Ok (box_of cos lat lon r))
  /\ (preconditions lat lon r = true -> cos_in_range cos lat ->
      exists box, get_bounding_box cos lat lon r = Py.Ok box).
Proof.
  split; [|split].
  - intros H. assert (Hpre : preconditions lat lon r = false).
    { unfold preconditions. destruct H as [H|[H|H]].
      + rewrite (leb_ltb_false _ _ H). reflexivity.
      + apply (ltb_abs_range lat 90) in H.
        change (- (90))%float with (-90)%float in H. rewrite H.
        rewrite andb_false_r. reflexivity.
      + apply (ltb_abs_range lon 180) in H.
        change (- (180))%float with (-180)%float in H. rewrite H.
        apply andb_false_r. }
    unfold preconditions in Hpre. unfold get_bounding_box, Py.assert.
    destruct (0 <? r); [|reflexivity].
    destruct ((-90 <=? lat) && (lat <=? 90)); [|reflexivity].
    destruct ((-180 <=? lon) && (lon <=? 180)); [discriminate Hpre|reflexivity].
  - intros Hpre. destruct (preconditions_inv _ _ _ Hpre) as (Hr & Hlat & Hlon).
    unfold get_bounding_box, Py.truediv.
    rewrite (assert_true _ Hr), (assert_true _ Hlat), (assert_true _ Hlon).
    cbn [Py.bind]. fold (parallel_radius cos lat).
    destruct (parallel_radius cos lat =? 0); reflexivity.
  - intros Hpre Hcos. exists (box_of cos lat lon r).
    apply get_bounding_box_ok; assumption.
Qed.

Lemma C5_witness :
  (get_bounding_box cos_poly 91 100 5 = Py.Raise Py.AssertionError)
  /\ (exists box, get_bounding_box cos_poly 0 100 5 = Py.Ok box).
Proof.
  split.
  - apply (proj1 (C5_get_bounding_box_raises_on_invalid_input cos_poly 91 100 5)).
    right. left. reflexivity.
  - apply (proj2 (proj2 (C5_get_bounding_box_raises_on_invalid_input cos_poly 0 100 5))).
    + reflexivity.
    + split; reflexivity.
Defined.

(** C6 (min <= max).  For a centre and a radius that pass the assertions
    (and a cosine in (0, 1] at the latitude), the box returned satisfies
    [lat_min <= lat_max] and [lon_min <= lon_max]; a radius [<= 0] is
    rejected with [AssertionError] and yields no box. *)
Theorem C6_box_min_le_max (cos : float -> float) (lat lon r : float) :
  (preconditions lat lon r = true -> cos_in_range cos lat ->
     exists box,
       get_bounding_box cos lat lon r = Py.Ok box
       /\ (lat_min box <=? lat_max box) = true
       /\ (lon_min box <=? lon_max box) = true)
  /\ ((r <=? 0) = true -> get_bounding_box cos lat lon r = Py.Raise Py.AssertionError).
Proof.
  split.
  - intros Hpre Hcos. exists (box_of cos lat lon r).
    split; [apply get_bounding_box_ok; assumption|].
    apply box_min_le_max; assumption.
  - intros H. unfold get_bounding_box. rewrite (leb_ltb_false _ _ H). reflexivity.
Qed.

Lemma C6_witness :
  (exists box,
      get_bounding_box cos_poly 0 100 5 = Py.Ok box
      /\ (lat_min box <=? lat_max box) = true
      /\ (lon_min box <=? lon_max box) = true)
  /\ get_bounding_box cos_poly 0 100 0 = Py.Raise Py.AssertionError.
Proof.
  split.
  - apply (proj1 (C6_box_min_le_max cos_poly 0 100 5)).
    + reflexivity.
    + split; reflexivity.
  - apply (proj2 (C6_box_min_le_max cos_poly 0 100 0)). reflexivity.
Defined.

(** C2, as stated, fails: on the equator ([cos 0 = 1] in every C library)
    a radius of [1e-20] km around longitude 100 is absorbed by the rounding
    of [lon - d] and [lon + d]; both longitude bounds are 100 itself, so the
    centre is not strictly inside the box. *)
Lemma C2_counterexample :
  exists box,
    preconditions 0 100 0x1.79ca10c924223p-67 = true
    /\ get_bounding_box cos_poly 0 100 0x1.79ca10c924223p-67 = Py.Ok box
    /\ (lon_min box <? 100) = false
    /\ (100 <? lon_max box) = false.
Proof.
  eexists. split; [reflexivity|]. split; [reflexivity|]. split; reflexivity.
Qed.

(** The same box for any cosine that is exact at zero. *)
Lemma equator_box_absorbs_radius (cos : float -> float) :
  cos 0 = 1 ->
  get_bounding_box cos 0 100 0x1.79ca10c924223p-67
  = Py.Ok {| lat_min := Py.degrees (0 - 0x1.79ca10c924223p-67 / 6371);
             lon_min := 100;
             lat_max := Py.degrees (0 + 0x1.79ca10c924223p-67 / 6371);
             lon_max := 100 |}.
Proof.
  intros H. unfold get_bounding_box.
  change (Py.radians 0) with 0. rewrite H. reflexivity.
Qed.

(** Nor does the box always contain the centre itself, even weakly: the
    conversion to radians and back moves latitude 3 up by one unit in the
    last place, and with a radius that is absorbed the lower bound lies
    above 3. *)
Lemma centre_below_lat_min (cos : float -> float) :
  cos_in_range cos 3 ->
  exists box,
    get_bounding_box cos 3 100 0x1.79ca10c924223p-67 = Py.Ok box
    /\ (3 <? lat_min box) = true.
Proof.
  intros Hcos. exists (box_of cos 3 100 0x1.79ca10c924223p-67).
  split; [apply get_bounding_box_ok; [reflexivity|exact Hcos]|reflexivity].
Qed.

(** C2 (amended).  For a centre and a radius that pass the assertions (and
    a cosine in (0, 1] at the latitude), the box returned strictly
    contains the centre whenever the radius is at least 10 metres
    ([0.01] km): [lat_min < lat < lat_max] and [lon_min < lon < lon_max].
    For every radius it contains, bounds included, the centre converted to
    radians and back to degrees:
    [lat_min <= degrees(radians(lat)) <= lat_max] and
    [lon_min <= degrees(radians(lon)) <= lon_max]. *)
Theorem C2_box_contains_centre (cos : float -> float) (lat lon r : float) :
  preconditions lat lon r = true -> cos_in_range cos lat ->
  exists box,
    get_bounding_box cos lat lon r = Py.Ok box
    /\ ((0x1.47ae147ae147bp-7 <=? r) = true ->
        (lat_min box <? lat) = true /\ (lat <? lat_max box) = true
        /\ (lon_min box <? lon) = true /\ (lon <? lon_max box) = true)
    /\ (lat_min box <=? Py.degrees (Py.radians lat)) = true
    /\ (Py.degrees (Py.radians lat) <=? lat_max box) = true
    /\ (lon_min box <=? Py.degrees (Py.radians lon)) = true
    /\ (Py.degrees (Py.radians lon) <=? lon_max box) = true.
Proof.
  intros Hpre Hcos. exists (box_of cos lat lon r).
  split; [apply get_bounding_box_ok; assumption|]. split.
  - intros Hr. apply box_strict; assumption.
  - apply box_brackets; assumption.
Qed.

Lemma C2_witness :
  exists box,
    get_bounding_box cos_poly 0 100 5 = Py.Ok box
    /\ ((lat_min box <? 0) = true /\ (0 <? lat_max box) = true
        /\ (lon_min box <? 100) = true /\ (100 <? lon_max box) = true)
    /\ (lat_min box <=? Py.degrees (Py.radians 0)) = true
    /\ (Py.degrees (Py.radians 0) <=? lat_max box) = true
    /\ (lon_min box <=? Py.degrees (Py.radians 100)) = true
    /\ (Py.degrees (Py.radians 100) <=? lon_max box) = true.
Proof.
  destruct (C2_box_contains_centre cos_poly 0 100 5) as (box & Hbox & Hin & Hle).
  - reflexivity.
  - split; reflexivity.
  - exists box. split; [exact Hbox|]. split; [|exact Hle].
    apply Hin. reflexivity.
Defined.

(** The latitude bounds at the centre of Vancouver for the 5 km of the
    script, [49.2013...] and [49.2912...]; there the centre is strictly
    between them. *)
Example vancouver_latitude_bounds (cos : float -> float) :
  cos_in_range cos (fst VANCOUVER_COORDINATES) ->
  exists box,
    get_bounding_box cos (fst VANCOUVER_COORDINATES) (snd VANCOUVER_COORDINATES)
      MAX_DISTANCE_FROM_AMENITIES = Py.Ok box
    /\ lat_min box = 0x1.899c50c387ba8p+5
    /\ lat_max box = 0x1.8a547f1dcc88cp+5
    /\ (lat_min box <? fst VANCOUVER_COORDINATES) = true
    /\ (fst VANCOUVER_COORDINATES <? lat_max box) = true.
Proof.
  intros Hcos.
  exists (box_of cos (fst VANCOUVER_COORDINATES) (snd VANCOUVER_COORDINATES)
            MAX_DISTANCE_FROM_AMENITIES).
  split; [apply get_bounding_box_ok; [reflexivity|exact Hcos]|].
  repeat split; reflexivity.
Qed.

(** C7, as stated, fails: on the equator, around longitude 100, the radii
    5 km and 5.000000000000001 km (the next binary64 number) give the same
    two longitude bounds, so the longitude span does not grow. *)
Lemma C7_counterexample :
  exists box1 box2,
    (5 <? 0x1.4000000000001p+2) = true
    /\ get_bounding_box cos_poly 0 100 5 = Py.Ok box1
    /\ get_bounding_box cos_poly 0 100 0x1.4000000000001p+2 = Py.Ok box2
    /\ (lon_span box1 <? lon_span box2) = false.
Proof.
  do 2 eexists. split; [reflexivity|]. split; [reflexivity|]. split; reflexivity.
Qed.

(** C7 (amended).  For a fixed centre that passes the assertions (and a
    cosine in (0, 1] at its latitude) and radii [0 < r1 < r2], the box of
    [r2] contains the box of [r1], and neither span is smaller for [r2]
    than for [r1].  When the radii are at least a micrometre apart
    ([r2 - r1 >= 1e-9] km, as computed) and [r2] is at most 20000 km, the
    latitude span is strictly larger for [r2], and so is the longitude
    span, provided the cosine is at least [2 ^ -1000] (the true cosine is
    at least [6.1e-17] at every latitude the assertions admit; a smaller
    value makes the longitude offsets overflow). *)
Theorem C7_larger_radius_widens_box
    (cos : float -> float) (lat lon r1 r2 : float) :
  preconditions lat lon r1 = true -> (r1 <? r2) = true -> cos_in_range cos lat ->
  exists box1 box2,
    get_bounding_box cos lat lon r1 = Py.Ok box1
    /\ get_bounding_box cos lat lon r2 = Py.Ok box2
    /\ (lat_span box1 <=? lat_span box2) = true
    /\ (lon_span box1 <=? lon_span box2) = true
    /\ (lat_min box2 <=? lat_min box1) = true /\ (lat_max box1 <=? lat_max box2) = true
    /\ (lon_min box2 <=? lon_min box1) = true /\ (lon_max box1 <=? lon_max box2) = true
    /\ ((0x1.12e0be826d695p-30 <=? r2 - r1) = true -> (r2 <=? 20000) = true ->
        (lat_span box1 <? lat_span box2) = true
        /\ ((0x1p-1000 <=? cos (Py.radians lat)) = true ->
            (lon_span box1 <? lon_span box2) = true)).
Proof.
  intros Hpre Hlt Hcos.
  exists (box_of cos lat lon r1), (box_of cos lat lon r2).
  split; [apply get_bounding_box_ok; assumption|].
  split; [apply get_bounding_box_ok;
          [apply (preconditions_mono lat lon r1 r2 Hpre (ltb_leb _ _ Hlt))|assumption]|].
  destruct (spans_mono cos lat lon r1 r2 Hpre (ltb_leb _ _ Hlt) Hcos) as [S1 S2].
  split; [exact S1|]. split; [exact S2|].
  destruct (box_nested cos lat lon r1 r2 Hpre (ltb_leb _ _ Hlt) Hcos) as (N1 & N2 & N3 & N4).
  split; [exact N1|]. split; [exact N2|]. split; [exact N3|]. split; [exact N4|].
  intros Hsep Hbig. apply spans_strict; assumption.
Qed.

Lemma C7_witness :
  exists box1 box2,
    get_bounding_box cos_poly 0 100 5 = Py.Ok box1
    /\ get_bounding_box cos_poly 0 100 6 = Py.Ok box2
    /\ (lat_min box2 <=? lat_min box1) = true /\ (lat_max box1 <=? lat_max box2) = true
    /\ (lon_min box2 <=? lon_min box1) = true /\ (lon_max box1 <=? lon_max box2) = true
    /\ (lat_span box1 <? lat_span box2) = true
    /\ (lon_span box1 <? lon_span box2) = true.
Proof.
  destruct (C7_larger_radius_widens_box cos_poly 0 100 5 6)
    as (box1 & box2 & H1 & H2 & _ & _ & N1 & N2 & N3 & N4 & Hstrict).
  - reflexivity.
  - reflexivity.
  - split; reflexivity.
  - exists box1, box2.
    split; [exact H1|]. split; [exact H2|].
    split; [exact N1|]. split; [exact N2|]. split; [exact N3|]. split; [exact N4|].
    destruct Hstrict as [Hlat Hlon]; [reflexivity|reflexivity|].
    split; [exact Hlat|]. apply Hlon. reflexivity.
Defined.

(** C3 (exclusive bounds).  The selection made for one box keeps, in
    order, exactly the listings with [lat_min < lat < lat_max] and
    [lon_min < lon < lon_max]; a listing whose latitude or longitude equals
    a bound of the box is not selected. *)
Theorem C3_selection_uses_exclusive_bounds
    (airbnb_locations : list Listing) (location : BoundingBox) (l : Listing) :
  select_in_box airbnb_locations location
  = List.filter (strictly_inside location) airbnb_locations
  /\ (In l (select_in_box airbnb_locations location)
      <-> In l airbnb_locations
          /\ (lat_min location <? lat l) = true /\ (lat l <? lat_max location) = true
          /\ (lon_min location <? lon l) = true /\ (lon l <? lon_max location) = true)
  /\ ((lat l =? lat_min location) = true \/ (lat l =? lat_max location) = true
      \/ (lon l =? lon_min location) = true \/ (lon l =? lon_max location) = true ->
      ~ In l (select_in_box airbnb_locations location)).
Proof.
  assert (Hiff : In l (select_in_box airbnb_locations location)
                 <-> In l airbnb_locations
                     /\ (lat_min location <? lat l) = true
                     /\ (lat l <? lat_max location) = true
                     /\ (lon_min location <? lon l) = true
                     /\ (lon l <? lon_max location) = true).
  { rewrite select_in_box_filter, List.filter_In. unfold strictly_inside.
    rewrite !andb_true_iff. tauto. }
  split; [apply select_in_box_filter|]. split; [exact Hiff|].
  intros Heq Hin. apply Hiff in Hin. destruct Hin as (_ & H1 & H2 & H3 & H4).
  destruct Heq as [E|[E|[E|E]]]; apply eqb_ltb_false in E; destruct E as [E1 E2];
    congruence.
Qed.

(** A listing on the eastern bound of a box is not selected; one inside
    is. *)
Lemma C3_witness :
  ~ In (samples.listing 1 0 101 80)
      (select_in_box [samples.listing 1 0 101 80; samples.listing 2 0 100 90]
         {| lat_min := -1; lon_min := 99; lat_max := 1; lon_max := 101 |})
  /\ In (samples.listing 2 0 100 90)
       (select_in_box [samples.listing 1 0 101 80; samples.listing 2 0 100 90]
          {| lat_min := -1; lon_min := 99; lat_max := 1; lon_max := 101 |}).
Proof.
  split.
  - apply (proj2 (proj2 (C3_selection_uses_exclusive_bounds
                           [samples.listing 1 0 101 80; samples.listing 2 0 100 90]
                           {| lat_min := -1; lon_min := 99; lat_max := 1; lon_max := 101 |}
                           (samples.listing 1 0 101 80)))).
    right. right. right. reflexivity.
  - apply (proj1 (proj2 (C3_selection_uses_exclusive_bounds
                           [samples.listing 1 0 101 80; samples.listing 2 0 100 90]
                           {| lat_min := -1; lon_min := 99; lat_max := 1; lon_max := 101 |}
                           (samples.listing 2 0 100 90)))).
    split; [right; left; reflexivity|]. repeat split; reflexivity.
Defined.

(** C1, as stated, fails on a table that holds the same row twice: the row
    lies inside the only box, both copies are selected for it, and
    [drop_duplicates(keep=False)] drops both, so a listing inside exactly
    one box is absent from the result. *)
Lemma C1_counterexample :
  exists boxes,
    ideal_locations cos_poly [(0, 100)] 5 = Py.Ok boxes
    /\ boxes_containing boxes (samples.listing 1 0 100 80) = 1%nat
    /\ get_ideal_listings cos_poly
         [samples.listing 1 0 100 80; samples.listing 1 0 100 80] [(0, 100)] 5
       = Py.Ok [].
Proof.
  eexists. split; [reflexivity|]. split; reflexivity.
Qed.

(** C1 (amended).  On a table without equal rows, the result of
    [get_ideal_listings] holds exactly the listings of the table that lie
    strictly inside exactly one of the boxes of the cluster centres: a
    listing inside one box is in the result, a listing inside two or more
    boxes, or inside none, is not.  The call returns such a result when
    there is at least one centre and every centre passes the assertions of
    [get_bounding_box] (with a cosine in (0, 1] at its latitude). *)
Theorem C1_result_is_listings_inside_exactly_one_box
    (cos : float -> float) (airbnb_locations : list Listing)
    (clusters_center : list (float * float)) (distance : float) :
  distinct_rows airbnb_locations = true ->
  (forall ideal_rentals,
      get_ideal_listings cos airbnb_locations clusters_center distance = Py.Ok ideal_rentals ->
      exists boxes,
        ideal_locations cos clusters_center distance = Py.Ok boxes
        /\ forall l,
            In l ideal_rentals
            <-> In l airbnb_locations /\ boxes_containing boxes l = 1%nat)
  /\ (clusters_center <> [] ->
      Forall (fun center => preconditions (fst center) (snd center) distance = true
                            /\ cos_in_range cos (fst center)) clusters_center ->
      exists ideal_rentals,
        get_ideal_listings cos airbnb_locations clusters_center distance
        = Py.Ok ideal_rentals).
Proof.
  intros Hd. split; [|apply get_ideal_listings_ok].
  intros ideal_rentals Hget.
  destruct (get_ideal_listings_inv cos _ _ _ _ Hget) as (boxes & Hboxes & ->).
  exists boxes. split; [exact Hboxes|]. intros l.
  unfold drop_duplicates_keep_false. rewrite List.filter_In, in_all_selections. split.
  - intros [[Hin _] Hocc]. split; [exact Hin|].
    rewrite (occurrences_all _ _ _ Hd Hin) in Hocc. apply Nat.eqb_eq in Hocc. exact Hocc.
  - intros [Hin Hone]. split.
    + split; [exact Hin|]. apply boxes_containing_pos. lia.
    + rewrite (occurrences_all _ _ _ Hd Hin), Hone. reflexivity.
Qed.

(** Two overlapping boxes on the equator: the first listing lies in the
    first box only, the second in both, the third in none. *)
Lemma C1_witness :
  (exists boxes,
      ideal_locations cos_poly [(0, 100); (0, 0x1.9020c49ba5e35p+6)] 5 = Py.Ok boxes
      /\ forall l,
          In l [samples.listing 1 0 0x1.8fdf3b645a1cbp+6 80]
          <-> In l [samples.listing 1 0 0x1.8fdf3b645a1cbp+6 80;
                    samples.listing 2 0 0x1.90083126e978dp+6 90;
                    samples.listing 3 0 120 70]
              /\ boxes_containing boxes l = 1%nat)
  /\ (exists ideal_rentals,
        get_ideal_listings cos_poly
          [samples.listing 1 0 0x1.8fdf3b645a1cbp+6 80;
           samples.listing 2 0 0x1.90083126e978dp+6 90;
           samples.listing 3 0 120 70]
          [(0, 100); (0, 0x1.9020c49ba5e35p+6)] 5 = Py.Ok ideal_rentals).
Proof.
  destruct (C1_result_is_listings_inside_exactly_one_box cos_poly
              [samples.listing 1 0 0x1.8fdf3b645a1cbp+6 80;
               samples.listing 2 0 0x1.90083126e978dp+6 90;
               samples.listing 3 0 120 70]
              [(0, 100); (0, 0x1.9020c49ba5e35p+6)] 5) as [Hchar Hret].
  - reflexivity.
  - split.
    + apply Hchar. reflexivity.
    + apply Hret; [discriminate|].
      repeat constructor.
Defined.

(** C4, as stated, fails: with no cluster centre there is no frame to
    concatenate, and the call raises instead of returning an empty table. *)
Lemma C4_counterexample :
  get_ideal_listings cos_poly [samples.listing 1 0 100 80] [] 5 = Py.Raise Py.ValueError.
Proof. reflexivity. Qed.

(** C4 (amended).  With an empty list of cluster centres
    [get_ideal_listings] raises [ValueError] ([pd.concat] of no frames),
    for every table of listings, and returns no result; it is the only
    input on which it raises that exception. *)
Theorem C4_no_centres_raises_ValueError
    (cos : float -> float) (airbnb_locations : list Listing) (distance : float) :
  get_ideal_listings cos airbnb_locations [] distance = Py.Raise Py.ValueError
  /\ forall clusters_center,
      get_ideal_listings cos airbnb_locations clusters_center distance
      = Py.Raise Py.ValueError ->
      clusters_center = [].
Proof.
  split; [reflexivity|]. intros centers H. unfold get_ideal_listings in H.
  destruct (ideal_locations cos centers distance) as [boxes|e] eqn:Hb; cbn [Py.bind] in H.
  - apply ideal_locations_length in Hb.
    destruct boxes as [|b bs]; [destruct centers; [reflexivity|discriminate Hb]|].
    discriminate H.
  - injection H as ->. apply ideal_locations_exn in Hb. destruct Hb; discriminate.
Qed.




(** C9, as stated, fails for a listing priced below zero: the user enters
    only the minimum 50; the listing priced -1 is below that minimum and
    below the maximum, and is not retained, because the default lower
    bound 0 applies. *)
Lemma C9_counterexample :
  samples.parse_digits "50" = Some 50
  /\ passes_quality (samples.listing 1 0 100 (-1)) = true
  /\ (price (samples.listing 1 0 100 (-1)) <? 50) = true
  /\ (price (samples.listing 1 0 100 (-1)) <=? Py.float_of_int MAX_AIRBNB_PRICE) = true
  /\ filter_listings samples.parse_digits [samples.listing 1 0 100 (-1)]
       (get_user_input "50" EmptyString) = Py.Ok [].
Proof.
  split; [reflexivity|]. split; [reflexivity|]. split; [reflexivity|].
  split; [reflexivity|].
  rewrite filter_listings_min_only by reflexivity. reflexivity.
Qed.

(** C9 (amended).  When the user supplies only a minimum price, it is
    stored under ["mix_price"] and never read: whatever was typed,
    [filter_listings] applies the default bounds 0 and 100000, so a listing
    that passes the review and host selections is retained exactly when
    [0 <= price <= 100000]; in particular every such listing priced from 0
    up to the entered minimum is retained. *)
Theorem C9_entered_minimum_is_not_applied
    (float_of_string : string -> option float)
    (listings : list Listing) (min_price : string) :
  Py.truthy min_price = true ->
  get_user_input min_price EmptyString !! "min_price"%string = None
  /\ filter_listings float_of_string listings (get_user_input min_price EmptyString)
     = Py.Ok (List.filter
                (in_price_range (Py.float_of_int MIN_AIRBNB_PRICE)
                   (Py.float_of_int MAX_AIRBNB_PRICE))
                (List.filter passes_quality listings))
  /\ forall l result,
      filter_listings float_of_string listings (get_user_input min_price EmptyString) = Py.Ok result ->
      (In l result
       <-> In l listings /\ passes_quality l = true
           /\ (0 <=? price l) = true /\ (price l <=? 100000) = true).
Proof.
  intros Ht. split; [|split].
  - rewrite (get_user_input_min_only _ Ht).
    rewrite lookup_insert_ne by discriminate. apply lookup_empty.
  - apply filter_listings_min_only. exact Ht.
  - intros l result. rewrite (filter_listings_min_only _ _ _ Ht).
    intros H. injection H as <-.
    rewrite !List.filter_In. unfold in_price_range. rewrite andb_true_iff. tauto.
Qed.

Lemma C9_witness :
  filter_listings samples.parse_digits
    [samples.listing 1 0 100 30; samples.listing 2 0 100 (-1)] (get_user_input "50" EmptyString)
  = Py.Ok (List.filter
             (in_price_range (Py.float_of_int MIN_AIRBNB_PRICE)
                (Py.float_of_int MAX_AIRBNB_PRICE))
             (List.filter passes_quality
                [samples.listing 1 0 100 30; samples.listing 2 0 100 (-1)])).
Proof.
  apply (proj1 (proj2 (C9_entered_minimum_is_not_applied samples.parse_digits
                         [samples.listing 1 0 100 30; samples.listing 2 0 100 (-1)]
                         "50" eq_refl))).
Defined.

(** C10 (partition).  On a table whose rows all have a name, as every
    table that [get_restaurants] returns, [split_restaurants] does not
    raise, and it places every row in exactly one of the two groups: in
    the chain group when the number of rows sharing its name is greater
    than 1, in the non-chain group when that number is less than 2.  The
    two groups are disjoint and together hold every row of the input, once
    each. *)
Theorem C10_split_restaurants_partitions
    (restaurants : list (Z * restaurants.Restaurant)) :
  restaurants.all_named restaurants = true ->
  exists chain_restaurants non_chain_restaurants,
    restaurants.split_restaurants restaurants
    = Py.Ok (chain_restaurants, non_chain_restaurants)
    /\ Permutation (chain_restaurants ++ non_chain_restaurants)
         (restaurants.with_total_branches restaurants)
    /\ map (fun b => (restaurants.index b, restaurants.row b))
         (restaurants.with_total_branches restaurants) = restaurants
    /\ forall b,
        In b (restaurants.with_total_branches restaurants) ->
        restaurants.total_branches b
        = Z.of_nat (restaurants.branches (restaurants.name (restaurants.row b)) restaurants)
        /\ ((In b chain_restaurants /\ ~ In b non_chain_restaurants
             /\ (1 < restaurants.total_branches b)%Z)
            \/ (In b non_chain_restaurants /\ ~ In b chain_restaurants
                /\ (restaurants.total_branches b < 2)%Z)).
Proof.
  intros Hall.
  do 2 eexists. split; [apply restaurants_facts.split_restaurants_ok; exact Hall|].
  split; [|split].
  - apply restaurants_facts.filter_partition. intros b.
    destruct (Z.ltb_spec 1 (restaurants.total_branches b)),
      (Z.ltb_spec (restaurants.total_branches b) 2); try reflexivity; lia.
  - unfold restaurants.with_total_branches. rewrite List.map_map. cbn.
    rewrite <- (List.map_id restaurants) at 2. apply List.map_ext. intros [i r]. reflexivity.
  - intros b Hb. split.
    + unfold restaurants.with_total_branches in Hb. apply List.in_map_iff in Hb.
      destruct Hb as (ir & <- & _). reflexivity.
    + rewrite !List.filter_In.
      destruct (Z.ltb_spec 1 (restaurants.total_branches b)),
        (Z.ltb_spec (restaurants.total_branches b) 2); try lia.
      * left. split; [split; [exact Hb|reflexivity]|].
        split; [intros [_ H']; discriminate|lia].
      * right. split; [split; [exact Hb|reflexivity]|].
        split; [intros [_ H']; discriminate|lia].
Qed.

(** The two Starbucks rows form the chain group, the third row the other. *)
Lemma C10_witness :
  exists chain_restaurants non_chain_restaurants,
    restaurants.split_restaurants samples.three_restaurants
    = Py.Ok (chain_restaurants, non_chain_restaurants)
    /\ Permutation (chain_restaurants ++ non_chain_restaurants)
         (restaurants.with_total_branches samples.three_restaurants)
    /\ map (fun b => (restaurants.index b, restaurants.row b))
         (restaurants.with_total_branches samples.three_restaurants)
       = samples.three_restaurants
    /\ forall b,
        In b (restaurants.with_total_branches samples.three_restaurants) ->
        restaurants.total_branches b
        = Z.of_nat (restaurants.branches (restaurants.name (restaurants.row b))
                      samples.three_restaurants)
        /\ ((In b chain_restaurants /\ ~ In b non_chain_restaurants
             /\ (1 < restaurants.total_branches b)%Z)
            \/ (In b non_chain_restaurants /\ ~ In b chain_restaurants
                /\ (restaurants.total_branches b < 2)%Z)).
Proof.
  apply (C10_split_restaurants_partitions samples.three_restaurants). reflexivity.
Defined.

Example split_three_restaurants :
  restaurants.split_restaurants samples.three_restaurants
  = Py.Ok
      ([ {| restaurants.index := 0;
            restaurants.row := samples.restaurant "Starbucks" 0x1.89f867f0aa21ap+5
                                 (-0x1.ec7703f2d3c79p+6);
            restaurants.total_branches := 2 |};
         {| restaurants.index := 2;
            restaurants.row := samples.restaurant "Starbucks" 0x1.8a66666666666p+5
                                 (-0x1.ec66666666666p+6);
            restaurants.total_branches := 2 |} ],
       [ {| restaurants.index := 1;
            restaurants.row := samples.restaurant "Chez Ada" 49 (-123);
            restaurants.total_branches := 1 |} ]).
Proof. rewrite restaurants_facts.split_restaurants_ok; reflexivity. Qed.

(** The tables [main] passes to [split_restaurants] come from
    [get_restaurants]; on them it always returns. *)
Example split_after_get_restaurants (locations : list (Z * restaurants.Restaurant)) :
  exists chain_restaurants non_chain_restaurants,
    restaurants.split_restaurants (restaurants.get_restaurants locations)
    = Py.Ok (chain_restaurants, non_chain_restaurants).
Proof.
  do 2 eexists. apply restaurants_facts.split_restaurants_ok.
  apply restaurants_facts.get_restaurants_named.
Qed.

(** A table that holds a row without a name is outside that domain:
    [.loc] raises [KeyError] on it. *)
Example split_nameless_raises :
  restaurants.split_restaurants
    [(0%Z, samples.restaurant "Starbucks" 49 (-123)); (1%Z, samples.nameless)]
  = Py.Raise Py.KeyError.
Proof. apply restaurants_facts.split_restaurants_nameless. reflexivity. Qed.

End Claims.

(** * Further facts on the listings *)

Module listings_facts.
Import Binary64 bounding_box airbnb airbnb_facts.

Lemma filter_idempotent {A : Type} (p : A -> bool) (l : list A) :
  List.filter p (List.filter p l) = List.filter p l.
Proof.
  induction l as [|x l IH]; [reflexivity|]. cbn [List.filter].
  destruct (p x) eqn:Hp; cbn [List.filter]; rewrite ?Hp, IH; reflexivity.
Qed.

Lemma filter_sublist {A : Type} (p : A -> bool) (l : list A) :
  sublist (List.filter p l) l.
Proof.
  induction l as [|x l IH]; [constructor|]. cbn [List.filter].
  destruct (p x); constructor; exact IH.
Qed.

(** The dictionary [get_user_input] builds, by cases on the two answers. *)
Lemma get_user_input_cases (min_price max_price : string) :
  get_user_input min_price max_price
  = match Py.truthy min_price, Py.truthy max_price with
    | false, false => ∅
    | true, false => <["mix_price"%string := min_price]> ∅
    | false, true => <["max_price"%string := max_price]> ∅
    | true, true =>
        <["max_price"%string := max_price]> (<["mix_price"%string := min_price]> ∅)
    end.
Proof.
  unfold get_user_input. destruct (Py.truthy min_price), (Py.truthy max_price); reflexivity.
Qed.

Lemma get_user_input_min_price (min_price max_price : string) :
  get_user_input min_price max_price !! "min_price"%string = None.
Proof.
  rewrite get_user_input_cases.
  destruct (Py.truthy min_price), (Py.truthy max_price);
    rewrite ?lookup_insert_ne by discriminate; apply lookup_empty.
Qed.

Lemma get_user_input_max_price (min_price max_price : string) :
  get_user_input min_price max_price !! "max_price"%string
  = if Py.truthy max_price then Some max_price else None.
Proof.
  rewrite get_user_input_cases.
  destruct (Py.truthy min_price), (Py.truthy max_price);
    rewrite ?lookup_insert_eq; try reflexivity;
    rewrite ?lookup_insert_ne by discriminate; apply lookup_empty.
Qed.

Lemma get_user_input_empty (min_price max_price : string) :
  get_user_input min_price max_price = ∅
  <-> Py.truthy min_price = false /\ Py.truthy max_price = false.
Proof.
  rewrite get_user_input_cases.
  destruct (Py.truthy min_price), (Py.truthy max_price); split;
    try (intros [? ?]; discriminate); try (intros _; split; reflexivity);
    try reflexivity; intros H; exfalso; revert H; apply insert_non_empty.
Qed.

Section WithParsers.
Variable float_of_string : string -> option float.

(** Whatever the two answers, the lower price bound applied is 0. *)
Lemma filter_listings_user_input (listings : list Listing) (min_price max_price : string) :
  filter_listings float_of_string listings (get_user_input min_price max_price)
  = if negb (Py.truthy min_price) && negb (Py.truthy max_price)
    then Py.Ok (List.filter passes_quality listings)
    else if Py.truthy max_price
    then match float_of_string max_price with
         | Some hi =>
             Py.Ok (List.filter (in_price_range (Py.float_of_int MIN_AIRBNB_PRICE) hi)
                      (List.filter passes_quality listings))
         | None => Py.Raise Py.ValueError
         end
    else Py.Ok (List.filter
                  (in_price_range (Py.float_of_int MIN_AIRBNB_PRICE)
                     (Py.float_of_int MAX_AIRBNB_PRICE))
                  (List.filter passes_quality listings)).
Proof.
  destruct (Py.truthy min_price) eqn:Hmin, (Py.truthy max_price) eqn:Hmax; cbn [negb andb].
  - rewrite filter_listings_not_empty
      by (intros E; apply get_user_input_empty in E; destruct E; congruence).
    unfold dict_get. rewrite get_user_input_min_price, get_user_input_max_price, Hmax.
    cbn [py_float Py.bind]. destruct (float_of_string max_price); reflexivity.
  - rewrite filter_listings_not_empty
      by (intros E; apply get_user_input_empty in E; destruct E; congruence).
    unfold dict_get. rewrite get_user_input_min_price, get_user_input_max_price, Hmax.
    reflexivity.
  - rewrite filter_listings_not_empty
      by (intros E; apply get_user_input_empty in E; destruct E; congruence).
    unfold dict_get. rewrite get_user_input_min_price, get_user_input_max_price, Hmax.
    cbn [py_float Py.bind]. destruct (float_of_string max_price); reflexivity.
  - assert (E : get_user_input min_price max_price = ∅)
      by (apply get_user_input_empty; split; assumption).
    rewrite E. apply filter_listings_empty.
Qed.

(** What [filter_listings] returns is the rows that pass the three
    selections, and then some price selection. *)
Lemma filter_listings_shape (listings : list Listing) (user_filter : gmap string string)
    (result : list Listing) :
  filter_listings float_of_string listings user_filter = Py.Ok result ->
  (user_filter = ∅ /\ result = List.filter passes_quality listings)
  \/ (user_filter <> ∅ /\ exists lo hi,
        py_float float_of_string (dict_get user_filter "min_price" MIN_AIRBNB_PRICE)
        = Py.Ok lo
        /\ py_float float_of_string (dict_get user_filter "max_price" MAX_AIRBNB_PRICE)
           = Py.Ok hi
        /\ result = List.filter (in_price_range lo hi) (List.filter passes_quality listings)).
Proof.
  destruct (decide (user_filter = ∅)) as [->|Hne].
  - rewrite filter_listings_empty. intros [= <-]. left. split; reflexivity.
  - rewrite filter_listings_not_empty by exact Hne. cbv zeta.
    destruct (py_float float_of_string (dict_get user_filter "min_price" MIN_AIRBNB_PRICE))
      as [lo|]; cbn [Py.bind]; [|discriminate].
    destruct (py_float float_of_string (dict_get user_filter "max_price" MAX_AIRBNB_PRICE))
      as [hi|]; cbn [Py.bind]; [|discriminate].
    intros [= <-]. right. split; [exact Hne|]. exists lo, hi. repeat split.
Qed.

End WithParsers.

Lemma passes_quality_inv (l : Listing) :
  passes_quality l = true ->
  is_nan (review_score l) = false /\ (10 < num_reviews l)%Z
  /\ (75 <? review_score l)%float = true /\ host_identity_verified l = Some "t"%string.
Proof.
  unfold passes_quality, well_reviewed, host_verified. rewrite !andb_true_iff.
  intros [[Hn [Hr Hs]] Hv]. split; [apply negb_true_iff; exact Hn|].
  split; [apply Z.ltb_lt; exact Hr|]. split; [exact Hs|].
  destruct (host_identity_verified l) as [s|]; [|discriminate].
  apply String.eqb_eq in Hv. subst s. reflexivity.
Qed.

Lemma in_price_range_inv (lo hi : float) (l : Listing) :
  in_price_range lo hi l = true ->
  (lo <=? price l)%float = true /\ (price l <=? hi)%float = true
  /\ is_nan (price l) = false.
Proof.
  unfold in_price_range. rewrite andb_true_iff. intros [H1 H2].
  split; [exact H1|]. split; [exact H2|].
  destruct (is_nan (price l)) eqn:E; [|reflexivity].
  rewrite (leb_nan_r lo _ E) in H1. discriminate.
Qed.

End listings_facts.

(** * Further facts on [get_ideal_listings] *)

Module ideal_listings_facts.
Import Binary64 bounding_box airbnb airbnb_facts.

Lemma filter_filter_length {A : Type} (p q : A -> bool) (l : list A) :
  (length (List.filter q (List.filter p l)) <= length (List.filter q l))%nat.
Proof.
  induction l as [|x l IH]; [reflexivity|]. cbn [List.filter].
  destruct (p x), (q x) eqn:Hq; cbn [List.filter length]; rewrite ?Hq; cbn [length]; lia.
Qed.

Lemma occurrences_pos (r : Listing) (df : list Listing) :
  In r df -> (0 < occurrences r df)%nat.
Proof.
  intros Hin. unfold occurrences.
  assert (H : In r (List.filter (same_row r) df))
    by (apply List.filter_In; split; [exact Hin|apply same_row_refl]).
  destruct (List.filter (same_row r) df); [destruct H|cbn; lia].
Qed.

(** A row of the table occurs in the concatenated selections at least
    once for every box it lies in. *)
Lemma occurrences_ge (df : list Listing) (boxes : list BoundingBox) (r : Listing) :
  In r df ->
  (boxes_containing boxes r <= occurrences r (List.concat (map (select_in_box df) boxes)))%nat.
Proof.
  intros Hin. unfold boxes_containing.
  induction boxes as [|b bs IH]; [cbn; lia|].
  cbn [map List.concat List.filter]. rewrite occurrences_app.
  destruct (strictly_inside b r) eqn:Hs; cbn [length]; [|lia].
  assert (H : (0 < occurrences r (select_in_box df b))%nat).
  { apply occurrences_pos. rewrite select_in_box_filter.
    apply List.filter_In. split; assumption. }
  lia.
Qed.

Lemma boxes_containing_in (boxes : list BoundingBox) (location : BoundingBox) (r : Listing) :
  In location boxes -> strictly_inside location r = true ->
  (0 < boxes_containing boxes r)%nat.
Proof.
  intros Hb Hs. unfold boxes_containing.
  assert (H : In location (List.filter (fun location => strictly_inside location r) boxes))
    by (apply List.filter_In; split; assumption).
  destruct (List.filter _ boxes); [destruct H|cbn; lia].
Qed.

(** After [drop_duplicates(keep=False)] no row has an equal row left. *)
Lemma drop_duplicates_distinct (df : list Listing) :
  distinct_rows (drop_duplicates_keep_false df) = true.
Proof.
  unfold distinct_rows. apply List.forallb_forall. intros r Hr.
  pose proof (occurrences_pos r _ Hr) as Hpos.
  unfold drop_duplicates_keep_false in *. apply List.filter_In in Hr.
  destruct Hr as [_ Hone]. apply Nat.eqb_eq in Hone. apply Nat.eqb_eq.
  unfold occurrences in *.
  pose proof (filter_filter_length (fun r0 => (length (List.filter (same_row r0) df) =? 1)%nat)
                (same_row r) df).
  lia.
Qed.

Lemma filter_all {A : Type} (p : A -> bool) (l : list A) :
  forallb p l = true -> List.filter p l = l.
Proof.
  induction l as [|x l IH]; [reflexivity|]. cbn [forallb List.filter].
  intros H. apply andb_true_iff in H. destruct H as [-> H]. f_equal. exact (IH H).
Qed.

(** On a frame without equal rows it changes nothing. *)
Lemma drop_duplicates_id (df : list Listing) :
  distinct_rows df = true -> drop_duplicates_keep_false df = df.
Proof. apply filter_all. Qed.

Section WithLibm.
Variable cos : float -> float.

Lemma get_bounding_box_assert (lat lon r : float) :
  preconditions lat lon r = false ->
  get_bounding_box cos lat lon r = Py.Raise Py.AssertionError.
Proof.
  unfold preconditions, get_bounding_box, Py.assert. intros H.
  destruct (0 <? r)%float; [|reflexivity].
  destruct ((-90 <=? lat)%float && (lat <=? 90)%float); [|reflexivity].
  destruct ((-180 <=? lon)%float && (lon <=? 180)%float); [discriminate H|reflexivity].
Qed.

Lemma ideal_locations_invalid (centers : list (float * float)) (distance : float)
    (center : float * float) :
  In center centers -> preconditions (fst center) (snd center) distance = false ->
  exists e, ideal_locations cos centers distance = Py.Raise e.
Proof.
  unfold ideal_locations. induction centers as [|c cs IH]; intros Hin Hpre; [destruct Hin|].
  cbn [Py.comprehension].
  destruct (get_bounding_box cos (fst c) (snd c) distance) as [b|e] eqn:Hb; cbn [Py.bind];
    [|eexists; reflexivity].
  destruct Hin as [->|Hin].
  - rewrite (get_bounding_box_assert _ _ _ Hpre) in Hb. discriminate Hb.
  - destruct (IH Hin Hpre) as (e & He). rewrite He. cbn [Py.bind]. eexists; reflexivity.
Qed.

Lemma get_ideal_listings_exn (df : list Listing) (centers : list (float * float))
    (distance : float) (e : Py.exn) :
  get_ideal_listings cos df centers distance = Py.Raise e ->
  (e = Py.ValueError /\ centers = [])
  \/ (centers <> []
      /\ ideal_locations cos centers distance = Py.Raise e
      /\ (e = Py.AssertionError \/ e = Py.ZeroDivisionError)).
Proof.
  unfold get_ideal_listings.
  destruct (ideal_locations cos centers distance) as [boxes|e'] eqn:Hb; cbn [Py.bind].
  - apply ideal_locations_length in Hb.
    destruct boxes as [|b bs]; cbn [map concat Py.bind]; [|discriminate].
    intros [= <-]. left. split; [reflexivity|]. destruct centers; [reflexivity|discriminate Hb].
  - intros [= <-]. right. split; [intros ->; discriminate Hb|].
    split; [reflexivity|]. exact (ideal_locations_exn cos _ _ _ Hb).
Qed.

End WithLibm.

End ideal_listings_facts.

(** * Permuting the cluster centres *)

Module order_facts.
Import Binary64 bounding_box airbnb airbnb_facts.

Lemma filter_perm {A : Type} (p : A -> bool) (l l' : list A) :
  Permutation l l' -> Permutation (List.filter p l) (List.filter p l').
Proof.
  induction 1 as [|x l l' _ IH|x y l|l l' l'' _ IH1 _ IH2].
  - constructor.
  - cbn [List.filter]. destruct (p x); [constructor|]; exact IH.
  - cbn [List.filter]. destruct (p x), (p y); try reflexivity. constructor.
  - etransitivity; eassumption.
Qed.

Lemma concat_perm {A : Type} (l l' : list (list A)) :
  Permutation l l' -> Permutation (List.concat l) (List.concat l').
Proof.
  induction 1 as [|x l l' _ IH|x y l|l l' l'' _ IH1 _ IH2].
  - constructor.
  - cbn [List.concat]. apply Permutation_app_head. exact IH.
  - cbn [List.concat]. rewrite !app_assoc. apply Permutation_app_tail.
    apply Permutation_app_comm.
  - etransitivity; eassumption.
Qed.

Lemma comprehension_perm {A B : Type} (f : A -> Py.result B) (l l' : list A) :
  Permutation l l' ->
  forall bs, Py.comprehension f l = Py.Ok bs ->
  exists bs', Py.comprehension f l' = Py.Ok bs' /\ Permutation bs bs'.
Proof.
  induction 1 as [|x l l' _ IH|x y l|l l' l'' _ IH1 _ IH2]; intros bs H.
  - exists bs. split; [exact H|reflexivity].
  - cbn [Py.comprehension] in *. destruct (f x) as [b|]; cbn [Py.bind] in *; [|discriminate].
    destruct (Py.comprehension f l) as [bs0|]; cbn [Py.bind] in H; [|discriminate].
    injection H as <-. destruct (IH bs0 eq_refl) as (bs' & -> & Hp).
    exists (b :: bs'). split; [reflexivity|constructor; exact Hp].
  - cbn [Py.comprehension] in *.
    destruct (f y) as [b|]; cbn [Py.bind] in *; [|discriminate].
    destruct (f x) as [a|]; cbn [Py.bind] in *; [|discriminate].
    destruct (Py.comprehension f l) as [bs0|]; cbn [Py.bind] in *; [|discriminate].
    injection H as <-. exists (a :: b :: bs0). split; [reflexivity|constructor].
  - destruct (IH1 bs H) as (bs1 & H1 & P1). destruct (IH2 bs1 H1) as (bs2 & H2 & P2).
    exists bs2. split; [exact H2|etransitivity; eassumption].
Qed.

Lemma occurrences_perm (r : Listing) (df df' : list Listing) :
  Permutation df df' -> occurrences r df = occurrences r df'.
Proof.
  intros H. unfold occurrences. apply Permutation_length, filter_perm. exact H.
Qed.

Lemma drop_duplicates_perm (df df' : list Listing) :
  Permutation df df' ->
  Permutation (drop_duplicates_keep_false df) (drop_duplicates_keep_false df').
Proof.
  intros H. unfold drop_duplicates_keep_false.
  rewrite (List.filter_ext _ (fun r => (occurrences r df' =? 1)%nat))
    by (intros r; rewrite (occurrences_perm r df df' H); reflexivity).
  apply filter_perm. exact H.
Qed.

End order_facts.

(** * Further facts on lists *)

Module frames.

Lemma flat_map_nil {K A : Type} (keys : list K) :
  flat_map (fun _ : K => @nil A) keys = [].
Proof. induction keys as [|a ks IH]; [reflexivity|exact IH]. Qed.

Lemma flat_map_app_perm {K A : Type} (g h : K -> list A) (keys : list K) :
  Permutation (flat_map (fun a => g a ++ h a) keys) (flat_map g keys ++ flat_map h keys).
Proof.
  induction keys as [|a ks IH]; [constructor|]. cbn [flat_map].
  rewrite IH, <- !app_assoc. apply Permutation_app_head.
  rewrite !app_assoc. apply Permutation_app_tail. apply Permutation_app_comm.
Qed.

Section Partition.
Context {K A : Type} (select : K -> A -> bool).
Hypothesis select_one : forall a b x, select a x = true -> select b x = true -> a = b.

Lemma flat_map_select_one (keys : list K) (x : A) :
  List.NoDup keys ->
  flat_map (fun a => if select a x then [x] else []) keys
  = if existsb (fun a => select a x) keys then [x] else [].
Proof.
  induction 1 as [|a ks Hnot Hnd IH]; [reflexivity|]. cbn [flat_map existsb].
  rewrite IH. destruct (select a x) eqn:Ha; cbn [orb app]; [|reflexivity].
  destruct (existsb (fun a0 => select a0 x) ks) eqn:He; [|reflexivity].
  apply List.existsb_exists in He. destruct He as (b & Hb & Hs).
  rewrite (select_one a b x Ha Hs) in Hnot. contradiction.
Qed.

(** Selecting by each key in turn splits what any key selects. *)
Lemma select_partition (keys : list K) (l : list A) :
  List.NoDup keys ->
  Permutation (flat_map (fun a => List.filter (select a) l) keys)
    (List.filter (fun x => existsb (fun a => select a x) keys) l).
Proof.
  intros Hnd. induction l as [|x l IH].
  - cbn [List.filter]. rewrite flat_map_nil. constructor.
  - cbn [List.filter].
    transitivity (flat_map (fun a => (if select a x then [x] else [])
                                       ++ List.filter (select a) l) keys).
    { apply Permutation_refl'. apply List.flat_map_ext. intros a.
      destruct (select a x); reflexivity. }
    rewrite flat_map_app_perm, (flat_map_select_one keys x Hnd).
    destruct (existsb (fun a => select a x) keys); cbn [app]; [constructor|]; exact IH.
Qed.

End Partition.

Lemma flat_map_map_length {K A B : Type} (f : K -> A -> B) (g : K -> list A)
    (keys : list K) :
  length (flat_map (fun a => map (f a) (g a)) keys) = length (flat_map g keys).
Proof.
  induction keys as [|a ks IH]; [reflexivity|]. cbn [flat_map].
  rewrite !List.length_app, List.length_map, IH. reflexivity.
Qed.

Lemma filter_length_le {A : Type} (p : A -> bool) (l : list A) :
  (length (List.filter p l) <= length l)%nat.
Proof.
  induction l as [|x l IH]; [reflexivity|]. cbn [List.filter].
  destruct (p x); cbn [length]; lia.
Qed.

Lemma filter_length_lt {A : Type} (p : A -> bool) (l : list A) (x : A) :
  In x l -> p x = false -> (length (List.filter p l) < length l)%nat.
Proof.
  induction l as [|y l IH]; intros Hin Hp; [destruct Hin|]. cbn [List.filter].
  destruct Hin as [->|Hin].
  - rewrite Hp. pose proof (filter_length_le p l). cbn [length]. lia.
  - specialize (IH Hin Hp). destruct (p y); cbn [length]; lia.
Qed.

End frames.

(** * [filter_amenities] and [plot_amenities_cluster] *)

Module amenities_facts.
Import folium amenities frames.

Lemma fold_insert_lookup {V : Type} (f : string -> V) (keys : list string)
    (d : gmap string V) (key : string) :
  fold_left (fun d a => <[a := f a]> d) keys d !! key
  = if existsb (String.eqb key) keys then Some (f key) else d !! key.
Proof.
  revert d. induction keys as [|a ks IH]; intros d; [reflexivity|].
  cbn [fold_left existsb]. rewrite IH.
  destruct (existsb (String.eqb key) ks); [rewrite orb_true_r; reflexivity|].
  rewrite orb_false_r. destruct (String.eqb_spec key a) as [->|Hne].
  - apply lookup_insert_eq.
  - apply lookup_insert_ne. congruence.
Qed.

Lemma filter_amenities_lookup (locations : list (Z * Amenity)) (key : string) :
  filter_amenities locations !! key
  = if String.eqb key "all"
    then Some (List.filter
                 (fun ir => restaurants.isin (restaurants.amenity (snd ir)) BASIC_AMENITIES)
                 locations)
    else if existsb (String.eqb key) BASIC_AMENITIES
    then Some (List.filter (amenity_is key) locations)
    else None.
Proof.
  unfold filter_amenities. destruct (String.eqb_spec key "all") as [->|Hne].
  - apply lookup_insert_eq.
  - rewrite lookup_insert_ne by congruence.
    rewrite (fold_insert_lookup (fun a => List.filter (amenity_is a) locations)).
    destruct (existsb (String.eqb key) BASIC_AMENITIES); [reflexivity|apply lookup_empty].
Qed.

Lemma amenity_is_one (a b : string) (ir : Z * Amenity) :
  amenity_is a ir = true -> amenity_is b ir = true -> a = b.
Proof.
  unfold amenity_is, restaurants.same_name.
  destruct (restaurants.amenity (snd ir)) as [s|]; [|discriminate].
  intros Ha Hb. apply String.eqb_eq in Ha, Hb. congruence.
Qed.

Lemma isin_amenity_is (keys : list string) (ir : Z * Amenity) :
  restaurants.isin (restaurants.amenity (snd ir)) keys
  = existsb (fun a => amenity_is a ir) keys.
Proof.
  unfold restaurants.isin, amenity_is, restaurants.same_name.
  destruct (restaurants.amenity (snd ir)) as [s|]; [reflexivity|].
  induction keys as [|a ks IH]; [reflexivity|exact IH].
Qed.

Lemma BASIC_AMENITIES_NoDup : List.NoDup BASIC_AMENITIES.
Proof.
  unfold BASIC_AMENITIES.
  repeat (constructor; [cbn [In]; intros H; repeat (destruct H as [H|H]; [discriminate H|]);
                        exact H|]).
  constructor.
Qed.

Lemma amenities_partition (locations : list (Z * Amenity)) :
  Permutation
    (flat_map (fun a => List.filter (amenity_is a) locations) BASIC_AMENITIES)
    (List.filter
       (fun ir => restaurants.isin (restaurants.amenity (snd ir)) BASIC_AMENITIES)
       locations).
Proof.
  rewrite (List.filter_ext _ _ (isin_amenity_is BASIC_AMENITIES)).
  apply (select_partition amenity_is amenity_is_one). apply BASIC_AMENITIES_NoDup.
Qed.

End amenities_facts.

(** * The loop of [plot_amenities_cluster] *)

Module cluster_facts.
Import folium amenities frames.

Lemma apply_drop_mark_inv (frame : list Clustered) (layer out : FeatureGroup)
    (color : string) :
  apply_drop_mark frame layer color = Ok out ->
  out = layer ++ map (marker_of color) frame.
Proof.
  revert layer. induction frame as [|df frame IH]; intros layer.
  - intros [= <-]. symmetry. apply app_nil_r.
  - cbn [apply_drop_mark]. unfold drop_mark.
    destruct (valid_location _); cbn [bind]; [|discriminate].
    intros H. apply IH in H. rewrite H, <- app_assoc. reflexivity.
Qed.

Lemma apply_drop_mark_ok (frame : list Clustered) (layer : FeatureGroup) (color : string) :
  forallb valid_row frame = true ->
  apply_drop_mark frame layer color = Ok (layer ++ map (marker_of color) frame).
Proof.
  revert layer. induction frame as [|df frame IH]; intros layer H.
  - cbn. rewrite app_nil_r. reflexivity.
  - cbn [forallb] in H. apply andb_true_iff in H. destruct H as [Hv H].
    cbn [apply_drop_mark]. unfold drop_mark. unfold valid_row in Hv. rewrite Hv.
    cbn [bind]. rewrite (IH _ H), <- app_assoc. reflexivity.
Qed.

Lemma getitem_inv (i : Z) (color : string) :
  (0 <= i)%Z -> getitem CLUSTER_COLORS i = Ok color ->
  color = color_of i /\ (i < 15)%Z.
Proof.
  intros Hi. unfold getitem, color_of.
  destruct (Z.ltb_spec i 0); [lia|]. destruct (Z.ltb_spec i 0); [lia|].
  destruct (nth_error CLUSTER_COLORS (Z.to_nat i)) as [c|] eqn:E; [|discriminate].
  intros [= <-]. split.
  - symmetry. apply List.nth_error_nth. exact E.
  - assert (H1 : (Z.to_nat i < length CLUSTER_COLORS)%nat)
      by (apply List.nth_error_Some; congruence).
    cbn [CLUSTER_COLORS length] in H1. lia.
Qed.

Lemma getitem_ok (i : Z) :
  (0 <= i < 15)%Z -> getitem CLUSTER_COLORS i = Ok (color_of i).
Proof.
  intros Hi. unfold getitem, color_of.
  destruct (Z.ltb_spec i 0); [lia|]. destruct (Z.ltb_spec i 0); [lia|].
  destruct (nth_error CLUSTER_COLORS (Z.to_nat i)) as [c|] eqn:E.
  - f_equal. symmetry. apply List.nth_error_nth. exact E.
  - apply List.nth_error_None in E. cbn [CLUSTER_COLORS length] in E. lia.
Qed.

Lemma getitem_out (i : Z) : (15 <= i)%Z -> getitem CLUSTER_COLORS i = Raise IndexError.
Proof.
  intros Hi. unfold getitem.
  destruct (Z.ltb_spec i 0); [lia|]. destruct (Z.ltb_spec i 0); [lia|].
  destruct (nth_error CLUSTER_COLORS (Z.to_nat i)) as [c|] eqn:E; [|reflexivity].
  assert (H1 : (Z.to_nat i < length CLUSTER_COLORS)%nat)
    by (apply List.nth_error_Some; congruence).
  cbn [CLUSTER_COLORS length] in H1. lia.
Qed.

Lemma for_clusters_inv (indices : list Z) (amenities : list Clustered)
    (incidents out : FeatureGroup) :
  Forall (fun i => (0 <= i)%Z) indices ->
  for_clusters indices amenities incidents = Ok out ->
  out = incidents ++ drawn indices amenities /\ Forall (fun i => (i < 15)%Z) indices.
Proof.
  intros Hall. revert incidents. induction Hall as [|i rest Hi _ IH]; intros incidents.
  - intros [= <-]. split; [symmetry; apply app_nil_r|constructor].
  - cbn [for_clusters].
    destruct (getitem CLUSTER_COLORS i) as [color|] eqn:Hc; cbn [bind]; [|discriminate].
    destruct (getitem_inv i color Hi Hc) as [-> Hlt].
    destruct (apply_drop_mark _ incidents (color_of i)) as [layer|] eqn:Ha; cbn [bind];
      [|discriminate].
    apply apply_drop_mark_inv in Ha. subst layer. intros H. apply IH in H.
    destruct H as [-> Hall']. split; [|constructor; assumption].
    unfold drawn. cbn [flat_map]. rewrite <- !app_assoc. reflexivity.
Qed.

Lemma for_clusters_ok (indices : list Z) (amenities : list Clustered)
    (incidents : FeatureGroup) :
  Forall (fun i => (0 <= i < 15)%Z) indices ->
  forallb valid_row amenities = true ->
  for_clusters indices amenities incidents = Ok (incidents ++ drawn indices amenities).
Proof.
  intros Hall Hv. revert incidents. induction Hall as [|i rest Hi _ IH]; intros incidents.
  - cbn. rewrite app_nil_r. reflexivity.
  - cbn [for_clusters]. rewrite (getitem_ok i Hi). cbn [bind].
    rewrite apply_drop_mark_ok.
    + cbn [bind]. rewrite IH. unfold drawn. cbn [flat_map]. rewrite <- !app_assoc.
      reflexivity.
    + apply List.forallb_forall. intros df Hdf. apply List.filter_In in Hdf.
      rewrite List.forallb_forall in Hv. apply Hv. exact (proj1 Hdf).
Qed.

Lemma for_clusters_app (l1 l2 : list Z) (amenities : list Clustered)
    (incidents : FeatureGroup) :
  for_clusters (l1 ++ l2) amenities incidents
  = bind (for_clusters l1 amenities incidents) (for_clusters l2 amenities).
Proof.
  revert incidents. induction l1 as [|i l1 IH]; intros incidents; [reflexivity|].
  cbn [app for_clusters].
  destruct (getitem CLUSTER_COLORS i); cbn [bind]; [|reflexivity].
  destruct (apply_drop_mark _ incidents _); cbn [bind]; [apply IH|reflexivity].
Qed.

Lemma range_bounds (n i : Z) : In i (range n) <-> (0 <= i < n)%Z.
Proof.
  unfold range. rewrite List.in_map_iff. split.
  - intros (k & <- & Hk). apply List.in_seq in Hk. lia.
  - intros H. exists (Z.to_nat i). split; [lia|]. apply List.in_seq. lia.
Qed.

Lemma range_NoDup (n : Z) : List.NoDup (range n).
Proof.
  unfold range. apply List.NoDup_map_inv with (f := Z.to_nat).
  rewrite List.map_map. erewrite List.map_ext; [rewrite List.map_id; apply List.seq_NoDup|].
  intros k. apply Nat2Z.id.
Qed.

Lemma range_split (n : Z) :
  (15 < n)%Z -> exists rest, range n = range 15 ++ 15%Z :: rest.
Proof.
  intros H. unfold range.
  replace (Z.to_nat n) with (15 + S (Z.to_nat n - 16))%nat by lia.
  rewrite List.seq_app, List.map_app. cbn [seq map Nat.add].
  eexists. reflexivity.
Qed.

(** [max] returns one of the values of the column, the largest. *)
Lemma fold_max_spec (l : list Z) (x : Z) :
  In (fold_left Z.max l x) (x :: l) /\ Forall (fun y => (y <= fold_left Z.max l x)%Z) (x :: l).
Proof.
  revert x. induction l as [|y l IH]; intros x.
  - cbn. split; [left; reflexivity|repeat constructor; lia].
  - cbn [fold_left]. destruct (IH (Z.max x y)) as [Hin Hall]. split.
    + destruct Hin as [Hin|Hin]; [|right; right; exact Hin].
      rewrite <- Hin. destruct (Z.max_spec x y) as [[_ ->]|[_ ->]];
        [right; left|left]; reflexivity.
    + inversion Hall as [|? ? Hm Hl]; subst.
      constructor; [lia|]. constructor; [lia|exact Hl].
Qed.

Lemma py_max_spec (amenities : list Clustered) (highest : Z) :
  py_max (map clusters amenities) = Ok highest ->
  (exists df, In df amenities /\ clusters df = highest)
  /\ forall df, In df amenities -> (clusters df <= highest)%Z.
Proof.
  destruct amenities as [|d ds]; [discriminate|]. cbn [map py_max]. intros [= <-].
  destruct (fold_max_spec (map clusters ds) (clusters d)) as [Hin Hall]. split.
  - change (clusters d :: map clusters ds) with (map clusters (d :: ds)) in Hin.
    apply List.in_map_iff in Hin. destruct Hin as (df & Hdf & Hin). exists df. split; auto.
  - intros df Hdf. rewrite List.Forall_forall in Hall. apply Hall.
    change (clusters d :: map clusters ds) with (map clusters (d :: ds)).
    apply List.in_map. exact Hdf.
Qed.

(** The markers drawn for [range n] are as many as the rows labelled from
    0 to [n - 1]. *)
Lemma drawn_length (n : Z) (amenities : list Clustered) :
  length (drawn (range n) amenities)
  = length (List.filter (fun df => (0 <=? clusters df)%Z && (clusters df <? n)%Z) amenities).
Proof.
  unfold drawn.
  rewrite (flat_map_map_length (fun i => marker_of (color_of i))
             (fun i => List.filter (fun df => (clusters df =? i)%Z) amenities)).
  rewrite (Permutation_length
             (select_partition (fun i df => (clusters df =? i)%Z)
                ltac:(intros a b x Ha Hb; apply Z.eqb_eq in Ha, Hb; congruence)
                (range n) amenities (range_NoDup n))).
  f_equal. apply List.filter_ext. intros df.
  destruct (existsb (fun a => (clusters df =? a)%Z) (range n)) eqn:E.
  - apply List.existsb_exists in E. destruct E as (i & Hi & He).
    apply Z.eqb_eq in He. subst i. apply range_bounds in Hi.
    symmetry. apply andb_true_iff. split; [apply Z.leb_le|apply Z.ltb_lt]; lia.
  - symmetry. apply not_true_is_false. intros H. apply andb_true_iff in H.
    destruct H as [H1 H2]. apply Z.leb_le in H1. apply Z.ltb_lt in H2.
    assert (Hex : existsb (fun a => (clusters df =? a)%Z) (range n) = true).
    { apply List.existsb_exists. exists (clusters df). split; [|apply Z.eqb_refl].
      apply range_bounds. lia. }
    congruence.
Qed.

End cluster_facts.

(** * Further facts on the restaurants *)

Module restaurants_more.
Import folium restaurants restaurants_map restaurants_facts frames.

Lemma apply_drop_mark_valid (frame : list Branch) (layer : FeatureGroup) (color : string) :
  forallb (fun df => valid_location (lat (row df), lon (row df))) frame = true ->
  apply_drop_mark frame layer color = Py.Ok (layer ++ map (marker_of color) frame).
Proof.
  revert layer. induction frame as [|df frame IH]; intros layer H.
  - cbn. rewrite app_nil_r. reflexivity.
  - cbn [forallb] in H. apply andb_true_iff in H. destruct H as [Hv H].
    cbn [apply_drop_mark]. unfold drop_mark. rewrite Hv.
    cbn [Py.bind]. rewrite (IH _ H), <- app_assoc. reflexivity.
Qed.

Lemma mark_restaurants_ok (frame : list Branch) (color : string) (van_map : option Map) :
  forallb (fun df => valid_location (lat (row df), lon (row df))) frame = true ->
  mark_restaurants frame color van_map
  = Py.Ok (add_child (match van_map with
                      | Some m => m
                      | None => new_map VANCOUVER_COORDINATES 12
                      end)
             (map (marker_of color) frame)).
Proof.
  intros H. unfold mark_restaurants. rewrite (apply_drop_mark_valid _ _ _ H). reflexivity.
Qed.

Lemma with_total_branches_valid (restaurants : list (Z * Restaurant)) (p : Branch -> bool) :
  forallb valid_row restaurants = true ->
  forallb (fun df => valid_location (lat (row df), lon (row df)))
    (List.filter p (with_total_branches restaurants)) = true.
Proof.
  intros H. apply List.forallb_forall. intros b Hb. apply List.filter_In in Hb.
  destruct Hb as [Hb _]. unfold with_total_branches in Hb. apply List.in_map_iff in Hb.
  destruct Hb as (ir & <- & Hir). rewrite List.forallb_forall in H. exact (H ir Hir).
Qed.

(** Rows of one name have one [total_branches]. *)
Lemma branch_total (restaurants : list (Z * Restaurant)) (b : Branch) :
  In b (with_total_branches restaurants) ->
  total_branches b = Z.of_nat (branches (name (row b)) restaurants).
Proof.
  unfold with_total_branches. intros Hb. apply List.in_map_iff in Hb.
  destruct Hb as (ir & <- & _). reflexivity.
Qed.

Lemma same_name_sym (a b : option string) : same_name a b = same_name b a.
Proof. destruct a, b; try reflexivity. apply String.eqb_sym. Qed.

Lemma same_name_eq (a b : option string) : same_name a b = true -> a = b.
Proof.
  destruct a, b; try discriminate. intros H. apply String.eqb_eq in H. congruence.
Qed.

Lemma filter_rows_length (f : Z * Restaurant -> Z) (q : Restaurant -> bool)
    (restaurants : list (Z * Restaurant)) :
  length (List.filter (fun b => q (row b))
            (map (fun ir => {| index := fst ir; row := snd ir; total_branches := f ir |})
               restaurants))
  = length (List.filter (fun ir => q (snd ir)) restaurants).
Proof.
  induction restaurants as [|ir rs IH]; [reflexivity|].
  cbn [map List.filter row]. destruct (q (snd ir)); cbn [length]; rewrite <- IH; reflexivity.
Qed.

Lemma branches_with_total (restaurants : list (Z * Restaurant)) (nm : option string) :
  length (List.filter (fun b => same_name (name (row b)) nm) (with_total_branches restaurants))
  = branches nm restaurants.
Proof.
  unfold branches, with_total_branches.
  apply (filter_rows_length _ (fun r => same_name (name r) nm)).
Qed.

Lemma filter_filter_same {A : Type} (p q : A -> bool) (l : list A) :
  (forall x, In x l -> q x = true -> p x = true) ->
  List.filter q (List.filter p l) = List.filter q l.
Proof.
  induction l as [|x l IH]; intros H; [reflexivity|]. cbn [List.filter].
  destruct (q x) eqn:Hq.
  - rewrite (H x) by (auto; left; reflexivity). cbn [List.filter]. rewrite Hq.
    f_equal. apply IH. intros y Hy. apply H. right. exact Hy.
  - destruct (p x); cbn [List.filter]; rewrite ?Hq; apply IH; intros y Hy; apply H;
      right; exact Hy.
Qed.

(** All the rows that share a name fall on the same side of a threshold
    on [total_branches]. *)
Lemma group_closed (restaurants : list (Z * Restaurant)) (p : Z -> bool) (b : Branch) :
  In b (with_total_branches restaurants) -> p (total_branches b) = true ->
  length (List.filter (fun b' => same_name (name (row b')) (name (row b)))
            (List.filter (fun b' => p (total_branches b')) (with_total_branches restaurants)))
  = branches (name (row b)) restaurants.
Proof.
  intros Hb Hp. rewrite filter_filter_same; [apply branches_with_total|].
  intros b' Hb' Hs. apply same_name_eq in Hs.
  rewrite (branch_total _ _ Hb'), Hs, <- (branch_total _ _ Hb). exact Hp.
Qed.

Lemma get_restaurants_filter (locations : list (Z * Restaurant)) :
  get_restaurants locations
  = List.filter (fun ir => isin (amenity (snd ir)) RESTAURANTS && notna (name (snd ir)))
      locations.
Proof. unfold get_restaurants. apply airbnb_facts.filter_filter_andb. Qed.

Lemma get_restaurants_idempotent (locations : list (Z * Restaurant)) :
  get_restaurants (get_restaurants locations) = get_restaurants locations.
Proof. rewrite !get_restaurants_filter. apply listings_facts.filter_idempotent. Qed.

End restaurants_more.

(** * Further facts on [get_bounding_box] *)

Module bounding_box_more.
Import Rounding Binary64 bounding_box bounding_box_facts.
Local Open Scope float_scope.

(** Every comparison with NaN fails. *)
Lemma ltb_nan_r (x y : float) : is_nan y = true -> (x <? y) = false.
Proof.
  rewrite is_nan_spec, FloatAxioms.ltb_spec. intros ->. unfold SFltb.
  destruct (Prim2SF x); reflexivity.
Qed.

Lemma leb_nan_l (x y : float) : is_nan x = true -> (x <=? y) = false.
Proof. rewrite is_nan_spec, FloatAxioms.leb_spec. intros ->. reflexivity. Qed.

Lemma leb_refl (x : float) : is_nan x = false -> (x <=? x) = true.
Proof.
  intros H. rewrite FloatAxioms.leb_spec. apply SFleb_refl. intros E.
  apply is_nan_spec in E. congruence.
Qed.

Lemma leb_not_nan (x y : float) : (x <=? y) = true -> is_nan x = false /\ is_nan y = false.
Proof.
  intros H. split.
  - destruct (is_nan x) eqn:E; [|reflexivity]. rewrite (leb_nan_l x y E) in H. discriminate.
  - destruct (is_nan y) eqn:E; [|reflexivity]. rewrite (leb_nan_r x y E) in H. discriminate.
Qed.

(** A positive number, finite or not, divided by a larger divisor gives a
    smaller quotient. *)
Lemma div_anti_pos (r p1 p2 : float) :
  (0 <? r) = true ->
  (0 <? p1) = true -> (p1 <=? p2) = true -> (p2 <? infinity) = true ->
  (r / p2 <=? r / p1) = true.
Proof.
  intros Hr H1 Hle H2.
  destruct (r <? infinity) eqn:Hri; [apply div_anti; assumption|].
  assert (H1i : (p1 <? infinity) = true) by (eapply leb_ltb_trans; eassumption).
  assert (H20 : (0 <? p2) = true) by (eapply ltb_leb_trans; eassumption).
  destruct (positive_finite p1 H1 H1i) as (m1 & e1 & E1).
  destruct (positive_finite p2 H20 H2) as (m2 & e2 & E2).
  rewrite FloatAxioms.leb_spec, !div_spec, E1, E2.
  apply ltb_0_positive in Hr.
  rewrite FloatAxioms.ltb_spec, Prim2SF_infinity in Hri.
  destruct (Prim2SF r) as [?|[]| |[] m e]; try contradiction; try reflexivity.
  discriminate Hri.
Qed.

(** Sums and differences grow with their first term, for an offset that
    is not negative, infinite or not. *)
Lemma add_sub_mono_l_nonneg (x1 x2 d : float) :
  is_real (Prim2SF x1) -> is_real (Prim2SF x2) -> signed_as false (Prim2SF d) ->
  (x1 <=? x2) = true ->
  (x1 + d <=? x2 + d) = true /\ (x1 - d <=? x2 - d) = true.
Proof.
  intros R1 R2 Sd Hle.
  destruct (Prim2SF d) as [s|s| |s m e] eqn:Ed; try contradiction; cbn in Sd; subst s.
  - apply add_sub_mono_l; try assumption. rewrite Ed. exact I.
  - rewrite !FloatAxioms.leb_spec, !add_spec, !sub_spec, Ed.
    destruct (Prim2SF x1) as [?|?| |? ? ?], (Prim2SF x2) as [?|?| |? ? ?];
      try contradiction; split; reflexivity.
  - apply add_sub_mono_l; try assumption. rewrite Ed. exact I.
Qed.

End bounding_box_more.

(** * Further properties of the code *)

Section Extras.
Import Binary64 bounding_box bounding_box_facts bounding_box_more airbnb airbnb_facts.
Import listings_facts ideal_listings_facts get_listings_facts.
Local Open Scope float_scope.

(** X1 (NaN is rejected).  When the latitude, the longitude or the radius
    is NaN, the assertion on it fails: [get_bounding_box] raises
    [AssertionError] and returns no box, whatever the other arguments. *)
Theorem X1_get_bounding_box_rejects_nan (cos : float -> float) (lat lon r : float) :
  is_nan lat = true \/ is_nan lon = true \/ is_nan r = true ->
  get_bounding_box cos lat lon r = Py.Raise Py.AssertionError.
Proof.
  intros H. apply get_bounding_box_assert. unfold preconditions.
  destruct H as [H|[H|H]].
  - rewrite (leb_nan_r _ _ H). rewrite andb_false_r. reflexivity.
  - rewrite (leb_nan_r _ _ H). apply andb_false_r.
  - rewrite (ltb_nan_r _ _ H). reflexivity.
Qed.

Lemma X1_witness : get_bounding_box cos_poly nan 100 5 = Py.Raise Py.AssertionError.
Proof.
  apply (X1_get_bounding_box_rejects_nan cos_poly nan 100 5). left. reflexivity.
Defined.

(** X2 (wider towards the poles).  For one longitude and one radius, the
    box at the latitude whose cosine is smaller contains, in longitude,
    the box at the latitude whose cosine is larger, and its longitude
    span is not smaller. *)
Theorem X2_box_widens_towards_poles (cos : float -> float) (lat1 lat2 lon r : float) :
  preconditions lat1 lon r = true -> preconditions lat2 lon r = true ->
  cos_in_range cos lat1 -> cos_in_range cos lat2 ->
  (cos (Py.radians lat1) <=? cos (Py.radians lat2)) = true ->
  exists box1 box2,
    get_bounding_box cos lat1 lon r = Py.Ok box1
    /\ get_bounding_box cos lat2 lon r = Py.Ok box2
    /\ (lon_min box1 <=? lon_min box2) = true
    /\ (lon_max box2 <=? lon_max box1) = true
    /\ (lon_span box2 <=? lon_span box1) = true.
Proof.
  intros Hpre1 Hpre2 Hcos1 Hcos2 Hle.
  exists (box_of cos lat1 lon r), (box_of cos lat2 lon r).
  split; [apply get_bounding_box_ok; assumption|].
  split; [apply get_bounding_box_ok; assumption|].
  destruct (preconditions_inv _ _ _ Hpre1) as (Hr & _ & Hlon).
  destruct (longitude_real lon Hlon) as [Rlon Dlon].
  destruct (parallel_radius_range cos lat1 Hcos1) as [Hp1 _].
  destruct (parallel_radius_range cos lat2 Hcos2) as [_ Hi2].
  destruct (offsets_nonneg cos lat1 r Hr Hcos1) as [_ S1].
  destruct (offsets_nonneg cos lat2 r Hr Hcos2) as [_ S2].
  assert (Hp : (parallel_radius cos lat1 <=? parallel_radius cos lat2) = true).
  { unfold parallel_radius. rewrite !(mul_comm radius).
    apply mul_mono; [exact Hle|reflexivity|reflexivity]. }
  assert (D : (r / parallel_radius cos lat2 <=? r / parallel_radius cos lat1) = true)
    by (apply div_anti_pos; assumption).
  destruct (add_sub_mono (Py.radians lon) _ _ Rlon S2 S1 D) as [A1 A2].
  assert (N1 : (lon_min (box_of cos lat1 lon r) <=? lon_min (box_of cos lat2 lon r)) = true)
    by (cbn [box_of lon_min]; unfold Py.degrees; apply mul_mono;
        [exact A2|reflexivity|reflexivity]).
  assert (N2 : (lon_max (box_of cos lat2 lon r) <=? lon_max (box_of cos lat1 lon r)) = true)
    by (cbn [box_of lon_max]; unfold Py.degrees; apply mul_mono;
        [exact A1|reflexivity|reflexivity]).
  split; [exact N1|]. split; [exact N2|].
  destruct (box_brackets cos lat2 lon r Hpre2 Hcos2) as (_ & _ & K3 & K4).
  unfold lon_span. apply (sub_mono _ _ _ _ (Py.degrees (Py.radians lon))); assumption.
Qed.

Lemma X2_witness :
  exists box1 box2,
    get_bounding_box cos_poly 60 100 5 = Py.Ok box1
    /\ get_bounding_box cos_poly 0 100 5 = Py.Ok box2
    /\ (lon_min box1 <=? lon_min box2) = true
    /\ (lon_max box2 <=? lon_max box1) = true
    /\ (lon_span box2 <=? lon_span box1) = true.
Proof.
  apply (X2_box_widens_towards_poles cos_poly 60 0 100 5).
  - reflexivity.
  - reflexivity.
  - split; reflexivity.
  - split; reflexivity.
  - reflexivity.
Defined.

(** X3 (the box follows its centre).  For one radius, a centre further
    north has latitude bounds that are not further south; at latitudes of
    equal cosine, a centre further east has longitude bounds that are not
    further west. *)
Theorem X3_box_moves_with_centre (cos : float -> float) (lat1 lat2 lon1 lon2 r : float) :
  preconditions lat1 lon1 r = true -> preconditions lat2 lon2 r = true ->
  cos_in_range cos lat1 -> cos_in_range cos lat2 ->
  exists box1 box2,
    get_bounding_box cos lat1 lon1 r = Py.Ok box1
    /\ get_bounding_box cos lat2 lon2 r = Py.Ok box2
    /\ ((lat1 <=? lat2) = true ->
        (lat_min box1 <=? lat_min box2) = true /\ (lat_max box1 <=? lat_max box2) = true)
    /\ (cos (Py.radians lat1) = cos (Py.radians lat2) -> (lon1 <=? lon2) = true ->
        (lon_min box1 <=? lon_min box2) = true /\ (lon_max box1 <=? lon_max box2) = true).
Proof.
  intros Hpre1 Hpre2 Hcos1 Hcos2.
  exists (box_of cos lat1 lon1 r), (box_of cos lat2 lon2 r).
  split; [apply get_bounding_box_ok; assumption|].
  split; [apply get_bounding_box_ok; assumption|].
  destruct (preconditions_inv _ _ _ Hpre1) as (Hr & Hlat1 & Hlon1).
  destruct (preconditions_inv _ _ _ Hpre2) as (_ & Hlat2 & Hlon2).
  destruct (latitude_real lat1 Hlat1) as [Rlat1 _].
  destruct (latitude_real lat2 Hlat2) as [Rlat2 _].
  destruct (longitude_real lon1 Hlon1) as [Rlon1 _].
  destruct (longitude_real lon2 Hlon2) as [Rlon2 _].
  destruct (offsets_nonneg cos lat1 r Hr Hcos1) as [S1 S2].
  cbn [box_of lat_min lat_max lon_min lon_max]. unfold Py.degrees. split.
  - intros Hle.
    assert (Hrad : (Py.radians lat1 <=? Py.radians lat2) = true)
      by (apply mul_mono; [exact Hle|reflexivity|reflexivity]).
    destruct (add_sub_mono_l_nonneg _ _ _ Rlat1 Rlat2 S1 Hrad) as [A1 A2].
    split; apply mul_mono; try assumption; reflexivity.
  - intros Hc Hle. unfold parallel_radius. rewrite <- Hc.
    fold (parallel_radius cos lat1).
    assert (Hrad : (Py.radians lon1 <=? Py.radians lon2) = true)
      by (apply mul_mono; [exact Hle|reflexivity|reflexivity]).
    destruct (add_sub_mono_l_nonneg _ _ _ Rlon1 Rlon2 S2 Hrad) as [A1 A2].
    split; apply mul_mono; try assumption; reflexivity.
Qed.

Lemma X3_witness :
  (exists box1 box2,
      get_bounding_box cos_poly 0 100 5 = Py.Ok box1
      /\ get_bounding_box cos_poly 60 100 5 = Py.Ok box2
      /\ (lat_min box1 <=? lat_min box2) = true /\ (lat_max box1 <=? lat_max box2) = true)
  /\ (exists box1 box2,
        get_bounding_box cos_poly 0 100 5 = Py.Ok box1
        /\ get_bounding_box cos_poly 0 120 5 = Py.Ok box2
        /\ (lon_min box1 <=? lon_min box2) = true /\ (lon_max box1 <=? lon_max box2) = true).
Proof.
  split.
  - destruct (X3_box_moves_with_centre cos_poly 0 60 100 100 5)
      as (box1 & box2 & H1 & H2 & Hlat & _);
      [reflexivity|reflexivity|split; reflexivity|split; reflexivity|].
    exists box1, box2. split; [exact H1|]. split; [exact H2|]. apply Hlat. reflexivity.
  - destruct (X3_box_moves_with_centre cos_poly 0 0 100 120 5)
      as (box1 & box2 & H1 & H2 & _ & Hlon);
      [reflexivity|reflexivity|split; reflexivity|split; reflexivity|].
    exists box1, box2. split; [exact H1|]. split; [exact H2|].
    apply Hlon; reflexivity.
Defined.

(** X4 (the lower price bound is always 0).  Whatever the user answers
    to the two prompts, the dictionary of [get_user_input] has no key
    ["min_price"], so [filter_listings] never reads the minimum: with no
    answer at all there is no price selection; with a maximum that
    [float] accepts the prices kept are those from 0 to that maximum;
    with a maximum that [float] rejects, [ValueError] is raised; with a
    minimum only, the prices kept are those from 0 to 100000. *)
Theorem X4_lower_price_bound_is_always_zero
    (float_of_string : string -> option float) (listings : list Listing)
    (min_price max_price : string) :
  get_user_input min_price max_price !! "min_price"%string = None
  /\ filter_listings float_of_string listings (get_user_input min_price max_price)
     = if negb (Py.truthy min_price) && negb (Py.truthy max_price)
       then Py.Ok (List.filter passes_quality listings)
       else if Py.truthy max_price
       then match float_of_string max_price with
            | Some hi =>
                Py.Ok (List.filter (in_price_range (Py.float_of_int MIN_AIRBNB_PRICE) hi)
                         (List.filter passes_quality listings))
            | None => Py.Raise Py.ValueError
            end
       else Py.Ok (List.filter
                     (in_price_range (Py.float_of_int MIN_AIRBNB_PRICE)
                        (Py.float_of_int MAX_AIRBNB_PRICE))
                     (List.filter passes_quality listings)).
Proof.
  split.
  - apply get_user_input_min_price.
  - apply filter_listings_user_input.
Qed.

(** X5 (what [filter_listings] keeps).  Whenever [filter_listings]
    returns, its result is a selection of the rows of its input, in their
    order, and every row of it has a review score that is not missing and
    above 75, more than 10 reviews and a host whose identity is verified
    (['t']); with a non-empty dictionary its price is not missing
    either. *)
Theorem X5_filter_listings_keeps_only_quality_rows
    (float_of_string : string -> option float) (listings : list Listing)
    (user_filter : gmap string string) (result : list Listing) :
  filter_listings float_of_string listings user_filter = Py.Ok result ->
  sublist result listings
  /\ forall l,
      In l result ->
      In l listings
      /\ is_nan (review_score l) = false /\ (10 < num_reviews l)%Z
      /\ (75 <? review_score l) = true /\ host_identity_verified l = Some "t"%string
      /\ (user_filter <> ∅ -> is_nan (price l) = false).
Proof.
  intros H. apply filter_listings_shape in H.
  destruct H as [[-> ->]|(Hne & lo & hi & _ & _ & ->)].
  - split; [apply filter_sublist|]. intros l Hl. apply List.filter_In in Hl.
    destruct Hl as [Hin Hq]. destruct (passes_quality_inv l Hq) as (H1 & H2 & H3 & H4).
    repeat split; try assumption. intros Hc. contradiction.
  - split.
    + etrans; apply filter_sublist.
    + intros l Hl. apply List.filter_In in Hl. destruct Hl as [Hl Hp].
      apply List.filter_In in Hl. destruct Hl as [Hin Hq].
      destruct (passes_quality_inv l Hq) as (H1 & H2 & H3 & H4).
      destruct (in_price_range_inv lo hi l Hp) as (_ & _ & H5).
      repeat split; try assumption. intros _. exact H5.
Qed.

Lemma X5_witness :
  sublist [samples.listing 1 0 100 30]
    [samples.listing 1 0 100 30; samples.listing 2 0 100 (-1)]
  /\ forall l,
      In l [samples.listing 1 0 100 30] ->
      In l [samples.listing 1 0 100 30; samples.listing 2 0 100 (-1)]
      /\ is_nan (review_score l) = false /\ (10 < num_reviews l)%Z
      /\ (75 <? review_score l) = true /\ host_identity_verified l = Some "t"%string
      /\ (get_user_input "50" EmptyString <> ∅ -> is_nan (price l) = false).
Proof.
  apply (X5_filter_listings_keeps_only_quality_rows samples.parse_digits
           [samples.listing 1 0 100 30; samples.listing 2 0 100 (-1)]
           (get_user_input "50" EmptyString) [samples.listing 1 0 100 30]).
  rewrite filter_listings_user_input. reflexivity.
Defined.

(** X6 ([filter_listings] is idempotent).  Filtering the result of
    [filter_listings] again, with the same dictionary, returns it
    unchanged. *)
Theorem X6_filter_listings_idempotent
    (float_of_string : string -> option float) (listings : list Listing)
    (user_filter : gmap string string) (result : list Listing) :
  filter_listings float_of_string listings user_filter = Py.Ok result ->
  filter_listings float_of_string result user_filter = Py.Ok result.
Proof.
  intros H. apply filter_listings_shape in H.
  destruct H as [[-> ->]|(Hne & lo & hi & Hlo & Hhi & ->)].
  - rewrite filter_listings_empty, filter_idempotent. reflexivity.
  - rewrite filter_listings_not_empty by exact Hne. rewrite Hlo, Hhi. cbn [Py.bind].
    rewrite !(filter_filter_andb passes_quality (in_price_range lo hi)), filter_idempotent.
    reflexivity.
Qed.

Lemma X6_witness :
  filter_listings samples.parse_digits [samples.listing 1 0 100 30]
    (get_user_input "50" EmptyString)
  = Py.Ok [samples.listing 1 0 100 30].
Proof.
  apply (X6_filter_listings_idempotent samples.parse_digits
           [samples.listing 1 0 100 30; samples.listing 2 0 100 (-1)]).
  rewrite filter_listings_user_input. reflexivity.
Defined.

(** X7 (the entries of [filter_amenities]).  For every table, the
    dictionary has an entry for each of the nine basic amenities, the
    rows of that category, and the entry ['all'], the rows of any basic
    category; it has no other key, and every entry is a selection of the
    rows of the table, in their order. *)
Theorem X7_filter_amenities_entries
    (locations : list (Z * amenities.Amenity)) (key : string) :
  amenities.filter_amenities locations !! key
  = (if String.eqb key "all"
     then Some (List.filter
                  (fun ir => restaurants.isin (restaurants.amenity (snd ir))
                               amenities.BASIC_AMENITIES)
                  locations)
     else if existsb (String.eqb key) amenities.BASIC_AMENITIES
     then Some (List.filter (amenities.amenity_is key) locations)
     else None)
  /\ forall rows,
      amenities.filter_amenities locations !! key = Some rows ->
      sublist rows locations
      /\ forall ir, In ir rows ->
                    exists category,
                      restaurants.amenity (snd ir) = Some category
                      /\ In category amenities.BASIC_AMENITIES
                      /\ (key = "all"%string \/ key = category).
Proof.
  split; [apply amenities_facts.filter_amenities_lookup|].
  intros rows. rewrite amenities_facts.filter_amenities_lookup.
  destruct (String.eqb_spec key "all") as [->|Hne].
  - intros [= <-]. split; [apply filter_sublist|]. intros ir Hir.
    apply List.filter_In in Hir. destruct Hir as [_ Hir]. unfold restaurants.isin in Hir.
    destruct (restaurants.amenity (snd ir)) as [category|]; [|discriminate].
    apply List.existsb_exists in Hir. destruct Hir as (a & Ha & He).
    apply String.eqb_eq in He. subst a. exists category. auto.
  - destruct (existsb (String.eqb key) amenities.BASIC_AMENITIES) eqn:Hk; [|discriminate].
    intros [= <-]. split; [apply filter_sublist|]. intros ir Hir.
    apply List.filter_In in Hir. destruct Hir as [_ Hir].
    unfold amenities.amenity_is, restaurants.same_name in Hir.
    destruct (restaurants.amenity (snd ir)) as [category|]; [|discriminate].
    apply String.eqb_eq in Hir. subst category. exists key.
    apply List.existsb_exists in Hk. destruct Hk as (a & Ha & He).
    apply String.eqb_eq in He. subst a. auto.
Qed.

(** X8 (['all'] is split by category).  The entries of the nine basic
    amenities, put together, hold exactly the rows of the entry ['all'],
    each once: every row of ['all'] is in the entry of its own category
    and in no other. *)
Theorem X8_filter_amenities_all_is_partitioned (locations : list (Z * amenities.Amenity)) :
  exists all,
    amenities.filter_amenities locations !! "all"%string = Some all
    /\ Permutation
         (flat_map (fun a => default [] (amenities.filter_amenities locations !! a))
            amenities.BASIC_AMENITIES)
         all
    /\ forall ir,
        In ir all ->
        exists a,
          In a amenities.BASIC_AMENITIES
          /\ In ir (default [] (amenities.filter_amenities locations !! a))
          /\ forall a', In a' amenities.BASIC_AMENITIES ->
                         In ir (default [] (amenities.filter_amenities locations !! a')) ->
                         a' = a.
Proof.
  assert (Hentry : forall a, In a amenities.BASIC_AMENITIES ->
                     default [] (amenities.filter_amenities locations !! a)
                     = List.filter (amenities.amenity_is a) locations).
  { intros a Ha. rewrite amenities_facts.filter_amenities_lookup.
    destruct (String.eqb_spec a "all") as [->|_].
    - exfalso. cbn [amenities.BASIC_AMENITIES In] in Ha.
      repeat (destruct Ha as [Ha|Ha]; [discriminate Ha|]). exact Ha.
    - assert (He : existsb (String.eqb a) amenities.BASIC_AMENITIES = true)
        by (apply List.existsb_exists; exists a; split; [exact Ha|apply String.eqb_refl]).
      rewrite He. reflexivity. }
  eexists. split; [rewrite amenities_facts.filter_amenities_lookup; reflexivity|]. split.
  - assert (E : flat_map (fun a => default [] (amenities.filter_amenities locations !! a))
                 amenities.BASIC_AMENITIES
               = flat_map (fun a => List.filter (amenities.amenity_is a) locations)
                   amenities.BASIC_AMENITIES).
    { rewrite !List.flat_map_concat_map. apply (f_equal (@List.concat _)).
      apply List.map_ext_in. exact Hentry. }
    rewrite E. apply amenities_facts.amenities_partition.
  - intros ir Hir. apply List.filter_In in Hir. destruct Hir as [Hin Hir].
    rewrite amenities_facts.isin_amenity_is in Hir. apply List.existsb_exists in Hir.
    destruct Hir as (a & Ha & Hs). exists a. split; [exact Ha|]. split.
    + rewrite (Hentry a Ha). apply List.filter_In. split; assumption.
    + intros a' Ha' Hin'. rewrite (Hentry a' Ha') in Hin'. apply List.filter_In in Hin'.
      exact (amenities_facts.amenity_is_one a' a ir (proj2 Hin') Hs).
Qed.

(** X9 (the highest cluster is never drawn).  Whenever
    [plot_amenities_cluster] returns, the layer it adds to the map holds
    one marker for each row labelled from 0 to one less than the highest
    label of the table, label after label, in the colour
    [CLUSTER_COLORS[label]].  The rows of the highest label (there is at
    least one) get no marker, so fewer markers are drawn than the table
    has rows. *)
Theorem X9_highest_cluster_is_never_drawn
    (clustered : list amenities.Clustered) (van_map : option folium.Map) (m : folium.Map) :
  amenities.plot_amenities_cluster clustered van_map = amenities.Ok m ->
  exists highest incidents,
    amenities.py_max (map amenities.clusters clustered) = amenities.Ok highest
    /\ (exists df, In df clustered /\ amenities.clusters df = highest)
    /\ m = folium.add_child
             (match van_map with
              | Some m0 => m0
              | None => folium.new_map VANCOUVER_COORDINATES 12
              end) incidents
    /\ incidents = amenities.drawn (amenities.range highest) clustered
    /\ length incidents
       = length (List.filter
                   (fun df => (0 <=? amenities.clusters df)%Z
                              && (amenities.clusters df <? highest)%Z) clustered)
    /\ (length incidents < length clustered)%nat.
Proof.
  unfold amenities.plot_amenities_cluster.
  destruct (amenities.py_max (map amenities.clusters clustered)) as [highest|] eqn:Hmax;
    cbn [amenities.bind]; [|discriminate].
  destruct (amenities.for_clusters (amenities.range highest) clustered [])
    as [incidents|] eqn:Hfor; cbn [amenities.bind]; [|discriminate].
  intros [= <-]. exists highest, incidents.
  destruct (cluster_facts.py_max_spec _ _ Hmax) as [(df & Hdf & Hc) _].
  apply cluster_facts.for_clusters_inv in Hfor;
    [|apply List.Forall_forall; intros i Hi; apply cluster_facts.range_bounds in Hi; lia].
  destruct Hfor as [Hinc _]. cbn [app] in Hinc.
  split; [reflexivity|]. split; [exists df; split; assumption|].
  split; [reflexivity|]. split; [exact Hinc|].
  rewrite Hinc, cluster_facts.drawn_length. split; [reflexivity|].
  apply (frames.filter_length_lt _ _ df Hdf).
  rewrite Hc. rewrite Z.ltb_irrefl. apply andb_false_r.
Qed.

Lemma X9_witness :
  exists highest incidents,
    amenities.py_max (map amenities.clusters more_samples.three_amenities)
    = amenities.Ok highest
    /\ (exists df, In df more_samples.three_amenities /\ amenities.clusters df = highest)
    /\ folium.add_child (folium.new_map VANCOUVER_COORDINATES 12)
         [amenities.marker_of "red" (more_samples.amenity "bank" 49 (-123) 0);
          amenities.marker_of "blue"
            (more_samples.amenity "bar" 49 (-0x1.ec66666666666p+6) 1)]
       = folium.add_child (folium.new_map VANCOUVER_COORDINATES 12) incidents
    /\ incidents = amenities.drawn (amenities.range highest) more_samples.three_amenities
    /\ length incidents
       = length (List.filter
                   (fun df => (0 <=? amenities.clusters df)%Z
                              && (amenities.clusters df <? highest)%Z)
                   more_samples.three_amenities)
    /\ (length incidents < length more_samples.three_amenities)%nat.
Proof.
  apply (X9_highest_cluster_is_never_drawn more_samples.three_amenities None).
  reflexivity.
Defined.

(** X10 (when [plot_amenities_cluster] raises).  On a table without rows
    [max] raises [ValueError].  On a table whose coordinates are all
    numbers, the call returns a map when the highest label is at most 15
    and raises [IndexError] when it is above 15: [CLUSTER_COLORS] has 15
    colours. *)
Theorem X10_plot_amenities_cluster_errors
    (clustered : list amenities.Clustered) (van_map : option folium.Map) :
  amenities.plot_amenities_cluster [] van_map = amenities.Raise amenities.ValueError
  /\ forall highest,
      amenities.py_max (map amenities.clusters clustered) = amenities.Ok highest ->
      forallb amenities.valid_row clustered = true ->
      ((highest <= 15)%Z ->
       exists m, amenities.plot_amenities_cluster clustered van_map = amenities.Ok m)
      /\ ((15 < highest)%Z ->
          amenities.plot_amenities_cluster clustered van_map
          = amenities.Raise amenities.IndexError).
Proof.
  split; [reflexivity|]. intros highest Hmax Hvalid.
  unfold amenities.plot_amenities_cluster. rewrite Hmax. cbn [amenities.bind]. split.
  - intros Hle. rewrite cluster_facts.for_clusters_ok.
    + cbn [amenities.bind]. eexists. reflexivity.
    + apply List.Forall_forall. intros i Hi. apply cluster_facts.range_bounds in Hi. lia.
    + exact Hvalid.
  - intros Hlt. destruct (cluster_facts.range_split highest Hlt) as (rest & ->).
    rewrite cluster_facts.for_clusters_app, cluster_facts.for_clusters_ok.
    + cbn [amenities.bind amenities.for_clusters].
      rewrite (cluster_facts.getitem_out 15) by lia. reflexivity.
    + apply List.Forall_forall. intros i Hi. apply cluster_facts.range_bounds in Hi. lia.
    + exact Hvalid.
Qed.

Lemma X10_witness :
  exists m,
    amenities.plot_amenities_cluster more_samples.three_amenities None = amenities.Ok m.
Proof.
  apply (proj2 (X10_plot_amenities_cluster_errors more_samples.three_amenities None) 2%Z).
  - reflexivity.
  - reflexivity.
  - lia.
Defined.

(** X11 (one marker for every restaurant).  For restaurants that all
    have a name and coordinates that are numbers, the map of chain and
    non-chain restaurants is the map of Vancouver with two layers: a red
    marker for each row of the chain group, then a blue marker for each
    row of the other group, in the order of the groups.  Together they
    are as many as the restaurants. *)
Theorem X11_every_restaurant_gets_one_marker
    (restaurants : list (Z * restaurants.Restaurant)) :
  restaurants.all_named restaurants = true ->
  forallb restaurants_map.valid_row restaurants = true ->
  exists chain_restaurants non_chain_restaurants,
    restaurants.split_restaurants restaurants
    = Py.Ok (chain_restaurants, non_chain_restaurants)
    /\ restaurants_map.chain_non_chain_mark restaurants
       = Py.Ok {| folium.center := restaurants_map.VANCOUVER_COORDINATES;
                  folium.zoom_start := 12;
                  folium.children :=
                    [map (restaurants_map.marker_of "red") chain_restaurants;
                     map (restaurants_map.marker_of "blue") non_chain_restaurants] |}
    /\ (length chain_restaurants + length non_chain_restaurants = length restaurants)%nat.
Proof.
  intros Hnamed Hvalid. do 2 eexists.
  split; [apply restaurants_facts.split_restaurants_ok; exact Hnamed|]. split.
  - unfold restaurants_map.chain_non_chain_mark.
    rewrite (restaurants_facts.split_restaurants_ok _ Hnamed). cbn [Py.bind fst snd].
    rewrite restaurants_more.mark_restaurants_ok
      by (apply restaurants_more.with_total_branches_valid; exact Hvalid).
    cbn [Py.bind].
    rewrite restaurants_more.mark_restaurants_ok
      by (apply restaurants_more.with_total_branches_valid; exact Hvalid).
    reflexivity.
  - rewrite <- List.length_app.
    rewrite (Permutation_length
               (restaurants_facts.filter_partition
                  (fun b => (1 <? restaurants.total_branches b)%Z)
                  (fun b => (restaurants.total_branches b <? 2)%Z)
                  (restaurants.with_total_branches restaurants)
                  ltac:(intros b;
                        destruct (Z.ltb_spec 1 (restaurants.total_branches b)),
                          (Z.ltb_spec (restaurants.total_branches b) 2);
                        try reflexivity; lia))).
    unfold restaurants.with_total_branches. apply List.length_map.
Qed.

Lemma X11_witness :
  exists chain_restaurants non_chain_restaurants,
    restaurants.split_restaurants samples.three_restaurants
    = Py.Ok (chain_restaurants, non_chain_restaurants)
    /\ restaurants_map.chain_non_chain_mark samples.three_restaurants
       = Py.Ok {| folium.center := restaurants_map.VANCOUVER_COORDINATES;
                  folium.zoom_start := 12;
                  folium.children :=
                    [map (restaurants_map.marker_of "red") chain_restaurants;
                     map (restaurants_map.marker_of "blue") non_chain_restaurants] |}
    /\ (length chain_restaurants + length non_chain_restaurants
        = length samples.three_restaurants)%nat.
Proof.
  apply (X11_every_restaurant_gets_one_marker samples.three_restaurants); reflexivity.
Defined.

(** X12 (what [get_ideal_listings] never returns).  For every table,
    equal rows or not, every listing of the result is a listing of the
    table that lies strictly inside exactly one of the boxes: a listing
    inside no box, or inside two or more, is never returned. *)
Theorem X12_ideal_listings_lie_in_exactly_one_box
    (cos : float -> float) (airbnb_locations : list Listing)
    (clusters_center : list (float * float)) (distance : float)
    (ideal_rentals : list Listing) :
  get_ideal_listings cos airbnb_locations clusters_center distance = Py.Ok ideal_rentals ->
  exists boxes,
    ideal_locations cos clusters_center distance = Py.Ok boxes
    /\ length boxes = length clusters_center
    /\ forall l,
        In l ideal_rentals ->
        In l airbnb_locations /\ boxes_containing boxes l = 1%nat.
Proof.
  intros Hget.
  destruct (get_ideal_listings_inv cos _ _ _ _ Hget) as (boxes & Hboxes & ->).
  exists boxes. split; [exact Hboxes|].
  split; [exact (ideal_locations_length cos _ _ _ Hboxes)|].
  intros l Hl. unfold drop_duplicates_keep_false in Hl. apply List.filter_In in Hl.
  destruct Hl as [Hall Hone]. apply Nat.eqb_eq in Hone.
  apply in_all_selections in Hall. destruct Hall as (Hin & b & Hb & Hs).
  split; [exact Hin|].
  pose proof (occurrences_ge airbnb_locations boxes l Hin).
  pose proof (boxes_containing_in boxes b l Hb Hs). lia.
Qed.

Lemma X12_witness :
  exists boxes,
    ideal_locations cos_poly [(0, 100); (0, 0x1.9020c49ba5e35p+6)] 5 = Py.Ok boxes
    /\ length boxes = 2%nat
    /\ forall l,
        In l [samples.listing 1 0 0x1.8fdf3b645a1cbp+6 80] ->
        In l [samples.listing 1 0 0x1.8fdf3b645a1cbp+6 80;
              samples.listing 2 0 0x1.90083126e978dp+6 90;
              samples.listing 2 0 0x1.90083126e978dp+6 90]
        /\ boxes_containing boxes l = 1%nat.
Proof.
  apply (X12_ideal_listings_lie_in_exactly_one_box cos_poly
           [samples.listing 1 0 0x1.8fdf3b645a1cbp+6 80;
            samples.listing 2 0 0x1.90083126e978dp+6 90;
            samples.listing 2 0 0x1.90083126e978dp+6 90]
           [(0, 100); (0, 0x1.9020c49ba5e35p+6)] 5).
  reflexivity.
Defined.

(** X13 (no equal rows in the result).  Whatever the table, the result
    of [get_ideal_listings] holds no two equal rows, and dropping
    duplicates from it again changes nothing. *)
Theorem X13_ideal_listings_has_no_equal_rows
    (cos : float -> float) (airbnb_locations : list Listing)
    (clusters_center : list (float * float)) (distance : float)
    (ideal_rentals : list Listing) :
  get_ideal_listings cos airbnb_locations clusters_center distance = Py.Ok ideal_rentals ->
  distinct_rows ideal_rentals = true
  /\ (forall l, In l ideal_rentals -> occurrences l ideal_rentals = 1%nat)
  /\ drop_duplicates_keep_false ideal_rentals = ideal_rentals.
Proof.
  intros Hget.
  destruct (get_ideal_listings_inv cos _ _ _ _ Hget) as (boxes & _ & ->).
  pose proof (drop_duplicates_distinct
                (List.concat (map (select_in_box airbnb_locations) boxes))) as Hd.
  split; [exact Hd|]. split.
  - intros l Hl. unfold distinct_rows in Hd. rewrite List.forallb_forall in Hd.
    apply Nat.eqb_eq. exact (Hd l Hl).
  - apply drop_duplicates_id. exact Hd.
Qed.

Lemma X13_witness :
  distinct_rows [samples.listing 1 0 0x1.8fdf3b645a1cbp+6 80] = true
  /\ (forall l, In l [samples.listing 1 0 0x1.8fdf3b645a1cbp+6 80] ->
                occurrences l [samples.listing 1 0 0x1.8fdf3b645a1cbp+6 80] = 1%nat)
  /\ drop_duplicates_keep_false [samples.listing 1 0 0x1.8fdf3b645a1cbp+6 80]
     = [samples.listing 1 0 0x1.8fdf3b645a1cbp+6 80].
Proof.
  apply (X13_ideal_listings_has_no_equal_rows cos_poly
           [samples.listing 1 0 0x1.8fdf3b645a1cbp+6 80;
            samples.listing 2 0 0x1.90083126e978dp+6 90;
            samples.listing 2 0 0x1.90083126e978dp+6 90]
           [(0, 100); (0, 0x1.9020c49ba5e35p+6)] 5).
  reflexivity.
Defined.

(** X14 (when [get_ideal_listings] raises).  The only exceptions are
    [ValueError], exactly when there is no centre, and, with at least one
    centre, the [AssertionError] or [ZeroDivisionError] of
    [get_bounding_box].  One centre that fails an assertion, anywhere in
    the list, is enough for the call to raise, whatever the listings: so
    does a distance that is not positive. *)
Theorem X14_get_ideal_listings_errors
    (cos : float -> float) (airbnb_locations : list Listing)
    (clusters_center : list (float * float)) (distance : float) :
  (forall e,
      get_ideal_listings cos airbnb_locations clusters_center distance = Py.Raise e ->
      (e = Py.ValueError /\ clusters_center = [])
      \/ (clusters_center <> [] /\ (e = Py.AssertionError \/ e = Py.ZeroDivisionError)))
  /\ (forall center,
        In center clusters_center ->
        preconditions (fst center) (snd center) distance = false ->
        get_ideal_listings cos airbnb_locations clusters_center distance
        = Py.Raise Py.AssertionError
        \/ get_ideal_listings cos airbnb_locations clusters_center distance
           = Py.Raise Py.ZeroDivisionError)
  /\ (clusters_center <> [] -> (0 <? distance) = false ->
      get_ideal_listings cos airbnb_locations clusters_center distance
      = Py.Raise Py.AssertionError).
Proof.
  split; [|split].
  - intros e He. apply get_ideal_listings_exn in He.
    destruct He as [He|(Hne & _ & He)]; [left; exact He|right; split; assumption].
  - intros center Hin Hpre.
    destruct (ideal_locations_invalid cos _ _ _ Hin Hpre) as (e & He).
    unfold get_ideal_listings. rewrite He. cbn [Py.bind].
    destruct (ideal_locations_exn cos _ _ _ He) as [->| ->]; [left|right]; reflexivity.
  - intros Hne Hd. destruct clusters_center as [|c cs]; [contradiction|].
    unfold get_ideal_listings, ideal_locations. cbn [Py.comprehension].
    rewrite get_bounding_box_assert by (unfold preconditions; rewrite Hd; reflexivity).
    reflexivity.
Qed.

(** X15 (a centre given twice empties its box).  When the same centre
    occurs twice in the list of centres, no listing strictly inside its
    box is returned. *)
Theorem X15_repeated_centre_empties_its_box
    (cos : float -> float) (airbnb_locations : list Listing)
    (before between after : list (float * float)) (center : float * float)
    (distance : float) (ideal_rentals : list Listing) (box : BoundingBox) :
  get_ideal_listings cos airbnb_locations
    (before ++ center :: between ++ center :: after) distance = Py.Ok ideal_rentals ->
  get_bounding_box cos (fst center) (snd center) distance = Py.Ok box ->
  forall l, In l ideal_rentals -> strictly_inside box l = false.
Proof.
  intros Hget Hbox l Hl.
  destruct (get_ideal_listings_inv cos _ _ _ _ Hget) as (boxes & Hboxes & ->).
  assert (Hsplit : exists b1 b2 b3, boxes = b1 ++ box :: b2 ++ box :: b3).
  { clear Hl Hget. unfold ideal_locations in Hboxes.
    assert (Happ : forall l1 l2 bs,
               Py.comprehension
                 (fun c => get_bounding_box cos (fst c) (snd c) distance) (l1 ++ l2)
               = Py.Ok bs ->
               exists bs1 bs2,
                 bs = bs1 ++ bs2
                 /\ Py.comprehension
                      (fun c => get_bounding_box cos (fst c) (snd c) distance) l2
                    = Py.Ok bs2).
    { induction l1 as [|c l1 IH]; intros l2 bs H.
      - exists [], bs. split; [reflexivity|exact H].
      - cbn [app Py.comprehension] in H.
        destruct (get_bounding_box cos (fst c) (snd c) distance) as [b|];
          cbn [Py.bind] in H; [|discriminate].
        destruct (Py.comprehension _ (l1 ++ l2)) as [bs'|] eqn:E; cbn [Py.bind] in H;
          [|discriminate].
        injection H as <-. destruct (IH l2 bs' E) as (bs1 & bs2 & -> & H2).
        exists (b :: bs1), bs2. split; [reflexivity|exact H2]. }
    destruct (Happ _ _ _ Hboxes) as (b1 & r1 & -> & H1).
    cbn [Py.comprehension] in H1. rewrite Hbox in H1. cbn [Py.bind] in H1.
    destruct (Py.comprehension _ (between ++ center :: after)) as [r2|] eqn:E2;
      cbn [Py.bind] in H1; [|discriminate].
    injection H1 as <-. destruct (Happ _ _ _ E2) as (b2 & r3 & -> & H3).
    cbn [Py.comprehension] in H3. rewrite Hbox in H3. cbn [Py.bind] in H3.
    destruct (Py.comprehension _ after) as [b3|]; cbn [Py.bind] in H3; [|discriminate].
    injection H3 as <-. exists b1, b2, b3. reflexivity. }
  destruct Hsplit as (b1 & b2 & b3 & ->).
  unfold drop_duplicates_keep_false in Hl. apply List.filter_In in Hl.
  destruct Hl as [Hall Hone]. apply Nat.eqb_eq in Hone.
  apply in_all_selections in Hall. destruct Hall as (Hin & _).
  pose proof (occurrences_ge airbnb_locations (b1 ++ box :: b2 ++ box :: b3) l Hin) as Hge.
  destruct (strictly_inside box l) eqn:Hs; [|reflexivity]. exfalso.
  unfold boxes_containing in Hge.
  rewrite List.filter_app, List.length_app in Hge. cbn [List.filter] in Hge.
  rewrite Hs in Hge. cbn [length] in Hge.
  rewrite List.filter_app, List.length_app in Hge. cbn [List.filter] in Hge.
  rewrite Hs in Hge. cbn [length] in Hge. lia.
Qed.

Lemma X15_witness :
  strictly_inside (box_of cos_poly 0 100 5) (samples.listing 2 0 110 90) = false.
Proof.
  apply (X15_repeated_centre_empties_its_box cos_poly
           [samples.listing 1 0 100 80; samples.listing 2 0 110 90]
           [] [] [(0, 110)] (0, 100) 5 [samples.listing 2 0 110 90]).
  - reflexivity.
  - reflexivity.
  - left. reflexivity.
Defined.

(** X16 ([get_restaurants]).  [get_restaurants] keeps, in their order,
    exactly the rows whose category is ['restaurant'], ['cafe'] or
    ['fast_food'] and whose name is not missing; applying it twice is
    applying it once; and [split_restaurants] never raises on what it
    returns, placing each of its rows in one of the two groups. *)
Theorem X16_get_restaurants_selects_named_restaurants
    (locations : list (Z * restaurants.Restaurant)) :
  sublist (restaurants.get_restaurants locations) locations
  /\ (forall ir,
        In ir (restaurants.get_restaurants locations)
        <-> In ir locations
            /\ (exists category,
                  restaurants.amenity (snd ir) = Some category
                  /\ In category restaurants.RESTAURANTS)
            /\ (exists nm, restaurants.name (snd ir) = Some nm))
  /\ restaurants.get_restaurants (restaurants.get_restaurants locations)
     = restaurants.get_restaurants locations
  /\ exists chain_restaurants non_chain_restaurants,
      restaurants.split_restaurants (restaurants.get_restaurants locations)
      = Py.Ok (chain_restaurants, non_chain_restaurants)
      /\ (length chain_restaurants + length non_chain_restaurants
          = length (restaurants.get_restaurants locations))%nat.
Proof.
  split; [|split; [|split]].
  - rewrite restaurants_more.get_restaurants_filter. apply filter_sublist.
  - intros ir. rewrite restaurants_more.get_restaurants_filter, List.filter_In, andb_true_iff.
    unfold restaurants.isin, restaurants.notna. split.
    + intros (Hin & Ha & Hn). split; [exact Hin|]. split.
      * destruct (restaurants.amenity (snd ir)) as [category|]; [|discriminate].
        exists category. split; [reflexivity|]. apply List.existsb_exists in Ha.
        destruct Ha as (a & Ha & He). apply String.eqb_eq in He. subst a. exact Ha.
      * destruct (restaurants.name (snd ir)) as [nm|]; [|discriminate].
        exists nm. reflexivity.
    + intros (Hin & (category & -> & Hc) & (nm & ->)). split; [exact Hin|].
      split; [|reflexivity]. apply List.existsb_exists. exists category.
      split; [exact Hc|apply String.eqb_refl].
  - apply restaurants_more.get_restaurants_idempotent.
  - pose proof (restaurants_facts.get_restaurants_named locations) as Hnamed.
    do 2 eexists.
    split; [apply restaurants_facts.split_restaurants_ok; exact Hnamed|].
    rewrite <- List.length_app.
    rewrite (Permutation_length
               (restaurants_facts.filter_partition
                  (fun b => (1 <? restaurants.total_branches b)%Z)
                  (fun b => (restaurants.total_branches b <? 2)%Z)
                  (restaurants.with_total_branches (restaurants.get_restaurants locations))
                  ltac:(intros b;
                        destruct (Z.ltb_spec 1 (restaurants.total_branches b)),
                          (Z.ltb_spec (restaurants.total_branches b) 2);
                        try reflexivity; lia))).
    unfold restaurants.with_total_branches. apply List.length_map.
Qed.

(** X17 (when [split_restaurants] raises).  [split_restaurants] raises
    exactly when some row has no name, and the exception is then
    [KeyError]; it raises nothing else. *)
Theorem X17_split_restaurants_raises_iff_nameless
    (restaurants : list (Z * restaurants.Restaurant)) :
  (restaurants.all_named restaurants = false ->
   restaurants.split_restaurants restaurants = Py.Raise Py.KeyError)
  /\ (forall e,
        restaurants.split_restaurants restaurants = Py.Raise e ->
        e = Py.KeyError /\ restaurants.all_named restaurants = false)
  /\ (forall groups,
        restaurants.split_restaurants restaurants = Py.Ok groups ->
        restaurants.all_named restaurants = true).
Proof.
  split; [apply restaurants_facts.split_restaurants_nameless|]. split.
  - intros e He. destruct (restaurants.all_named restaurants) eqn:Hn.
    + rewrite (restaurants_facts.split_restaurants_ok _ Hn) in He. discriminate He.
    + rewrite (restaurants_facts.split_restaurants_nameless _ Hn) in He.
      injection He as <-. split; reflexivity.
  - intros groups Hg. destruct (restaurants.all_named restaurants) eqn:Hn; [reflexivity|].
    rewrite (restaurants_facts.split_restaurants_nameless _ Hn) in Hg. discriminate Hg.
Qed.

(** X18 (rows of one name stay together).  Whenever [split_restaurants]
    returns, the rows that share a name are all in the same group: a row
    of the chain group has at least two rows of its name in that group,
    as many as [total_branches] says, and none in the other group; a row
    of the non-chain group is the only row of its name, in its group and
    in the table. *)
Theorem X18_rows_of_one_name_stay_together
    (restaurants : list (Z * restaurants.Restaurant))
    (chain_restaurants non_chain_restaurants : list restaurants.Branch) :
  restaurants.split_restaurants restaurants
  = Py.Ok (chain_restaurants, non_chain_restaurants) ->
  (forall b,
      In b chain_restaurants ->
      (2 <= restaurants.total_branches b)%Z
      /\ Z.of_nat
           (length (List.filter
                      (fun b' => restaurants.same_name
                                   (restaurants.name (restaurants.row b'))
                                   (restaurants.name (restaurants.row b)))
                      chain_restaurants))
         = restaurants.total_branches b
      /\ forall b', In b' non_chain_restaurants ->
                    restaurants.name (restaurants.row b')
                    <> restaurants.name (restaurants.row b))
  /\ (forall b,
        In b non_chain_restaurants ->
        restaurants.total_branches b = 1%Z
        /\ length (List.filter
                     (fun b' => restaurants.same_name
                                  (restaurants.name (restaurants.row b'))
                                  (restaurants.name (restaurants.row b)))
                     non_chain_restaurants) = 1%nat
        /\ restaurants.branches (restaurants.name (restaurants.row b)) restaurants = 1%nat).
Proof.
  intros Hsplit.
  assert (Hnamed : restaurants.all_named restaurants = true).
  { destruct (restaurants.all_named restaurants) eqn:Hn; [reflexivity|].
    rewrite (restaurants_facts.split_restaurants_nameless _ Hn) in Hsplit.
    discriminate Hsplit. }
  rewrite (restaurants_facts.split_restaurants_ok _ Hnamed) in Hsplit.
  injection Hsplit as <- <-.
  assert (Hpos : forall b, In b (restaurants.with_total_branches restaurants) ->
                   (1 <= restaurants.total_branches b)%Z).
  { intros b Hb. unfold restaurants.with_total_branches in Hb.
    apply List.in_map_iff in Hb. destruct Hb as (ir & <- & Hir). cbn.
    unfold restaurants.all_named in Hnamed. rewrite List.forallb_forall in Hnamed.
    pose proof (restaurants_facts.branches_pos restaurants ir Hir (Hnamed ir Hir)). lia. }
  split.
  - intros b Hb. apply List.filter_In in Hb. destruct Hb as [Hb Hp].
    pose proof Hp as Hlt. apply Z.ltb_lt in Hlt. split; [lia|]. split.
    + rewrite (restaurants_more.group_closed restaurants (fun n => (1 <? n)%Z) b Hb Hp).
      symmetry. apply restaurants_more.branch_total. exact Hb.
    + intros b' Hb' Hname. apply List.filter_In in Hb'. destruct Hb' as [Hb' Hp'].
      apply Z.ltb_lt in Hp'.
      rewrite (restaurants_more.branch_total _ _ Hb'), Hname,
        <- (restaurants_more.branch_total _ _ Hb) in Hp'. lia.
  - intros b Hb. apply List.filter_In in Hb. destruct Hb as [Hb Hp].
    pose proof Hp as Hlt. apply Z.ltb_lt in Hlt. pose proof (Hpos b Hb) as Hge.
    assert (Hone : restaurants.total_branches b = 1%Z) by lia.
    pose proof (restaurants_more.branch_total _ _ Hb) as Htot.
    split; [exact Hone|]. split.
    + rewrite (restaurants_more.group_closed restaurants (fun n => (n <? 2)%Z) b Hb Hp).
      lia.
    + lia.
Qed.

Lemma X18_witness :
  (forall b,
      In b [ {| restaurants.index := 0;
                restaurants.row := samples.restaurant "Starbucks" 0x1.89f867f0aa21ap+5
                                     (-0x1.ec7703f2d3c79p+6);
                restaurants.total_branches := 2 |};
             {| restaurants.index := 2;
                restaurants.row := samples.restaurant "Starbucks" 0x1.8a66666666666p+5
                                     (-0x1.ec66666666666p+6);
                restaurants.total_branches := 2 |} ] ->
      (2 <= restaurants.total_branches b)%Z)
  /\ (forall b,
        In b [ {| restaurants.index := 1;
                  restaurants.row := samples.restaurant "Chez Ada" 49 (-123);
                  restaurants.total_branches := 1 |} ] ->
        restaurants.total_branches b = 1%Z).
Proof.
  destruct (X18_rows_of_one_name_stay_together samples.three_restaurants
              [ {| restaurants.index := 0;
                   restaurants.row := samples.restaurant "Starbucks" 0x1.89f867f0aa21ap+5
                                        (-0x1.ec7703f2d3c79p+6);
                   restaurants.total_branches := 2 |};
                {| restaurants.index := 2;
                   restaurants.row := samples.restaurant "Starbucks" 0x1.8a66666666666p+5
                                        (-0x1.ec66666666666p+6);
                   restaurants.total_branches := 2 |} ]
              [ {| restaurants.index := 1;
                   restaurants.row := samples.restaurant "Chez Ada" 49 (-123);
                   restaurants.total_branches := 1 |} ]) as [Hchain Hother].
  - rewrite restaurants_facts.split_restaurants_ok; reflexivity.
  - split.
    + intros b Hb. exact (proj1 (Hchain b Hb)).
    + intros b Hb. exact (proj1 (Hother b Hb)).
Defined.



(** X20 (the order of the centres does not matter).  Giving the same
    cluster centres in another order gives the same listings, possibly in
    another order: if [get_ideal_listings] returns for one order, it
    returns for the other, and the two results are permutations of each
    other. *)
Theorem X20_order_of_centres_is_irrelevant
    (cos : float -> float) (airbnb_locations : list Listing)
    (clusters_center clusters_center' : list (float * float)) (distance : float)
    (ideal_rentals : list Listing) :
  Permutation clusters_center clusters_center' ->
  get_ideal_listings cos airbnb_locations clusters_center distance = Py.Ok ideal_rentals ->
  exists ideal_rentals',
    get_ideal_listings cos airbnb_locations clusters_center' distance
    = Py.Ok ideal_rentals'
    /\ Permutation ideal_rentals ideal_rentals'.
Proof.
  intros Hperm Hget.
  destruct (get_ideal_listings_inv cos _ _ _ _ Hget) as (boxes & Hboxes & ->).
  destruct (order_facts.comprehension_perm _ _ _ Hperm boxes Hboxes) as (boxes' & Hb' & Hp).
  assert (Hne : boxes <> []).
  { intros ->. unfold get_ideal_listings in Hget. rewrite Hboxes in Hget.
    discriminate Hget. }
  exists (drop_duplicates_keep_false
            (List.concat (map (select_in_box airbnb_locations) boxes'))). split.
  - unfold get_ideal_listings, ideal_locations. rewrite Hb'. cbn [Py.bind].
    destruct boxes' as [|b bs]; [|reflexivity].
    apply Permutation_sym, Permutation_nil in Hp. contradiction.
  - apply order_facts.drop_duplicates_perm, order_facts.concat_perm, Permutation_map.
    exact Hp.
Qed.

Lemma X20_witness :
  exists ideal_rentals',
    get_ideal_listings cos_poly
      [samples.listing 1 0 0x1.8fdf3b645a1cbp+6 80;
       samples.listing 2 0 0x1.90083126e978dp+6 90;
       samples.listing 3 0 120 70]
      [(0, 0x1.9020c49ba5e35p+6); (0, 100)] 5
    = Py.Ok ideal_rentals'
    /\ Permutation [samples.listing 1 0 0x1.8fdf3b645a1cbp+6 80] ideal_rentals'.
Proof.
  apply (X20_order_of_centres_is_irrelevant cos_poly
           [samples.listing 1 0 0x1.8fdf3b645a1cbp+6 80;
            samples.listing 2 0 0x1.90083126e978dp+6 90;
            samples.listing 3 0 120 70]
           [(0, 100); (0, 0x1.9020c49ba5e35p+6)]
           [(0, 0x1.9020c49ba5e35p+6); (0, 100)] 5).
  - apply perm_swap.
  - reflexivity.
Defined.

End Extras.
